(** * mautrix-googlechat: the portal engine and its schema step

    A shallow embedding of
    - [mautrix_googlechat/db/upgrade/v11_add_space_mxid_to_user.py]
      (module [Migration]),
    - [Portal._download_external_attachment] (module [Download]),
    - the persistent rows the portal reads and writes (module [Store]),
    - the handlers of [mautrix_googlechat/portal.py] (module [Portal]),
    followed by the relations used to state what a handler leaves alone
    (module [Frame]) and by concrete inputs (module [Samples]).

    Python's [await] points are sequenced in program order: handlers
    run one after the other, so a lock never blocks. Everything the
    portal reaches through another object (the remote client, the
    home-network intents, the puppet table, the formatter, the clock)
    is a call answered by an environment that has a state of its own,
    so a call may answer differently each time and may raise.
    Exceptions are explicit results; writes to the portal and to the
    store persist when an exception passes. Logging is left out, and the
    store itself does not fail. *)

From Stdlib Require Import ZArith String Ascii Lia.
From stdpp Require Import base option list gmap sets strings pretty.

Local Open Scope string_scope.
Local Open Scope Z_scope.
Local Open Scope list_scope.

(** ** The schema step *)
Module Migration.

(** The double-quote character of the SQL identifier ["user"]. *)
Definition dq : string := String (ascii_of_nat 34) EmptyString.
Definition nl : string := String (ascii_of_nat 10) EmptyString.
Definition indent8 : string := "        ".

(** The triple-quoted literal of [create_table_queries], as written:
    a newline, the statement indented by eight spaces, a newline and
    the indentation of the closing quotes. *)
Definition add_space_mxid_query : string :=
  nl +:+ indent8 +:+ "ALTER TABLE " +:+ dq +:+ "user" +:+ dq
     +:+ " ADD COLUMN space_mxid TEXT" +:+ nl +:+ indent8.

Definition create_table_queries : list string := [add_space_mxid_query].

(** The description the step is registered under. *)
Definition description : string := "Add space MXID to User".

(** A structured reading of the one kind of DDL statement the step
    issues, with its SQL text. A column declared without [NOT NULL]
    is nullable. *)
Inductive sqltype := TEXT | BIGINT | BOOLEAN.

Record add_column := {
  ac_table : string;
  ac_column : string;
  ac_type : sqltype;
  ac_not_null : bool
}.

Definition render_type (t : sqltype) : string :=
  match t with TEXT => "TEXT" | BIGINT => "BIGINT" | BOOLEAN => "BOOLEAN" end.

Definition render (a : add_column) : string :=
  "ALTER TABLE " +:+ dq +:+ ac_table a +:+ dq +:+ " ADD COLUMN "
    +:+ ac_column a +:+ " " +:+ render_type (ac_type a)
    +:+ (if ac_not_null a then " NOT NULL" else "").

Definition is_space (c : ascii) : bool :=
  let n := nat_of_ascii c in
  (Nat.eqb n 32 || Nat.eqb n 10 || Nat.eqb n 9 || Nat.eqb n 13)%bool.

Fixpoint lstrip (s : string) : string :=
  match s with
  | String c r => if is_space c then lstrip r else s
  | EmptyString => EmptyString
  end.

Fixpoint rstrip (s : string) : string :=
  match s with
  | String c r =>
      match rstrip r with
      | EmptyString => if is_space c then EmptyString else String c EmptyString
      | r' => String c r'
      end
  | EmptyString => EmptyString
  end.

Definition strip (s : string) : string := rstrip (lstrip s).

Section Run.
(** The connection: [conn.execute] either raises or returns the
    connection after the statement. *)
Context {Conn Err : Type}.
Variable execute : Conn -> string -> Err + Conn.

(** [for query in queries: await conn.execute(query)]: the first
    raise leaves the loop and the function. *)
Fixpoint run_queries (qs : list string) (c : Conn) : Err + Conn :=
  match qs with
  | [] => inr c
  | q :: rest =>
      match execute c q with
      | inl e => inl e
      | inr c' => run_queries rest c'
      end
  end.

Definition upgrade_v6 (c : Conn) : Err + Conn :=
  run_queries create_table_queries c.
End Run.

(** A connection that records what it is asked to execute and fails
    on the statements of [bad]. *)
Definition logging_execute (bad : string -> bool)
    (log : list string) (q : string) : string + list string :=
  if bad q then inl q else inr (log ++ [q]).

End Migration.

(** ** Downloading an attachment from a foreign host *)
Module Download.

Definition bytes := list Byte.byte.

(** The body as the network hands it over: each element is what one
    [read] finds buffered. Every sequence of non-empty blocks that
    [StreamReader.read] can return is the reading of such a list. *)
Definition stream := list bytes.

(** [int(resp.headers.get("Content-Length", "0"))]: the header is
    absent, holds an integer, or makes [int] raise. *)
Inductive length_header := LenAbsent | LenInt (n : Z) | LenMalformed.

Record response := {
  status : Z;
  content_length : length_header;
  content_type : option string;
  body : stream
}.

Inductive error :=
| ClientResponseError (status : Z)
| ValueError
| FileTooLargeError (msg : string)
| LoopNotFinished.

Definition total (s : stream) : nat := length (concat s).

(** [await resp.content.read(n)]: nothing for [n = 0], the rest of the
    body for [n < 0], otherwise at most [n] bytes of what is buffered;
    an empty block only at the end of the body. *)
Fixpoint read_some (n : nat) (s : stream) : bytes * stream :=
  match s with
  | [] => ([], [])
  | c :: rest =>
      match c with
      | [] => read_some n rest
      | _ :: _ =>
          if (length c <=? n)%nat then (c, rest)
          else (take n c, drop n c :: rest)
      end
  end.

Definition read (n : Z) (s : stream) : bytes * stream :=
  if n =? 0 then ([], s)
  else if n <? 0 then (concat s, [])
  else read_some (Z.to_nat n) s.

(** The [while True] loop; [fuel] bounds the number of rounds. *)
Fixpoint read_blocks (fuel : nat) (max_size : Z) (s : stream) (blocks : list bytes)
    : option (list bytes * stream) :=
  match fuel with
  | O => None
  | S fuel' =>
      let '(block, s') := read max_size s in
      match block with
      | [] => Some (blocks, s')
      | _ :: _ =>
          read_blocks fuel' (max_size - Z.of_nat (length block)) s' (blocks ++ [block])
      end
  end.

(** [url.path.split("/")[-1]] *)
Fixpoint last_segment_from (acc : string) (path : string) : string :=
  match path with
  | EmptyString => acc
  | String c r =>
      if Ascii.eqb c "/" then last_segment_from "" r
      else last_segment_from (acc +:+ String c "") r
  end.

Definition last_segment (path : string) : string := last_segment_from "" path.

Definition header_int (h : length_header) : error + Z :=
  match h with
  | LenAbsent => inr 0
  | LenInt n => inr n
  | LenMalformed => inl ValueError
  end.

Record download := {
  data : bytes;
  mime : string;
  filename : string
}.

Section Fetch.
(** [magic.from_buffer(data, mime=True)] *)
Variable sniff : bytes -> string.

(** The result, and what is left unread of the body. *)
Definition _download_external_attachment (url_path : string) (max_size : Z)
    (resp : response) : (error + download) * stream :=
  if 400 <=? status resp then (inl (ClientResponseError (status resp)), body resp)
  else
    let filename := last_segment url_path in
    match header_int (content_length resp) with
    | inl e => (inl e, body resp)
    | inr declared =>
        if (0 <? max_size) && (max_size <? declared)
        then (inl (FileTooLargeError "Image size larger than maximum"), body resp)
        else
          match read_blocks (S (total (body resp))) max_size (body resp) [] with
          | None => (inl LoopNotFinished, body resp)
          | Some (blocks, rest) =>
              let data := concat blocks in
              let mime :=
                match content_type resp with
                | Some ct => if String.eqb ct "" then sniff data else ct
                | None => sniff data
                end in
              (inr {| data := data; mime := mime; filename := filename |}, rest)
          end
    end.
End Fetch.

End Download.

(** ** Identifiers and Python's truth of strings *)

Definition RoomID := string.
Definition EventID := string.
Definition UserID := string.

(** A Python [str] whose code points matter (an emoji): the list of
    its code points. *)
Definition text := list N.

(** [bool(s)] for a [str], and for an [Optional[str]]. *)
Definition nonempty (s : string) : bool := negb (String.eqb s "").

Definition truthy (o : option string) : bool :=
  match o with
  | Some s => nonempty s
  | None => false
  end.

(** [a or b] on optional strings. *)
Definition or_else (a : option string) (b : string) : string :=
  match a with
  | Some s => if nonempty s then s else b
  | None => b
  end.

(** [s.startswith(prefix)] is Stdlib's [String.prefix prefix s]. *)
Definition startswith (s pre : string) : bool := String.prefix pre s.

(** [s.rstrip(chars)] on code points. *)
Fixpoint rstrip (chars : list N) (s : text) : text :=
  match s with
  | [] => []
  | c :: r =>
      match rstrip chars r with
      | [] => if bool_decide (c ∈ chars) then [] else [c]
      | r' => c :: r'
      end
  end.

(** [s.endswith(suffix)] *)
Definition endswith (s suf : string) : bool :=
  (String.length suf <=? String.length s)%nat
  && String.eqb (substring (String.length s - String.length suf) (String.length suf) s) suf.

(** [s.split(sep)] for a one-character separator. *)
Fixpoint split_from (sep : ascii) (acc : string) (s : string) : list string :=
  match s with
  | EmptyString => [acc]
  | String c r =>
      if Ascii.eqb c sep then acc :: split_from sep "" r
      else split_from sep (acc +:+ String c "") r
  end.

Definition split (sep : ascii) (s : string) : list string := split_from sep "" s.

(** [s.upper()] on the letters of ASCII. *)
Definition upper_ascii (c : ascii) : ascii :=
  let n := nat_of_ascii c in
  if ((97 <=? n) && (n <=? 122))%nat then ascii_of_nat (n - 32) else c.

Fixpoint upper (s : string) : string :=
  match s with
  | EmptyString => EmptyString
  | String c r => String (upper_ascii c) (upper r)
  end.

(** U+FE0F, the emoji presentation selector. *)
Definition VS16 : N := 65039%N.

(** ** The rows of the store *)
Module Store.

(** A row of table [message]. *)
Record Message := {
  mxid : EventID;
  mx_room : RoomID;
  gcid : string;
  gc_chat : string;
  gc_receiver : string;
  gc_parent_id : option string;
  index : Z;
  timestamp : Z;
  msgtype : string;
  gc_sender : string
}.

(** A row of table [reaction]. *)
Record Reaction := {
  r_mxid : EventID;
  r_mx_room : RoomID;
  emoji : text;
  r_gc_sender : string;
  gc_msgid : string;
  r_gc_chat : string;
  r_gc_receiver : string;
  r_timestamp : Z
}.

(** A row of table [portal]. *)
Record PortalRow := {
  p_gcid : string;
  p_gc_receiver : string;
  p_other_user_id : option string;
  p_mxid : option RoomID;
  p_name : option string;
  p_encrypted : bool;
  p_is_threaded : option bool
}.

Record db := {
  messages : list Message;
  reactions : list Reaction;
  portals : list PortalRow
}.

Definition with_messages (f : list Message -> list Message) (d : db) : db :=
  {| messages := f (messages d); reactions := reactions d; portals := portals d |}.
Definition with_reactions (f : list Reaction -> list Reaction) (d : db) : db :=
  {| messages := messages d; reactions := f (reactions d); portals := portals d |}.
Definition with_portals (f : list PortalRow -> list PortalRow) (d : db) : db :=
  {| messages := messages d; reactions := reactions d; portals := f (portals d) |}.

Definition str_eq (a b : string) : bool := String.eqb a b.

(** Modelled from the spec: [Message.get_by_mxid], the point lookup
    of a message row by home-network event id within a room; the row
    or an absent value, never an error when nothing is found. An
    absent event id or room finds nothing. *)
Definition message_get_by_mxid (mxid' : option EventID) (room : option RoomID)
    (d : db) : option Message :=
  match mxid', room with
  | Some e, Some r =>
      List.find (fun m => str_eq (mxid m) e && str_eq (mx_room m) r) (messages d)
  | _, _ => None
  end.

(** Modelled from the spec: [Message.get_by_gcid], the point lookup
    by remote message id, conversation and receiver, at a given
    [index] (0 when the caller gives none). *)
Definition message_get_by_gcid (gcid' chat receiver : string) (idx : Z)
    (d : db) : option Message :=
  List.find (fun m => str_eq (gcid m) gcid' && str_eq (gc_chat m) chat
                      && str_eq (gc_receiver m) receiver && (index m =? idx))
            (messages d).

Definition later (a b : Message) : bool :=
  (timestamp a <? timestamp b) || ((timestamp a =? timestamp b) && (index a <? index b)).

(** Modelled from the spec: [Message.get_last_in_thread], the reply
    target of a thread: the latest row whose parent or own id is the
    thread's, in this conversation. *)
Definition message_get_last_in_thread (parent chat receiver : string)
    (d : db) : option Message :=
  fold_left
    (fun best m =>
       if (str_eq (or_else (gc_parent_id m) (gcid m)) parent
           && str_eq (gc_chat m) chat && str_eq (gc_receiver m) receiver)
       then match best with
            | Some b => if later b m then Some m else best
            | None => Some m
            end
       else best)
    (messages d) None.

(** Modelled from the spec: [insert] appends a new row; the caller
    guarantees that the key is new. *)
Definition message_insert (m : Message) : db -> db :=
  with_messages (fun l => l ++ [m]).

(** Modelled from the spec: [Message.delete_all_by_room], the cascade
    of a portal's deletion over the message rows of its room. *)
Definition message_delete_all_by_room (room : RoomID) : db -> db :=
  with_messages (List.filter (fun m => negb (str_eq (mx_room m) room))).

Definition text_eq (a b : text) : bool := bool_decide (a = b).

(** Modelled from the spec: [Reaction.get_by_gcid], the point lookup
    of the one reaction per (emoji, sender, target message). *)
Definition reaction_get_by_gcid (emoji' : text) (sender msgid chat receiver : string)
    (d : db) : option Reaction :=
  List.find (fun r => text_eq (emoji r) emoji' && str_eq (r_gc_sender r) sender
                      && str_eq (gc_msgid r) msgid && str_eq (r_gc_chat r) chat
                      && str_eq (r_gc_receiver r) receiver)
            (reactions d).

(** Modelled from the spec: [insert] on a reaction row. *)
Definition reaction_insert (r : Reaction) : db -> db :=
  with_reactions (fun l => l ++ [r]).

(** Modelled from the spec: [Reaction.delete_all_by_room]. *)
Definition reaction_delete_all_by_room (room : RoomID) : db -> db :=
  with_reactions (List.filter (fun r => negb (str_eq (r_mx_room r) room))).

Definition same_portal (g rcv : string) (row : PortalRow) : bool :=
  str_eq (p_gcid row) g && str_eq (p_gc_receiver row) rcv.

(** Modelled from the spec: the base portal record's [delete], of the
    single row with this composite key. *)
Definition portal_delete (g rcv : string) : db -> db :=
  with_portals (List.filter (fun row => negb (same_portal g rcv row))).

(** Modelled from the spec: the base portal record's [save], which
    persists the loaded attributes into the row with this key. *)
Definition portal_save (row : PortalRow) : db -> db :=
  with_portals (List.map (fun old =>
    if same_portal (p_gcid row) (p_gc_receiver row) old then row else old)).

End Store.

(** ** The portal: data *)
Module Portal.

(** The exceptions the handlers tell apart. [MForbidden] is a
    [MatrixError]; all are [Exception]s. *)
Inductive exn :=
| MatrixError (msg : string)
| MForbidden (msg : string)
| FileTooLargeError (msg : string)
| ClientResponseError (status : Z)
| ValueError (msg : string)
| TypeError (msg : string)
| AttributeError (msg : string)
| KeyError (key : string)
| Exception (msg : string).

Definition is_MatrixError (e : exn) : bool :=
  match e with
  | MatrixError _ | MForbidden _ => true
  | _ => false
  end.

Definition of_download_error (e : Download.error) : exn :=
  match e with
  | Download.ClientResponseError st => ClientResponseError st
  | Download.ValueError => ValueError "invalid literal for int()"
  | Download.FileTooLargeError m => FileTooLargeError m
  | Download.LoopNotFinished => Exception "download loop"
  end.

(** [mautrix.types.MessageType], with the values it serializes to. *)
Inductive MessageType :=
| TEXT | EMOTE | NOTICE | IMAGE | STICKER | VIDEO | AUDIO | FILE | LOCATION
| OtherType (v : string).

Definition value (t : MessageType) : string :=
  match t with
  | TEXT => "m.text" | EMOTE => "m.emote" | NOTICE => "m.notice"
  | IMAGE => "m.image" | STICKER => "m.sticker" | VIDEO => "m.video"
  | AUDIO => "m.audio" | FILE => "m.file" | LOCATION => "m.location"
  | OtherType v => v
  end.

Definition is_media (t : MessageType) : bool :=
  match t with
  | IMAGE | STICKER | VIDEO | AUDIO | FILE => true
  | _ => false
  end.

Definition is_TEXT (t : MessageType) : bool :=
  match t with TEXT => true | _ => false end.
Definition is_NOTICE (t : MessageType) : bool :=
  match t with NOTICE => true | _ => false end.

(** [getattr(MessageType, name, MessageType.FILE)] *)
Definition of_name (name : string) : MessageType :=
  if String.eqb name "TEXT" then TEXT
  else if String.eqb name "EMOTE" then EMOTE
  else if String.eqb name "NOTICE" then NOTICE
  else if String.eqb name "IMAGE" then IMAGE
  else if String.eqb name "STICKER" then STICKER
  else if String.eqb name "VIDEO" then VIDEO
  else if String.eqb name "AUDIO" then AUDIO
  else if String.eqb name "FILE" then FILE
  else if String.eqb name "LOCATION" then LOCATION
  else FILE.

Inductive EventType := ROOM_MESSAGE | ROOM_REDACTION | REACTION.
Inductive CheckpointStatus := SUCCESS | PERM_FAILURE.
Inductive Membership := JOIN | INVITE | LEAVE | BAN | KNOCK.

Definition is_JOIN (m : Membership) : bool :=
  match m with JOIN => true | _ => false end.

(** What the portal uses of a [User]. *)
Record User := {
  u_mxid : UserID;
  u_gcid : string
}.

(** What the portal uses of a [Puppet]. *)
Record Puppet := {
  pu_gcid : string;
  pu_mxid : UserID;
  is_real_user : bool
}.

Record EncryptedFile := {
  f_url : option string;
  f_key : string;
  f_sha256 : option string;
  f_iv : string
}.

(** A home-network message content. *)
Record Content := {
  c_msgtype : MessageType;
  c_body : string;
  c_reply_to : option EventID;
  c_edit : option EventID;
  c_url : option string;
  c_file : option EncryptedFile;
  c_size : Z;
  c_mimetype : option string
}.

Definition set_reply (target : EventID) (c : Content) : Content :=
  {| c_msgtype := c_msgtype c; c_body := c_body c; c_reply_to := Some target;
     c_edit := c_edit c; c_url := c_url c; c_file := c_file c;
     c_size := c_size c; c_mimetype := c_mimetype c |}.

Definition set_edit (target : EventID) (c : Content) : Content :=
  {| c_msgtype := c_msgtype c; c_body := c_body c; c_reply_to := c_reply_to c;
     c_edit := Some target; c_url := c_url c; c_file := c_file c;
     c_size := c_size c; c_mimetype := c_mimetype c |}.

(** The annotations of a remote message, by the fields
    [_get_urls_from_annotations] asks for with [HasField]. *)
Record UrlMetadata := {
  should_not_render : bool;
  image_url : option string;
  url : option string
}.

Record Annotation := {
  upload_metadata : option string;
  url_metadata : option UrlMetadata
}.

(** A [googlechat.Message], by the fields the handlers read. *)
Record GcMessage := {
  creator_id : string;
  message_id : string;
  parent_topic_id : string;
  local_id : string;
  create_time : Z;
  last_edit_time : Z;
  last_update_time : Z;
  text_body : string;
  annotations : list Annotation
}.

(** The two URLs the portal builds: the attachment endpoint of the
    remote network with a token, and a URL parsed from a string. *)
Inductive URL :=
| AttachmentUrl (token : string)
| PlainUrl (raw : string).

(** An annotation of an outbound message. *)
Inductive OutAnnotation :=
| Formatted (raw : string)
| UploadMetadata (upload : string).

(** The answer of [send_message]: a [CreateTopicResponse] or a
    [CreateMessageResponse]. *)
Inductive SendReply :=
| TopicReply (topic_id : string) (create_time_usec : Z)
| MessageReply (message_id : string) (create_time : Z).

Record SendResponse := {
  sr_gcid : string;
  sr_timestamp : Z
}.

Definition _get_send_response (resp : SendReply) : SendResponse :=
  match resp with
  | TopicReply tid ts => {| sr_gcid := tid; sr_timestamp := ts |}
  | MessageReply mid ts => {| sr_gcid := mid; sr_timestamp := ts |}
  end.

(** The configuration keys the portal reads, and what it asks of the
    bridge at large. *)
Record Config := {
  invite_own_puppet_to_pm : bool;
  delivery_receipts : bool;
  encryption_default : bool;
  federate_rooms : bool;
  bot_avatar : string;
  e2ee : bool;
  bot_mxid : UserID;
  can_encrypt : bool;
  can_decrypt : bool;
  upload_size : Z
}.

(** The portal object: the loaded row and the fields of [__init__]. *)
Record portal := {
  gcid : string;
  gc_receiver : string;
  other_user_id : option string;
  mxid : option RoomID;
  name : option string;
  encrypted : bool;
  is_threaded : option bool;
  main_intent_mxid : option UserID;
  last_bridged_mxid : option EventID;
  dedup : list string;
  edit_dedup : gmap string Z;
  local_dedup : gset string;
  send_locks : gset string
}.

Definition is_dm (p : portal) : bool := startswith (gcid p) "dm:".
Definition is_direct (p : portal) : bool := is_dm p && truthy (other_user_id p).
Definition gcid_full (p : portal) : string * string := (gcid p, gc_receiver p).

Definition gcid_log (p : portal) : string :=
  if is_direct p then gcid p +:+ "-" +:+ gc_receiver p else gcid p.

Definition bridge_info_state_key (p : portal) : string :=
  "net.maunium.googlechat://googlechat/" +:+ gcid p.

(** [deque(maxlen=100)] and its [appendleft]. *)
Definition dedup_maxlen : nat := 100.
Definition appendleft (x : string) (d : list string) : list string :=
  take dedup_maxlen (x :: d).

Definition row_of (p : portal) : Store.PortalRow :=
  {| Store.p_gcid := gcid p; Store.p_gc_receiver := gc_receiver p;
     Store.p_other_user_id := other_user_id p; Store.p_mxid := mxid p;
     Store.p_name := name p; Store.p_encrypted := encrypted p;
     Store.p_is_threaded := is_threaded p |}.

Definition set_mxid (v : option RoomID) (p : portal) : portal :=
  {| gcid := gcid p; gc_receiver := gc_receiver p; other_user_id := other_user_id p;
     mxid := v; name := name p; encrypted := encrypted p;
     is_threaded := is_threaded p; main_intent_mxid := main_intent_mxid p;
     last_bridged_mxid := last_bridged_mxid p; dedup := dedup p;
     edit_dedup := edit_dedup p; local_dedup := local_dedup p;
     send_locks := send_locks p |}.

Definition set_encrypted (v : bool) (p : portal) : portal :=
  {| gcid := gcid p; gc_receiver := gc_receiver p; other_user_id := other_user_id p;
     mxid := mxid p; name := name p; encrypted := v;
     is_threaded := is_threaded p; main_intent_mxid := main_intent_mxid p;
     last_bridged_mxid := last_bridged_mxid p; dedup := dedup p;
     edit_dedup := edit_dedup p; local_dedup := local_dedup p;
     send_locks := send_locks p |}.

Definition set_last_bridged_mxid (v : option EventID) (p : portal) : portal :=
  {| gcid := gcid p; gc_receiver := gc_receiver p; other_user_id := other_user_id p;
     mxid := mxid p; name := name p; encrypted := encrypted p;
     is_threaded := is_threaded p; main_intent_mxid := main_intent_mxid p;
     last_bridged_mxid := v; dedup := dedup p;
     edit_dedup := edit_dedup p; local_dedup := local_dedup p;
     send_locks := send_locks p |}.

Definition set_dedup (v : list string) (p : portal) : portal :=
  {| gcid := gcid p; gc_receiver := gc_receiver p; other_user_id := other_user_id p;
     mxid := mxid p; name := name p; encrypted := encrypted p;
     is_threaded := is_threaded p; main_intent_mxid := main_intent_mxid p;
     last_bridged_mxid := last_bridged_mxid p; dedup := v;
     edit_dedup := edit_dedup p; local_dedup := local_dedup p;
     send_locks := send_locks p |}.

Definition set_edit_dedup (v : gmap string Z) (p : portal) : portal :=
  {| gcid := gcid p; gc_receiver := gc_receiver p; other_user_id := other_user_id p;
     mxid := mxid p; name := name p; encrypted := encrypted p;
     is_threaded := is_threaded p; main_intent_mxid := main_intent_mxid p;
     last_bridged_mxid := last_bridged_mxid p; dedup := dedup p;
     edit_dedup := v; local_dedup := local_dedup p;
     send_locks := send_locks p |}.

Definition set_local_dedup (v : gset string) (p : portal) : portal :=
  {| gcid := gcid p; gc_receiver := gc_receiver p; other_user_id := other_user_id p;
     mxid := mxid p; name := name p; encrypted := encrypted p;
     is_threaded := is_threaded p; main_intent_mxid := main_intent_mxid p;
     last_bridged_mxid := last_bridged_mxid p; dedup := dedup p;
     edit_dedup := edit_dedup p; local_dedup := v;
     send_locks := send_locks p |}.

Definition set_send_locks (v : gset string) (p : portal) : portal :=
  {| gcid := gcid p; gc_receiver := gc_receiver p; other_user_id := other_user_id p;
     mxid := mxid p; name := name p; encrypted := encrypted p;
     is_threaded := is_threaded p; main_intent_mxid := main_intent_mxid p;
     last_bridged_mxid := last_bridged_mxid p; dedup := dedup p;
     edit_dedup := edit_dedup p; local_dedup := local_dedup p;
     send_locks := v |}.

(** The four attributes that the chat-info sync writes. *)
Record InfoFields := {
  i_other_user_id : option string;
  i_name : option string;
  i_is_threaded : option bool;
  i_main_intent_mxid : option UserID
}.

Definition set_info (i : InfoFields) (p : portal) : portal :=
  {| gcid := gcid p; gc_receiver := gc_receiver p;
     other_user_id := i_other_user_id i;
     mxid := mxid p; name := i_name i; encrypted := encrypted p;
     is_threaded := i_is_threaded i; main_intent_mxid := i_main_intent_mxid i;
     last_bridged_mxid := last_bridged_mxid p; dedup := dedup p;
     edit_dedup := edit_dedup p; local_dedup := local_dedup p;
     send_locks := send_locks p |}.

(** *** Room creation parameters *)

Record BridgeInfo := {
  bridgebot : UserID;
  creator : UserID;
  protocol_id : string;
  protocol_displayname : string;
  protocol_avatar_url : string;
  channel_id : string;
  channel_displayname : option string;
  channel_is_threaded : option bool
}.

Inductive StateContent :=
| PowerLevels (users : gmap UserID Z)
| BridgeState (info : BridgeInfo)
| Encryption (algorithm : string).

Record StateEvent := {
  se_type : string;
  se_state_key : option string;
  se_content : StateContent
}.

Record RoomParams := {
  rp_name : option string;
  rp_is_direct : bool;
  rp_initial_state : list StateEvent;
  rp_invitees : list UserID;
  rp_creation_content : list (string * bool)
}.

(** What a chat-info sync leaves behind: the attributes it wrote, and
    the exception it ended with, if any. *)
Record InfoSync := {
  synced : InfoFields;
  failure : option exn
}.

(** *** Calls out of the portal

    Every operation of another object that a handler awaits or
    calls, with its arguments. *)
Inductive call :=
| PuppetGetByGcid (gcid : string)
| PuppetGetByCustomMxid (mxid : UserID)
| IntentFor (pu : Puppet)
| GetMembership (room : option RoomID) (user : UserID)
| InviteUser (intent : UserID) (room : option RoomID) (user : UserID)
    (extra_content : list (string * bool)) (check_cache : bool)
| EnsureJoined (intent : UserID) (room : option RoomID)
| JoinRoomById (intent : UserID) (room : option RoomID)
| UpdateDirectChats (user : User) (main : UserID) (room : option RoomID)
| SendMessage (intent : UserID) (room : option RoomID) (content : Content) (ts : Z)
| MarkRead (intent : UserID) (room : option RoomID) (event : EventID)
| UploadMedia (intent : UserID) (data : Download.bytes) (mime filename : string)
| CreateRoom (intent : UserID) (params : RoomParams)
| UpdateInfo (source : User)
| UpdateParticipants (source : User)
| FmtGooglechatToMatrix (body : string) (annotations : list Annotation)
| FmtMatrixToGooglechat (content : Content)
| SetTyping (user : User) (chat : string) (typing : bool)
| RemoteSendMessage (user : User) (chat : string) (body : option string)
    (annotations : list OutAnnotation) (thread_id : option string) (local_id : string)
| RemoteEditMessage (user : User) (chat : string) (parent : option string)
    (msgid : string) (body : string) (annotations : list OutAnnotation)
| RemoteReact (user : User) (chat : string) (parent : option string)
    (msgid : string) (emoji : text) (remove : bool)
| RemoteUploadFile (user : User) (data : Download.bytes)
    (group_id filename mime : string)
| RemoteDownloadAttachment (user : User) (url : URL) (max_size : Z)
| HttpGet (url : URL)
| DownloadMedia (intent : UserID) (url : option string)
| DecryptAttachment (data : Download.bytes) (key : string)
    (sha256 : option string) (iv : string)
| EncryptAttachment (data : Download.bytes)
| SendRemoteCheckpoint (user : User) (status : CheckpointStatus) (event_id : EventID)
    (room : option RoomID) (evt_type : EventType) (msgtype : option MessageType)
    (error : option exn)
| TimeMillis
| RandInt (lo hi : Z).

(** What each call answers when it does not raise. *)
Definition res (c : call) : Type :=
  match c with
  | PuppetGetByGcid _ => Puppet
  | PuppetGetByCustomMxid _ => option Puppet
  | IntentFor _ => UserID
  | GetMembership _ _ => Membership
  | InviteUser _ _ _ _ _ => unit
  | EnsureJoined _ _ => bool
  | JoinRoomById _ _ => unit
  | UpdateDirectChats _ _ _ => unit
  | SendMessage _ _ _ _ => EventID
  | MarkRead _ _ _ => unit
  | UploadMedia _ _ _ _ => string
  | CreateRoom _ _ => option RoomID
  | UpdateInfo _ => InfoSync
  | UpdateParticipants _ => InfoSync
  | FmtGooglechatToMatrix _ _ => Content
  | FmtMatrixToGooglechat _ => (string * list OutAnnotation)%type
  | SetTyping _ _ _ => unit
  | RemoteSendMessage _ _ _ _ _ _ => SendReply
  | RemoteEditMessage _ _ _ _ _ _ => Z
  | RemoteReact _ _ _ _ _ _ => unit
  | RemoteUploadFile _ _ _ _ _ => string
  | RemoteDownloadAttachment _ _ _ => Download.download
  | HttpGet _ => Download.response
  | DownloadMedia _ _ => Download.bytes
  | DecryptAttachment _ _ _ _ => Download.bytes
  | EncryptAttachment _ => (Download.bytes * EncryptedFile)%type
  | SendRemoteCheckpoint _ _ _ _ _ _ _ => unit
  | TimeMillis => Z
  | RandInt _ _ => Z
  end.

(** The home-network events a handler emits, and the calls that
    reach the remote network. *)
Definition is_home_event (c : call) : bool :=
  match c with
  | SendMessage _ _ _ _ | InviteUser _ _ _ _ _ | CreateRoom _ _
  | MarkRead _ _ _ | JoinRoomById _ _ | EnsureJoined _ _ | UploadMedia _ _ _ _ => true
  | _ => false
  end.

Definition is_remote_call (c : call) : bool :=
  match c with
  | RemoteSendMessage _ _ _ _ _ _ | RemoteEditMessage _ _ _ _ _ _
  | RemoteReact _ _ _ _ _ _ | RemoteUploadFile _ _ _ _ _
  | RemoteDownloadAttachment _ _ _ | SetTyping _ _ _ => true
  | _ => false
  end.

Definition is_react (c : call) : bool :=
  match c with RemoteReact _ _ _ _ _ _ => true | _ => false end.

Definition is_send_message (c : call) : bool :=
  match c with SendMessage _ _ _ _ => true | _ => false end.

Definition is_create_room (c : call) : bool :=
  match c with CreateRoom _ _ => true | _ => false end.

Inductive result (A : Type) :=
| Ok (a : A)
| Raise (e : exn).
Arguments Ok {A} a.
Arguments Raise {A} e.

(** *** The machine

    The portal object, the two class-level indices, the store, the
    state of everything outside ([Ext]), and the calls made so far,
    each with the portal and the store as they were at the call. *)
Record step := {
  what : call;
  seen : portal;
  stored : Store.db
}.

Record machine (Ext : Type) := {
  ext : Ext;
  self : portal;
  db : Store.db;
  by_gcid : gmap (string * string) (string * string);
  by_mxid : gmap RoomID (string * string);
  trace : list step
}.
Arguments ext {Ext} m.
Arguments self {Ext} m.
Arguments db {Ext} m.
Arguments by_gcid {Ext} m.
Arguments by_mxid {Ext} m.
Arguments trace {Ext} m.

Section Updates.
Context {Ext : Type}.

Definition with_self (f : portal -> portal) (s : machine Ext) : machine Ext :=
  {| ext := ext s; self := f (self s); db := db s;
     by_gcid := by_gcid s; by_mxid := by_mxid s; trace := trace s |}.

Definition with_db (f : Store.db -> Store.db) (s : machine Ext) : machine Ext :=
  {| ext := ext s; self := self s; db := f (db s);
     by_gcid := by_gcid s; by_mxid := by_mxid s; trace := trace s |}.

Definition with_by_gcid
    (f : gmap (string * string) (string * string)
         -> gmap (string * string) (string * string))
    (s : machine Ext) : machine Ext :=
  {| ext := ext s; self := self s; db := db s;
     by_gcid := f (by_gcid s); by_mxid := by_mxid s; trace := trace s |}.

Definition with_by_mxid
    (f : gmap RoomID (string * string) -> gmap RoomID (string * string))
    (s : machine Ext) : machine Ext :=
  {| ext := ext s; self := self s; db := db s;
     by_gcid := by_gcid s; by_mxid := f (by_mxid s); trace := trace s |}.

(** The step a call leaves in the trace. *)
Definition step_of (c : call) (s : machine Ext) : step :=
  {| what := c; seen := self s; stored := db s |}.

(** The machine after call [c], the outside having moved to [x]. *)
Definition performed (c : call) (x : Ext) (s : machine Ext) : machine Ext :=
  {| ext := x; self := self s; db := db s;
     by_gcid := by_gcid s; by_mxid := by_mxid s;
     trace := trace s ++ [step_of c s] |}.
End Updates.

(** The library functions and the rest of the bridge, as the portal
    sees them. [answer] may raise, and moves the outside on. *)
Record Env (Ext : Type) := {
  answer : forall c : call, Ext -> result (res c) * Ext;
  sniff : Download.bytes -> string;
  guess_extension : string -> option string;
  url_host : string -> option string;
  url_path : string -> string;
  config : Config
}.
Arguments answer {Ext} e c x.
Arguments sniff {Ext} e d.
Arguments guess_extension {Ext} e m.
Arguments url_host {Ext} e u.
Arguments url_path {Ext} e u.
Arguments config {Ext} e.

(** *** Handlers as state transformers that may raise *)
Section Handlers.
Context {Ext : Type}.
Variable env : Env Ext.

Definition M (A : Type) : Type := machine Ext -> result A * machine Ext.

Definition ret {A} (a : A) : M A := fun s => (Ok a, s).

Definition bind {A B} (m : M A) (k : A -> M B) : M B :=
  fun s =>
    match m s with
    | (Ok a, s') => k a s'
    | (Raise e, s') => (Raise e, s')
    end.

Definition raise {A} (e : exn) : M A := fun s => (Raise e, s).

(** [try: m except <classes h accepts>: h e]; an exception that no
    clause accepts goes on. *)
Definition try_except {A} (m : M A) (h : exn -> option (M A)) : M A :=
  fun s =>
    match m s with
    | (Ok a, s') => (Ok a, s')
    | (Raise e, s') =>
        match h e with
        | Some k => k s'
        | None => (Raise e, s')
        end
    end.

(** [try: m except Exception as e: h e else: k a] *)
Definition try_else {A B} (m : M A) (h : exn -> M B) (k : A -> M B) : M B :=
  fun s =>
    match m s with
    | (Ok a, s') => k a s'
    | (Raise e, s') => h e s'
    end.

Notation "x <- m ;; k" := (bind m (fun x => k))
  (at level 100, m at next level, right associativity).
Notation "m ;;; k" := (bind m (fun _ => k))
  (at level 100, right associativity).

Definition get_self : M portal := fun s => (Ok (self s), s).
Definition get_db : M Store.db := fun s => (Ok (db s), s).

Definition modify_self (f : portal -> portal) : M unit :=
  fun s => (Ok tt, with_self f s).
Definition modify_db (f : Store.db -> Store.db) : M unit :=
  fun s => (Ok tt, with_db f s).
Definition modify_by_gcid
    (f : gmap (string * string) (string * string)
         -> gmap (string * string) (string * string)) : M unit :=
  fun s => (Ok tt, with_by_gcid f s).
Definition modify_by_mxid
    (f : gmap RoomID (string * string) -> gmap RoomID (string * string)) : M unit :=
  fun s => (Ok tt, with_by_mxid f s).

(** A call: the outside answers and moves on; the call is noted
    with the portal and the store as they are. *)
Definition perform (c : call) : M (res c) :=
  fun s => (fst (answer env c (ext s)), performed c (snd (answer env c (ext s))) s).

(** The property [main_intent]. *)
Definition main_intent : M UserID :=
  p <- get_self ;;
  match main_intent_mxid p with
  | Some i => ret i
  | None => raise (ValueError "Portal must be postinit()ed before main_intent can be used")
  end.

(** A row's [mx_room=self.mxid]: the column takes no absent value. *)
Definition room_for_row : M RoomID :=
  p <- get_self ;;
  match mxid p with
  | Some r => ret r
  | None => raise (Exception "null value in column mx_room")
  end.

(** **** Delivery receipts and checkpoints *)

Definition _send_delivery_receipt (event_id : EventID) : M unit :=
  if nonempty event_id && delivery_receipts (config env) then
    p <- get_self ;;
    try_except
      (perform (MarkRead (bot_mxid (config env)) (mxid p) event_id))
      (fun _ => Some (ret tt))
  else ret tt.

Definition _rec_dropped (user : User) (event_id : EventID) (evt_type : EventType)
    (reason : string) (msgtype : option MessageType) : M unit :=
  p <- get_self ;;
  perform (SendRemoteCheckpoint user PERM_FAILURE event_id (mxid p) evt_type msgtype
             (Some (Exception reason))).

Definition _rec_error (user : User) (err : exn) (event_id : EventID)
    (evt_type : EventType) (msgtype : option MessageType) : M unit :=
  p <- get_self ;;
  perform (SendRemoteCheckpoint user PERM_FAILURE event_id (mxid p) evt_type msgtype
             (Some err)).

Definition _rec_success (user : User) (event_id : EventID) (evt_type : EventType)
    (msgtype : option MessageType) : M unit :=
  _send_delivery_receipt event_id ;;;
  p <- get_self ;;
  perform (SendRemoteCheckpoint user SUCCESS event_id (mxid p) evt_type msgtype None).

(** **** Send locks

    Handlers run one after the other here, so a lock never blocks;
    [require_send_lock] still leaves the lock it creates. *)
Definition require_send_lock (user_id : string) : M unit :=
  modify_self (fun p => set_send_locks ({[user_id]} ∪ send_locks p) p).

(** **** Reactions from the home network *)

(** Which [return] a reaction left by. *)
Inductive reaction_outcome :=
| ReactionTargetNotFound
| DuplicateReaction
| ReactionFailed (e : exn)
| ReactionSent.

Definition handle_matrix_reaction (sender : User) (reaction_id target_id : EventID)
    (reaction : text) : M reaction_outcome :=
  let reaction := rstrip [VS16] reaction in
  p <- get_self ;;
  d <- get_db ;;
  match Store.message_get_by_mxid (Some target_id) (mxid p) d with
  | None =>
      _rec_dropped sender reaction_id REACTION "reaction target not found" None ;;;
      ret ReactionTargetNotFound
  | Some target =>
      match Store.reaction_get_by_gcid reaction (u_gcid sender) (Store.gcid target)
              (Store.gc_chat target) (Store.gc_receiver target) d with
      | Some _ =>
          _rec_dropped sender reaction_id REACTION "duplicate reaction" None ;;;
          ret DuplicateReaction
      | None =>
          fake_ts <- perform TimeMillis ;;
          room <- room_for_row ;;
          modify_db (Store.reaction_insert
            {| Store.r_mxid := reaction_id; Store.r_mx_room := room;
               Store.emoji := reaction; Store.r_gc_sender := u_gcid sender;
               Store.gc_msgid := Store.gcid target;
               Store.r_gc_chat := Store.gc_chat target;
               Store.r_gc_receiver := Store.gc_receiver target;
               Store.r_timestamp := fake_ts |}) ;;;
          try_else
            (perform (RemoteReact sender (Store.gc_chat target)
                        (Store.gc_parent_id target) (Store.gcid target) reaction false))
            (fun e => _rec_error sender e reaction_id REACTION None ;;;
                      ret (ReactionFailed e))
            (fun _ => _rec_success sender reaction_id REACTION None ;;;
                      ret ReactionSent)
      end
  end.

(** **** Messages from the home network *)

Inductive matrix_outcome :=
| UnknownEditTarget
| NonTextEdit
| SendFailed (e : exn)
| Sent (remote_id : string).

Definition handle_matrix_edit (sender : User) (message : Content)
    (event_id : EventID) : M matrix_outcome :=
  p <- get_self ;;
  d <- get_db ;;
  match Store.message_get_by_mxid (c_edit message) (mxid p) d with
  | None =>
      _rec_dropped sender event_id ROOM_MESSAGE "unknown edit target"
        (Some (c_msgtype message)) ;;;
      ret UnknownEditTarget
  | Some target =>
      if negb (is_TEXT (c_msgtype message)) then
        _rec_dropped sender event_id ROOM_MESSAGE "non-text edit"
          (Some (c_msgtype message)) ;;;
        ret NonTextEdit
      else
        formatted <- perform (FmtMatrixToGooglechat message) ;;
        try_else
          (require_send_lock (u_gcid sender) ;;;
           last_edit <- perform (RemoteEditMessage sender (Store.gc_chat target)
                          (Store.gc_parent_id target) (Store.gcid target)
                          (fst formatted) (snd formatted)) ;;
           modify_self (fun p =>
             set_edit_dedup (<[Store.gcid target := last_edit]> (edit_dedup p)) p))
          (fun e => _rec_error sender e event_id ROOM_MESSAGE (Some (c_msgtype message)) ;;;
                    ret (SendFailed e))
          (fun _ => _rec_success sender event_id ROOM_MESSAGE (Some (c_msgtype message)) ;;;
                    ret (Sent (Store.gcid target)))
  end.

Definition _handle_matrix_text (sender : User) (message : Content)
    (thread_id : option string) (local_id : string) : M SendResponse :=
  formatted <- perform (FmtMatrixToGooglechat message) ;;
  p <- get_self ;;
  perform (SetTyping sender (gcid p) false) ;;;
  resp <- perform (RemoteSendMessage sender (gcid p) (Some (fst formatted))
             (snd formatted) thread_id local_id) ;;
  ret (_get_send_response resp).

Definition gcid_plain : M string :=
  p <- get_self ;;
  match split ":" (gcid p) with
  | [_; plain] => ret plain
  | _ => raise (ValueError "not enough or too many values to unpack")
  end.

Definition _handle_matrix_media (sender : User) (message : Content)
    (thread_id : option string) (local_id : string) : M SendResponse :=
  data <-
    match c_file message with
    | Some file =>
        if can_decrypt (config env) then
          mi <- main_intent ;;
          raw <- perform (DownloadMedia mi (f_url file)) ;;
          perform (DecryptAttachment raw (f_key file) (f_sha256 file) (f_iv file))
        else if truthy (c_url message) then
          mi <- main_intent ;;
          perform (DownloadMedia mi (c_url message))
        else raise (Exception "Failed to download media from matrix")
    | None =>
        if truthy (c_url message) then
          mi <- main_intent ;;
          perform (DownloadMedia mi (c_url message))
        else raise (Exception "Failed to download media from matrix")
    end ;;
  let mime := if truthy (c_mimetype message)
              then or_else (c_mimetype message) ""
              else sniff env data in
  plain <- gcid_plain ;;
  upload <- perform (RemoteUploadFile sender data plain (c_body message) mime) ;;
  p <- get_self ;;
  resp <- perform (RemoteSendMessage sender (gcid p) None [UploadMetadata upload]
             thread_id local_id) ;;
  ret (_get_send_response resp).

(** [self._local_dedup.remove(local_id)] *)
Definition local_dedup_remove (local_id : string) : M unit :=
  p <- get_self ;;
  if bool_decide (local_id ∈ local_dedup p)
  then modify_self (fun p => set_local_dedup (local_dedup p ∖ {[local_id]}) p)
  else raise (KeyError local_id).

Definition new_local_id (rnd : Z) : string := "mautrix-googlechat%" +:+ pretty rnd.

Definition handle_matrix_message (sender : User) (message : Content)
    (event_id : EventID) : M matrix_outcome :=
  if truthy (c_edit message) then handle_matrix_edit sender message event_id
  else
    p <- get_self ;;
    d <- get_db ;;
    let reply_to := Store.message_get_by_mxid (c_reply_to message) (mxid p) d in
    let thread_id :=
      match reply_to, is_threaded p with
      | Some r, Some true => Some (or_else (Store.gc_parent_id r) (Store.gcid r))
      | _, _ => None
      end in
    rnd <- perform (RandInt 0 18446744073709551615) ;;
    let local_id := new_local_id rnd in
    modify_self (fun p => set_local_dedup ({[local_id]} ∪ local_dedup p) p) ;;;
    require_send_lock (u_gcid sender) ;;;
    try_else
      (if is_TEXT (c_msgtype message) || is_NOTICE (c_msgtype message)
       then _handle_matrix_text sender message thread_id local_id
       else if is_media (c_msgtype message)
       then _handle_matrix_media sender message thread_id local_id
       else raise (ValueError ("Unsupported msgtype " +:+ value (c_msgtype message))))
      (fun e => _rec_error sender e event_id ROOM_MESSAGE (Some (c_msgtype message)) ;;;
                ret (SendFailed e))
      (fun resp =>
         _rec_success sender event_id ROOM_MESSAGE (Some (c_msgtype message)) ;;;
         modify_self (fun p => set_dedup (appendleft (sr_gcid resp) (dedup p)) p) ;;;
         local_dedup_remove local_id ;;;
         room <- room_for_row ;;
         p <- get_self ;;
         modify_db (Store.message_insert
           {| Store.mxid := event_id; Store.mx_room := room;
              Store.gcid := sr_gcid resp; Store.gc_chat := gcid p;
              Store.gc_receiver := gc_receiver p; Store.gc_parent_id := thread_id;
              Store.index := 0; Store.timestamp := sr_timestamp resp / 1000;
              Store.msgtype := value (c_msgtype message);
              Store.gc_sender := u_gcid sender |}) ;;;
         modify_self (set_last_bridged_mxid (Some event_id)) ;;;
         ret (Sent (sr_gcid resp))).

(** **** The own-message rule of direct chats *)

Definition _bridge_own_message_pm (source : User) (sender : Puppet)
    (invite : bool) : M bool :=
  p <- get_self ;;
  if is_direct p && String.eqb (pu_gcid sender) (u_gcid source)
     && negb (is_real_user sender)
  then
    if invite_own_puppet_to_pm (config env) && invite then
      mi <- main_intent ;;
      perform (InviteUser mi (mxid p) (pu_mxid sender) [] false) ;;;
      ret true
    else
      membership <- perform (GetMembership (mxid p) (pu_mxid sender)) ;;
      if negb (is_JOIN membership) then ret false else ret true
  else ret true.

(** **** Room creation *)

(** The chat-info sync, entered as a whole: [update_info] and
    [_update_participants] gather calls over the members of the
    chat; of the portal they write the attributes of [InfoFields]
    and nothing else, and they may end with an exception after
    writing. *)
Definition apply_sync (r : InfoSync) : M unit :=
  modify_self (set_info (synced r)) ;;;
  match failure r with
  | Some e => raise e
  | None => ret tt
  end.

Definition update_info (source : User) : M unit :=
  r <- perform (UpdateInfo source) ;; apply_sync r.

Definition _update_participants (source : User) : M unit :=
  r <- perform (UpdateParticipants source) ;; apply_sync r.

Definition _get_invite_content (p : portal) (double_puppet : option Puppet)
    : list (string * bool) :=
  (match double_puppet with
   | Some _ => [("fi.mau.will_auto_accept", true)]
   | None => []
   end)
  ++ (if is_direct p then [("is_direct", true)] else []).

Definition _update_matrix_room (source : User) : M unit :=
  puppet <- perform (PuppetGetByCustomMxid (u_mxid source)) ;;
  p <- get_self ;;
  mi <- main_intent ;;
  perform (InviteUser mi (mxid p) (u_mxid source) (_get_invite_content p puppet) false) ;;;
  match puppet with
  | Some pu =>
      did_join <- perform (EnsureJoined (pu_mxid pu) (mxid p)) ;;
      if did_join && is_direct p
      then mi <- main_intent ;; perform (UpdateDirectChats source mi (mxid p))
      else ret tt
  | None => ret tt
  end ;;;
  mi <- main_intent ;;
  perform (InviteUser mi (mxid p) (u_mxid source) [] true) ;;;
  puppet <- perform (PuppetGetByCustomMxid (u_mxid source)) ;;
  match puppet with
  | Some pu => perform (EnsureJoined (pu_mxid pu) (mxid p)) ;;; ret tt
  | None => ret tt
  end ;;;
  update_info source.

Definition update_matrix_room (source : User) : M unit :=
  try_except (_update_matrix_room source) (fun _ => Some (ret tt)).

Definition bridge_info (p : portal) (main : UserID) : BridgeInfo :=
  {| bridgebot := bot_mxid (config env); creator := main;
     protocol_id := "googlechat"; protocol_displayname := "Google Chat";
     protocol_avatar_url := bot_avatar (config env);
     channel_id := gcid p; channel_displayname := name p;
     channel_is_threaded := is_threaded p |}.

(** The [PowerLevelStateEventContent] of a new room, whose [users]
    start empty. *)
Definition initial_power_levels (p : portal) (source : User) (main : UserID)
    : gmap UserID Z :=
  let users : gmap UserID Z := ∅ in
  let users := if is_direct p then <[u_mxid source := 50]> users else users in
  <[main := 100]> users.

(** The statements of [_create_matrix_room] that follow
    [create_room]. *)
Definition finish_room_creation (source : User) (new_room : option RoomID)
    : M (option RoomID) :=
  match new_room with
  | Some room =>
      if nonempty room then
        p <- get_self ;;
        (if encrypted p && e2ee (config env) && is_direct p
         then try_except
                (perform (EnsureJoined (bot_mxid (config env)) (Some room)) ;;; ret tt)
                (fun _ => Some (ret tt))
         else ret tt) ;;;
        p <- get_self ;;
        modify_db (Store.portal_save (row_of p)) ;;;
        modify_by_mxid (insert room (gcid_full p)) ;;;
        _update_participants source ;;;
        puppet <- perform (PuppetGetByCustomMxid (u_mxid source)) ;;
        p <- get_self ;;
        mi <- main_intent ;;
        perform (InviteUser mi (mxid p) (u_mxid source)
                   (_get_invite_content p puppet) false) ;;;
        match puppet with
        | Some pu =>
            try_except
              ((if is_direct p
                then mi <- main_intent ;; perform (UpdateDirectChats source mi (mxid p))
                else ret tt) ;;;
               perform (JoinRoomById (pu_mxid pu) (mxid p)))
              (fun e => if is_MatrixError e then Some (ret tt) else None)
        | None => ret tt
        end ;;;
        p <- get_self ;;
        ret (mxid p)
      else raise (Exception "Failed to create room: no mxid returned")
  | None => raise (Exception "Failed to create room: no mxid returned")
  end.

Definition room_params (p : portal) (source : User) (main : UserID)
    (power_levels : gmap UserID Z) (info : BridgeInfo) (key : string) : RoomParams :=
  let initial_state :=
    [ {| se_type := "m.room.power_levels"; se_state_key := None;
         se_content := PowerLevels power_levels |};
      {| se_type := "m.bridge"; se_state_key := Some key;
         se_content := BridgeState info |};
      {| se_type := "uk.half-shot.bridge"; se_state_key := Some key;
         se_content := BridgeState info |} ] in
  let encrypt := encryption_default (config env) && e2ee (config env) in
  let initial_state :=
    if encrypt
    then initial_state ++
           [ {| se_type := "m.room.encryption"; se_state_key := None;
                se_content := Encryption "m.megolm.v1.aes-sha2" |} ]
    else initial_state in
  let invites := if encrypt && is_direct p then [bot_mxid (config env)] else [] in
  let creation_content :=
    if negb (federate_rooms (config env)) then [("m.federate", false)] else [] in
  {| rp_name := if encrypted p || negb (is_direct p) then name p else None;
     rp_is_direct := is_direct p;
     rp_initial_state := initial_state;
     rp_invitees := invites;
     rp_creation_content := creation_content |}.

Definition _create_matrix_room (source : User) : M (option RoomID) :=
  p0 <- get_self ;;
  if truthy (mxid p0) then
    _update_matrix_room source ;;;
    p <- get_self ;;
    ret (mxid p)
  else
    update_info source ;;;
    p <- get_self ;;
    mi <- main_intent ;;
    let power_levels := initial_power_levels p source mi in
    let info := bridge_info p mi in
    let key := bridge_info_state_key p in
    (if encryption_default (config env) && e2ee (config env)
     then modify_self (set_encrypted true)
     else ret tt) ;;;
    p <- get_self ;;
    new_room <- perform (CreateRoom mi (room_params p source mi power_levels info key)) ;;
    modify_self (set_mxid new_room) ;;;
    finish_room_creation source new_room.

Definition create_matrix_room (source : User) : M (option RoomID) :=
  p <- get_self ;;
  if truthy (mxid p) then
    update_matrix_room source ;;;
    p <- get_self ;;
    ret (mxid p)
  else
    try_except (_create_matrix_room source) (fun _ => Some (ret None)).

(** [create_task(self.backfill(source, is_initial=True))], which
    ends [_create_matrix_room], starts a task that takes the
    backfill lock and returns: [_backfill] has no statement after
    its guard. It is left out of the sequence above. *)

(** **** Attachments of a remote message *)

Definition _get_urls_from_annotations (annotations : list Annotation) : list URL :=
  flat_map
    (fun a =>
       match upload_metadata a with
       | Some token => [AttachmentUrl token]
       | None =>
           match url_metadata a with
           | Some md =>
               if should_not_render md then []
               else match image_url md with
                    | Some i => [PlainUrl i]
                    | None =>
                        match url md with
                        | Some u => [PlainUrl u]
                        | None => []
                        end
                    end
           | None => []
           end
       end)
    annotations.

(** [url.host] and [url.path] *)
Definition host_of (u : URL) : option string :=
  match u with
  | AttachmentUrl _ => Some "chat.google.com"
  | PlainUrl raw => url_host env raw
  end.

Definition path_of (u : URL) : string :=
  match u with
  | AttachmentUrl _ => "/api/get_attachment_url"
  | PlainUrl raw => url_path env raw
  end.

(** [_download_external_attachment] of module [Download], over the
    response [sess.get(url)] gives. *)
Definition _download_external_attachment (u : URL) (max_size : Z)
    : M Download.download :=
  resp <- perform (HttpGet u) ;;
  match fst (Download._download_external_attachment (sniff env) (path_of u) max_size resp) with
  | inl e => raise (of_download_error e)
  | inr d => ret d
  end.

Definition fetch_attachment (source : User) (u : URL) (max_size : Z)
    : M Download.download :=
  match host_of u with
  | None => raise (AttributeError "'NoneType' object has no attribute 'endswith'")
  | Some host =>
      if endswith host ".google.com"
      then perform (RemoteDownloadAttachment source u max_size)
      else _download_external_attachment u max_size
  end.

Definition with_url (mxc : string) (f : EncryptedFile) : EncryptedFile :=
  {| f_url := Some mxc; f_key := f_key f; f_sha256 := f_sha256 f; f_iv := f_iv f |}.

(** One round of the [for url in urls] of
    [process_googlechat_attachments]: nothing on [continue], else
    the pair it yields. *)
Definition process_attachment (source : User) (u : URL) (intent : UserID)
    (reply_to : option Store.Message) (timestamp : Z)
    : M (option (EventID * MessageType)) :=
  let max_size := upload_size (config env) in
  got <- try_except
           (d <- fetch_attachment source u max_size ;; ret (Some d))
           (fun e =>
              match e with
              | FileTooLargeError _ | ClientResponseError _ => Some (ret None)
              | _ => None
              end) ;;
  match got with
  | None => ret None
  | Some d =>
      let mime := Download.mime d in
      let msgtype := of_name (upper (hd "" (split "/" mime))) in
      let msgtype := if is_TEXT msgtype then FILE else msgtype in
      filename <-
        (if negb (nonempty (Download.filename d))
            || String.eqb (Download.filename d) "get_attachment_url"
         then match guess_extension env mime with
              | Some extension => ret (value msgtype +:+ extension)
              | None => raise (TypeError "can only concatenate str (not NoneType) to str")
              end
         else ret (Download.filename d)) ;;
      p <- get_self ;;
      prepared <-
        (if encrypted p && can_encrypt (config env)
         then r <- perform (EncryptAttachment (Download.data d)) ;;
              ret (fst r, Some (snd r), "application/octet-stream")
         else ret (Download.data d, None, mime)) ;;
      let '(data, decryption_info, upload_mime) := prepared in
      mxc_url <- perform (UploadMedia intent data upload_mime filename) ;;
      let content :=
        {| c_msgtype := msgtype; c_body := filename; c_reply_to := None;
           c_edit := None;
           c_url := match decryption_info with Some _ => None | None => Some mxc_url end;
           c_file := with_url mxc_url <$> decryption_info;
           c_size := Z.of_nat (length data); c_mimetype := Some mime |} in
      let content :=
        match reply_to with
        | Some r => set_reply (Store.mxid r) content
        | None => content
        end in
      event_id <- perform (SendMessage intent (mxid p) content timestamp) ;;
      (ret (Some (event_id, msgtype)) : M (option (EventID * MessageType)))
  end.

(** The [async for] of [handle_googlechat_message] over
    [process_googlechat_attachments], inside its [try]: what was
    yielded before an exception is kept, the exception is logged. *)
Fixpoint process_googlechat_attachments (source : User) (urls : list URL)
    (intent : UserID) (reply_to : option Store.Message) (timestamp : Z)
    (event_ids : list (EventID * MessageType)) : M (list (EventID * MessageType)) :=
  match urls with
  | [] => ret event_ids
  | u :: rest =>
      try_else (process_attachment source u intent reply_to timestamp)
        (fun _ => ret event_ids)
        (fun yielded =>
           process_googlechat_attachments source rest intent reply_to timestamp
             (match yielded with
              | Some ev => event_ids ++ [ev]
              | None => event_ids
              end))
  end.

(** **** Edits from the remote network *)

Inductive edit_outcome :=
| EditNoRoom
| EditOwnIgnored
| EditDuplicate
| EditUnknownMessage
| EditNonText
| EditBridged (event_id : EventID).

(** [evt.last_edit_time or evt.last_update_time] *)
Definition edit_time (evt : GcMessage) : Z :=
  if last_edit_time evt =? 0 then last_update_time evt else last_edit_time evt.

(** What follows the comparison of timestamps. *)
Definition send_googlechat_edit (sender : Puppet) (evt : GcMessage) (edit_ts : Z)
    : M edit_outcome :=
  p <- get_self ;;
  d <- get_db ;;
  match Store.message_get_by_gcid (message_id evt) (gcid p) (gc_receiver p) 0 d with
  | None => ret EditUnknownMessage
  | Some target =>
      if negb (String.eqb (Store.msgtype target) "m.text")
         || negb (nonempty (text_body evt))
      then ret EditNonText
      else
        content <- perform (FmtGooglechatToMatrix (text_body evt) (annotations evt)) ;;
        let content := set_edit (Store.mxid target) content in
        intent <- perform (IntentFor sender) ;;
        event_id <- perform (SendMessage intent (mxid p) content (edit_ts / 1000)) ;;
        _send_delivery_receipt event_id ;;;
        ret (EditBridged event_id)
  end.

Definition handle_googlechat_edit (source : User) (evt : GcMessage) : M edit_outcome :=
  p <- get_self ;;
  if negb (truthy (mxid p)) then ret EditNoRoom
  else
    sender <- perform (PuppetGetByGcid (creator_id evt)) ;;
    let msg_id := message_id evt in
    ok <- _bridge_own_message_pm source sender true ;;
    if negb ok then ret EditOwnIgnored
    else
      let edit_ts := edit_time evt in
      p <- get_self ;;
      let duplicate :=
        match edit_dedup p !! msg_id with
        | Some seen_ts => edit_ts <=? seen_ts
        | None => false
        end in
      if duplicate then ret EditDuplicate
      else
        modify_self (fun p => set_edit_dedup (<[msg_id := edit_ts]> (edit_dedup p)) p) ;;;
        send_googlechat_edit sender evt edit_ts.


(** **** Messages from the remote network *)

Inductive message_outcome :=
| DroppedLocalDedup
| DroppedDedupQueue
| RoomCreationFailed
| OwnMessageIgnored
| Unhandled
| Bridged (event_ids : list (EventID * MessageType)).

(** [for index, (event_id, msgtype) in enumerate(event_ids): insert] *)
Fixpoint insert_messages (sender : Puppet) (msg_id parent_id : string) (timestamp : Z)
    (index : Z) (event_ids : list (EventID * MessageType)) : M unit :=
  match event_ids with
  | [] => ret tt
  | (event_id, msgtype) :: rest =>
      room <- room_for_row ;;
      p <- get_self ;;
      modify_db (Store.message_insert
        {| Store.mxid := event_id; Store.mx_room := room; Store.gcid := msg_id;
           Store.gc_chat := gcid p; Store.gc_receiver := gc_receiver p;
           Store.gc_parent_id := Some parent_id; Store.index := index;
           Store.timestamp := timestamp; Store.msgtype := value msgtype;
           Store.gc_sender := pu_gcid sender |}) ;;;
      insert_messages sender msg_id parent_id timestamp (index + 1) rest
  end.

(** What follows the dedup gate. *)
Definition bridge_googlechat_message (source : User) (sender : Puppet)
    (evt : GcMessage) : M message_outcome :=
  let msg_id := message_id evt in
  p <- get_self ;;
  created <- (if negb (truthy (mxid p))
              then room <- create_matrix_room source ;; ret (truthy room)
              else ret true) ;;
  if negb created then ret RoomCreationFailed
  else
    ok <- _bridge_own_message_pm source sender true ;;
    if negb ok then ret OwnMessageIgnored
    else
      intent <- perform (IntentFor sender) ;;
      let timestamp := create_time evt / 1000 in
      let parent_id := parent_topic_id evt in
      p <- get_self ;;
      d <- get_db ;;
      let reply_to :=
        if nonempty parent_id
        then Store.message_get_last_in_thread parent_id (gcid p) (gc_receiver p) d
        else None in
      event_ids <-
        (if nonempty (text_body evt) then
           content <- perform (FmtGooglechatToMatrix (text_body evt) (annotations evt)) ;;
           let content :=
             match reply_to with
             | Some r => set_reply (Store.mxid r) content
             | None => content
             end in
           event_id <- perform (SendMessage intent (mxid p) content timestamp) ;;
           (ret [(event_id, TEXT)] : M (list (EventID * MessageType)))
         else ret []) ;;
      let attachment_urls := _get_urls_from_annotations (annotations evt) in
      event_ids <- process_googlechat_attachments source attachment_urls intent
                     reply_to timestamp event_ids ;;
      match event_ids with
      | [] => ret Unhandled
      | _ :: _ =>
          insert_messages sender msg_id parent_id timestamp 0 event_ids ;;;
          _send_delivery_receipt (fst (List.last event_ids ("", TEXT))) ;;;
          ret (Bridged event_ids)
      end.

Definition handle_googlechat_message (source : User) (evt : GcMessage)
    : M message_outcome :=
  sender <- perform (PuppetGetByGcid (creator_id evt)) ;;
  let msg_id := message_id evt in
  p <- get_self ;;
  if bool_decide (local_id evt ∈ local_dedup p) then ret DroppedLocalDedup
  else if bool_decide (msg_id ∈ dedup p) then ret DroppedDedupQueue
  else
    modify_self (fun p => set_dedup (appendleft msg_id (dedup p)) p) ;;;
    bridge_googlechat_message source sender evt.

(** **** Deleting the portal *)

Definition delete : M unit :=
  p <- get_self ;;
  (match mxid p with
   | Some room =>
       if nonempty room then
         modify_db (Store.message_delete_all_by_room room) ;;;
         modify_db (Store.reaction_delete_all_by_room room)
       else ret tt
   | None => ret tt
   end) ;;;
  modify_by_gcid (base.delete (gcid_full p)) ;;;
  modify_by_mxid (match mxid p with
                  | Some room => base.delete room
                  | None => id
                  end) ;;;
  modify_db (Store.portal_delete (gcid p) (gc_receiver p)).

End Handlers.

End Portal.

(** ** Relations between the machine before and after a computation *)
Module Frame.
Import Portal.

Section Relations.
Context {Ext : Type}.

(** [m] keeps [R] between the machine it starts from and the one it
    leaves, whatever it returns. *)
Definition preserves (R : machine Ext -> machine Ext -> Prop) {A} (m : @M Ext A) : Prop :=
  forall s, R s (snd (m s)).

(** Results that end the frame: [R] is kept unless the computation
    returns one of them. *)
Definition preserves_unless (R : machine Ext -> machine Ext -> Prop) {A}
    (bad : A -> Prop) (m : @M Ext A) : Prop :=
  forall s, match fst (m s) with
            | Ok a => bad a \/ R s (snd (m s))
            | Raise _ => True
            end.

Definition finishes_with {A} (bad : A -> Prop) (m : @M Ext A) : Prop :=
  forall s, match fst (m s) with
            | Ok a => bad a
            | Raise _ => True
            end.

(** [s'] has the dedup history and the provisional ids of [s], and
    every call made in between saw that history. *)
Definition keeps_dedup (s s' : machine Ext) : Prop :=
  dedup (self s') = dedup (self s)
  /\ local_dedup (self s') = local_dedup (self s)
  /\ exists new, trace s' = trace s ++ new
                 /\ Forall (fun st => dedup (seen st) = dedup (self s)) new.

Definition keeps_rows (s s' : machine Ext) : Prop :=
  Store.messages (db s') = Store.messages (db s)
  /\ Store.reactions (db s') = Store.reactions (db s).


(** [s'] is [s] after calls that all satisfy [ok]: the portal and the
    store are untouched, and are what every one of the calls saw. *)
Definition only_calls (ok : call -> bool) (s s' : machine Ext) : Prop :=
  self s' = self s /\ db s' = db s
  /\ exists new, trace s' = trace s ++ new
                 /\ Forall (fun st => ok (what st) = true
                                      /\ seen st = self s /\ stored st = db s) new.

Definition quiet (c : call) : bool :=
  negb (is_send_message c) && negb (is_remote_call c).

Definition any_call (c : call) : bool := true.

Definition no_create (st : step) : Prop := is_create_room (what st) = false.

(** [s'] is [s] after steps that create no room. *)
Definition creates_nothing (s s' : machine Ext) : Prop :=
  exists new, trace s' = trace s ++ new /\ Forall no_create new.

End Relations.

Definition matches_reaction (emoji : text) (sender : User) (target : Store.Message)
    (row : Store.Reaction) : Prop :=
  Store.emoji row = emoji
  /\ Store.r_gc_sender row = u_gcid sender
  /\ Store.gc_msgid row = Store.gcid target
  /\ Store.r_gc_chat row = Store.gc_chat target
  /\ Store.r_gc_receiver row = Store.gc_receiver target.

(** The report of a dropped reaction. *)
Definition duplicate_report (sender : User) (reaction_id : EventID) (p : portal) : call :=
  SendRemoteCheckpoint sender PERM_FAILURE reaction_id (mxid p) REACTION None
    (Some (Exception "duplicate reaction")).

(** The row that [handle_matrix_reaction] inserts. *)
Definition new_reaction_row (sender : User) (reaction_id : EventID) (room : RoomID)
    (reaction : text) (target : Store.Message) (ts : Z) : Store.Reaction :=
  {| Store.r_mxid := reaction_id; Store.r_mx_room := room;
     Store.emoji := rstrip [VS16] reaction; Store.r_gc_sender := u_gcid sender;
     Store.gc_msgid := Store.gcid target; Store.r_gc_chat := Store.gc_chat target;
     Store.r_gc_receiver := Store.gc_receiver target; Store.r_timestamp := ts |}.

Definition react_call (sender : User) (reaction : text) (target : Store.Message) : call :=
  RemoteReact sender (Store.gc_chat target) (Store.gc_parent_id target)
    (Store.gcid target) (rstrip [VS16] reaction) false.

End Frame.

(** ** Concrete inputs *)
Module Samples.
Import Portal.

Definition sniff_none (d : Download.bytes) : string := "application/octet-stream".

Definition two_blocks : Download.stream :=
  [[Byte.x01; Byte.x02]; [Byte.x03; Byte.x04; Byte.x05]].

Definition oversized_declared : Download.response :=
  {| Download.status := 200; Download.content_length := Download.LenInt 9;
     Download.content_type := Some "image/png"; Download.body := two_blocks |}.

Definition oversized_undeclared : Download.response :=
  {| Download.status := 200; Download.content_length := Download.LenAbsent;
     Download.content_type := Some "image/png"; Download.body := two_blocks |}.

Definition ghost (gcid : string) : Puppet :=
  {| pu_gcid := gcid; pu_mxid := "@googlechat_" +:+ gcid +:+ ":example.org";
     is_real_user := false |}.

Definition plain_text (body : string) : Content :=
  {| c_msgtype := TEXT; c_body := body; c_reply_to := None; c_edit := None;
     c_url := None; c_file := None; c_size := 0; c_mimetype := None |}.

Definition synced_dm : InfoSync :=
  {| synced := {| i_other_user_id := Some "12345"; i_name := Some "Ada";
                  i_is_threaded := Some false;
                  i_main_intent_mxid := Some "@googlechat_12345:example.org" |};
     failure := None |}.

(** What each call answers when all goes well. *)
Definition default_answer (c : call) : res c :=
  match c return res c with
  | PuppetGetByGcid g => ghost g
  | PuppetGetByCustomMxid _ => None
  | IntentFor pu => pu_mxid pu
  | GetMembership _ _ => JOIN
  | InviteUser _ _ _ _ _ => tt
  | EnsureJoined _ _ => true
  | JoinRoomById _ _ => tt
  | UpdateDirectChats _ _ _ => tt
  | SendMessage _ _ content ts => "$" +:+ c_body content +:+ "@" +:+ pretty ts
  | MarkRead _ _ _ => tt
  | UploadMedia _ _ _ filename => "mxc://example.org/" +:+ filename
  | CreateRoom _ _ => Some "!created:example.org"
  | UpdateInfo _ => synced_dm
  | UpdateParticipants _ => synced_dm
  | FmtGooglechatToMatrix body _ => plain_text body
  | FmtMatrixToGooglechat content => (c_body content, [])
  | SetTyping _ _ _ => tt
  | RemoteSendMessage _ _ _ _ _ _ => MessageReply "remote-1" 1700000000000000
  | RemoteEditMessage _ _ _ _ _ _ => 1700000001000000
  | RemoteReact _ _ _ _ _ _ => tt
  | RemoteUploadFile _ _ _ filename _ => "upload:" +:+ filename
  | RemoteDownloadAttachment _ _ _ =>
      {| Download.data := [Byte.x01]; Download.mime := "image/png";
         Download.filename := "cat.png" |}
  | HttpGet _ => oversized_undeclared
  | DownloadMedia _ _ => [Byte.x01]
  | DecryptAttachment data _ _ _ => data
  | EncryptAttachment data =>
      (data, {| f_url := None; f_key := "key"; f_sha256 := None; f_iv := "iv" |})
  | SendRemoteCheckpoint _ _ _ _ _ _ _ => tt
  | TimeMillis => 1700000000000
  | RandInt lo _ => lo + 7
  end.

Definition settings : Config :=
  {| invite_own_puppet_to_pm := false; delivery_receipts := true;
     encryption_default := false; federate_rooms := true; bot_avatar := "mxc://bot";
     e2ee := false; bot_mxid := "@googlechatbot:example.org"; can_encrypt := false;
     can_decrypt := false; upload_size := 1000 |}.

(** An outside that counts the calls and makes those of [fails] raise. *)
Definition outside (fails : call -> bool) : Env nat :=
  {| answer := fun c n =>
       (if fails c then Raise (Exception "unavailable") else Ok (default_answer c), S n);
     sniff := sniff_none;
     guess_extension := fun _ => Some ".bin";
     url_host := fun _ => Some "example.org";
     url_path := fun raw => raw;
     config := settings |}.

Definition never (c : call) : bool := false.

(** The remote network refuses to send. *)
Definition send_fails (c : call) : bool :=
  match c with
  | RemoteSendMessage _ _ _ _ _ _ => true
  | _ => false
  end.

Definition alice : User := {| u_mxid := "@alice:example.org"; u_gcid := "777" |}.

(** A direct chat with a room, loaded and idle. *)
Definition dm_portal : portal :=
  {| gcid := "dm:abc"; gc_receiver := "777"; other_user_id := Some "12345";
     mxid := Some "!room:example.org"; name := Some "Ada"; encrypted := false;
     is_threaded := Some false;
     main_intent_mxid := Some "@googlechat_12345:example.org";
     last_bridged_mxid := None; dedup := []; edit_dedup := ∅; local_dedup := ∅;
     send_locks := ∅ |}.

(** The same chat before its room is created. *)
Definition dm_portal_no_room : portal := set_mxid None dm_portal.

(** A group chat without a room. *)
Definition group_portal_no_room : portal :=
  {| gcid := "space:xyz"; gc_receiver := ""; other_user_id := None;
     mxid := None; name := Some "Team"; encrypted := false;
     is_threaded := Some true;
     main_intent_mxid := Some "@googlechatbot:example.org";
     last_bridged_mxid := None; dedup := []; edit_dedup := ∅; local_dedup := ∅;
     send_locks := ∅ |}.

Definition hello_row : Store.Message :=
  {| Store.mxid := "$hello"; Store.mx_room := "!room:example.org";
     Store.gcid := "msg-1"; Store.gc_chat := "dm:abc"; Store.gc_receiver := "777";
     Store.gc_parent_id := Some ""; Store.index := 0; Store.timestamp := 1700000000000;
     Store.msgtype := "m.text"; Store.gc_sender := "12345" |}.

Definition other_row : Store.Message :=
  {| Store.mxid := "$elsewhere"; Store.mx_room := "!other:example.org";
     Store.gcid := "msg-9"; Store.gc_chat := "space:xyz"; Store.gc_receiver := "";
     Store.gc_parent_id := Some ""; Store.index := 0; Store.timestamp := 1700000000500;
     Store.msgtype := "m.text"; Store.gc_sender := "777" |}.

(** U+1F44D, thumbs up. *)
Definition thumbs_up : text := [128077%N].

Definition thumbs_row : Store.Reaction :=
  {| Store.r_mxid := "$thumbs"; Store.r_mx_room := "!room:example.org";
     Store.emoji := thumbs_up; Store.r_gc_sender := "777"; Store.gc_msgid := "msg-1";
     Store.r_gc_chat := "dm:abc"; Store.r_gc_receiver := "777";
     Store.r_timestamp := 1700000000100 |}.

Definition store_of (p : portal) : Store.db :=
  {| Store.messages := [hello_row; other_row]; Store.reactions := [thumbs_row];
     Store.portals := [row_of p] |}.

Definition start (p : portal) : machine nat :=
  {| ext := 0%nat; self := p; db := store_of p;
     by_gcid := {[ gcid_full p := gcid_full p ]};
     by_mxid := match mxid p with
                | Some room => {[ room := gcid_full p ]}
                | None => ∅
                end;
     trace := [] |}.

(** A text message of the counterpart, and one that carries nothing
    the bridge can render. *)
Definition greeting : GcMessage :=
  {| creator_id := "12345"; message_id := "msg-2"; parent_topic_id := "";
     local_id := ""; create_time := 1700000002000000; last_edit_time := 0;
     last_update_time := 0; text_body := "hi"; annotations := [] |}.

Definition empty_message : GcMessage :=
  {| creator_id := "12345"; message_id := "msg-3"; parent_topic_id := "";
     local_id := ""; create_time := 1700000003000000; last_edit_time := 0;
     last_update_time := 0; text_body := ""; annotations := [] |}.

(** Two edits of [msg-1], the later one first. *)
Definition edit_at (ts : Z) (body : string) : GcMessage :=
  {| creator_id := "12345"; message_id := "msg-1"; parent_topic_id := "";
     local_id := ""; create_time := 1700000000000000; last_edit_time := ts;
     last_update_time := ts; text_body := body; annotations := [] |}.

End Samples.

(** ** The parts of the longer handlers *)
Module Parts.
Import Portal.

Section Outbound.
Context {Ext : Type}.
Variable env : Env Ext.

(** The draw of a provisional id. *)
Definition draw : call := RandInt 0 18446744073709551615.

(** The thread a home-network message goes to. *)
Definition thread_of (message : Content) (p : portal) (d : Store.db) : option string :=
  match Store.message_get_by_mxid (c_reply_to message) (mxid p) d, is_threaded p with
  | Some r, Some true => Some (or_else (Store.gc_parent_id r) (Store.gcid r))
  | _, _ => None
  end.

(** The portal while a send is in flight: the provisional id is
    pending and the sender has a lock. *)
Definition in_flight (sender : User) (local_id : string) (s : machine Ext) : machine Ext :=
  with_self (fun p => set_send_locks ({[u_gcid sender]} ∪ send_locks p) p)
    (with_self (fun p => set_local_dedup ({[local_id]} ∪ local_dedup p) p) s).

(** The [try] of [handle_matrix_message]. *)
Definition send_body (sender : User) (message : Content) (thread_id : option string)
    (local_id : string) : M SendResponse :=
  if is_TEXT (c_msgtype message) || is_NOTICE (c_msgtype message)
  then _handle_matrix_text env sender message thread_id local_id
  else if is_media (c_msgtype message)
  then _handle_matrix_media env sender message thread_id local_id
  else raise (ValueError ("Unsupported msgtype " +:+ value (c_msgtype message))).

(** The row of a message sent to the remote network. *)
Definition sent_row (sender : User) (message : Content) (event_id : EventID)
    (thread_id : option string) (resp : SendResponse) (room : RoomID) (p : portal)
    : Store.Message :=
  {| Store.mxid := event_id; Store.mx_room := room;
     Store.gcid := sr_gcid resp; Store.gc_chat := gcid p;
     Store.gc_receiver := gc_receiver p; Store.gc_parent_id := thread_id;
     Store.index := 0; Store.timestamp := sr_timestamp resp / 1000;
     Store.msgtype := value (c_msgtype message);
     Store.gc_sender := u_gcid sender |}.

(** Its [else]. *)
Definition record_sent (sender : User) (message : Content) (event_id : EventID)
    (thread_id : option string) (local_id : string) (resp : SendResponse)
    : M matrix_outcome :=
  bind (_rec_success env sender event_id ROOM_MESSAGE (Some (c_msgtype message))) (fun _ =>
  bind (modify_self (fun p => set_dedup (appendleft (sr_gcid resp) (dedup p)) p)) (fun _ =>
  bind (local_dedup_remove local_id) (fun _ =>
  bind room_for_row (fun room =>
  bind get_self (fun p =>
  bind (modify_db (Store.message_insert
                     (sent_row sender message event_id thread_id resp room p))) (fun _ =>
  bind (modify_self (set_last_bridged_mxid (Some event_id))) (fun _ =>
  ret (Sent (sr_gcid resp))))))))).

(** Its [except]. *)
Definition record_failed (sender : User) (message : Content) (event_id : EventID)
    (e : exn) : M matrix_outcome :=
  bind (_rec_error env sender e event_id ROOM_MESSAGE (Some (c_msgtype message)))
    (fun _ => ret (SendFailed e)).

End Outbound.

(** The row [handle_googlechat_message] inserts for the event at
    [index] of a delivery. *)
Definition row_at (sender : Puppet) (msg_id parent_id : string) (timestamp : Z)
    (room : RoomID) (p : portal) (index : Z) (ev : EventID * MessageType)
    : Store.Message :=
  {| Store.mxid := fst ev; Store.mx_room := room; Store.gcid := msg_id;
     Store.gc_chat := gcid p; Store.gc_receiver := gc_receiver p;
     Store.gc_parent_id := Some parent_id; Store.index := index;
     Store.timestamp := timestamp; Store.msgtype := value (snd ev);
     Store.gc_sender := pu_gcid sender |}.

(** A remote send that carries the provisional id [local_id], or any
    other call. *)
Definition carries (local_id : string) (c : call) : bool :=
  match c with
  | RemoteSendMessage _ _ _ _ _ l => String.eqb l local_id
  | _ => true
  end.

End Parts.

(** ** What a computation returns, and what it keeps of the rooms *)
Module Post.
Import Portal.

Section Ensures.
Context {Ext : Type}.

(** Whenever [m] returns, its result and the machine it leaves
    satisfy [Q]. *)
Definition ensures {A} (Q : A -> machine Ext -> Prop) (m : @M Ext A) : Prop :=
  forall s, match m s with
            | (Ok a, s') => Q a s'
            | (Raise _, _) => True
            end.

(** [m] does not raise. *)
Definition returns {A} (m : @M Ext A) : Prop :=
  forall s, exists a, fst (m s) = Ok a.


(** Started from a machine that [R] relates to [s0], whenever [m]
    returns, [Q] holds of [s0], the result and the machine left. *)
Definition follows {A} (R : machine Ext -> machine Ext -> Prop)
    (Q : machine Ext -> A -> machine Ext -> Prop) (m : @M Ext A) : Prop :=
  forall s0 s, R s0 s ->
    match m s with
    | (Ok a, s') => Q s0 a s'
    | (Raise _, _) => True
    end.

(** [s'] has the room of [s]. *)
Definition keeps_mxid (s s' : machine Ext) : Prop :=
  mxid (self s') = mxid (self s).

End Ensures.
End Post.

(** ** More of the store *)
Module StoreMore.
Import Store.

(** Modelled from the spec: a message row's [delete], of the row with
    this event id in this room. *)
Definition message_delete (m : Message) : db -> db :=
  with_messages
    (List.filter (fun r => negb (str_eq (mxid r) (mxid m) && str_eq (mx_room r) (mx_room m)))).

(** Modelled from the spec: [Reaction.get_by_mxid], the point lookup
    of a reaction row by home-network event id within a room. *)
Definition reaction_get_by_mxid (mxid' : EventID) (room : option RoomID) (d : db)
    : option Reaction :=
  match room with
  | Some r =>
      List.find (fun x => str_eq (r_mxid x) mxid' && str_eq (r_mx_room x) r) (reactions d)
  | None => None
  end.

(** Modelled from the spec: a reaction row's [delete]. *)
Definition reaction_delete (r : Reaction) : db -> db :=
  with_reactions
    (List.filter (fun x => negb (str_eq (r_mxid x) (r_mxid r)
                                 && str_eq (r_mx_room x) (r_mx_room r)))).

(** Modelled from the spec: [Message.get_all_by_gcid], all the rows
    that share a remote message id in a conversation. *)
Definition message_get_all_by_gcid (gcid' chat receiver : string) (d : db) : list Message :=
  List.filter (fun m => str_eq (gcid m) gcid' && str_eq (gc_chat m) chat
                        && str_eq (gc_receiver m) receiver)
    (messages d).

(** Modelled from the spec: [Message.get_closest_before], the most
    recent row of the conversation at or before a time. *)
Definition message_get_closest_before (chat receiver : string) (ts : Z) (d : db)
    : option Message :=
  fold_left
    (fun best m =>
       if str_eq (gc_chat m) chat && str_eq (gc_receiver m) receiver && (timestamp m <=? ts)
       then match best with
            | Some b => if later b m then Some m else best
            | None => Some m
            end
       else best)
    (messages d) None.

End StoreMore.

(** ** The other handlers of the portal

    Redactions, remote reactions, typing and read receipts. They call
    operations that the handlers of [Portal] do not; the machine is
    the one of [Portal] with the typing set and the list of these
    calls. *)
Module Wide.
Import Portal.



(** [googlechat.MessageDeletedEvent] *)
Record MessageDeletedEvent := {
  de_message_id : string;
  de_timestamp : Z
}.

(** [googlechat.ReadReceipt] *)
Record ReadReceipt := {
  rr_user_id : string;
  rr_read_time_micros : Z
}.

(** The operations of other objects that these handlers await. *)
Inductive action :=
| RemoteDeleteMessage (user : User) (chat : string) (parent : option string)
    (msgid : string)
| React (intent : UserID) (room : RoomID) (event : EventID) (emoji : text) (timestamp : Z)
| Redact (intent : UserID) (room : RoomID) (event : EventID) (timestamp : option Z)
| SetTypingIn (intent : UserID) (room : option RoomID) (typing : bool) (timeout : Z)
| UserGetByMxid (mxid : UserID)
| PuppetLookup (gcid : string).

Definition reply (a : action) : Type :=
  match a with
  | RemoteDeleteMessage _ _ _ _ => unit
  | React _ _ _ _ _ => EventID
  | Redact _ _ _ _ => unit
  | SetTypingIn _ _ _ _ => unit
  | UserGetByMxid _ => option User
  | PuppetLookup _ => option Puppet
  end.


Definition is_remote_delete (a : action) : bool :=
  match a with RemoteDeleteMessage _ _ _ _ => true | _ => false end.

(** An action, with the store as it was when it was made. *)
Record noted := {
  act : action;
  at_store : Store.db
}.

Record room (Ext : Type) := {
  base : machine Ext;
  typing : gset UserID;
  made : list noted
}.
Arguments base {Ext} r.
Arguments typing {Ext} r.
Arguments made {Ext} r.

(** The outside: the one of [Portal], what answers the actions, and
    the constant [googlechat.TYPING]. *)
Record World (Ext : Type) := {
  old : Env Ext;
  respond : forall a : action, Ext -> result (reply a) * Ext;
  TYPING : Z
}.
Arguments old {Ext} w.
Arguments respond {Ext} w a x.
Arguments TYPING {Ext} w.

Section Handlers.
Context {Ext : Type}.
Variable world : World Ext.

Definition W (A : Type) : Type := room Ext -> result A * room Ext.

Definition wret {A} (a : A) : W A := fun s => (Ok a, s).

Definition wbind {A B} (m : W A) (k : A -> W B) : W B :=
  fun s =>
    match m s with
    | (Ok a, s') => k a s'
    | (Raise e, s') => (Raise e, s')
    end.

Definition wraise {A} (e : exn) : W A := fun s => (Raise e, s).

(** [try: m except Exception as e: h e else: k a] *)
Definition wtry_else {A B} (m : W A) (h : exn -> W B) (k : A -> W B) : W B :=
  fun s =>
    match m s with
    | (Ok a, s') => k a s'
    | (Raise e, s') => h e s'
    end.

(** [try: m except <classes h accepts>: h e] *)
Definition wtry_except {A} (m : W A) (h : exn -> option (W A)) : W A :=
  fun s =>
    match m s with
    | (Ok a, s') => (Ok a, s')
    | (Raise e, s') =>
        match h e with
        | Some k => k s'
        | None => (Raise e, s')
        end
    end.


Notation "x <-- m ;; k" := (wbind m (fun x => k))
  (at level 100, m at next level, right associativity).
Notation "m ;;;; k" := (wbind m (fun _ => k))
  (at level 100, right associativity).

(** A computation of [Portal], on the machine inside. *)
Definition lift {A} (m : @M Ext A) : W A :=
  fun s =>
    (fst (m (base s)),
     {| base := snd (m (base s)); typing := typing s; made := made s |}).

Definition with_ext (x : Ext) (b : machine Ext) : machine Ext :=
  {| ext := x; self := self b; db := db b; by_gcid := by_gcid b; by_mxid := by_mxid b;
     trace := trace b |}.

(** An action: the outside answers and moves on; the action is
    noted with the store as it is. *)
Definition do (a : action) : W (reply a) :=
  fun s =>
    (fst (respond world a (ext (base s))),
     {| base := with_ext (snd (respond world a (ext (base s)))) (base s);
        typing := typing s;
        made := made s ++ [ {| act := a; at_store := db (base s) |} ] |}).

Definition set_typing_set (v : gset UserID) : W unit :=
  fun s => (Ok tt, {| base := base s; typing := v; made := made s |}).

Definition get_typing : W (gset UserID) := fun s => (Ok (typing s), s).

(** **** Redactions from the home network *)

Inductive redaction_outcome :=
| MessageRedacted
| ReactionRedacted
| RedactionFailed (e : exn)
| RedactionTargetNotFound.

Definition handle_matrix_redaction (sender : User) (target_id redaction_id : EventID)
    : W redaction_outcome :=
  p <-- lift get_self ;;
  d <-- lift get_db ;;
  match Store.message_get_by_mxid (Some target_id) (mxid p) d with
  | Some target =>
      lift (modify_db (StoreMore.message_delete target)) ;;;;
      wtry_else
        (do (RemoteDeleteMessage sender (Store.gc_chat target)
               (Store.gc_parent_id target) (Store.gcid target)))
        (fun e => lift (_rec_error (old world) sender e redaction_id ROOM_REDACTION None) ;;;;
                  wret (RedactionFailed e))
        (fun _ => lift (_rec_success (old world) sender redaction_id ROOM_REDACTION None) ;;;;
                  wret MessageRedacted)
  | None =>
      match StoreMore.reaction_get_by_mxid target_id (mxid p) d with
      | Some reaction =>
          let reaction_target :=
            Store.message_get_by_gcid (Store.gc_msgid reaction) (Store.r_gc_chat reaction)
              (Store.r_gc_receiver reaction) 0 d in
          lift (modify_db (StoreMore.reaction_delete reaction)) ;;;;
          wtry_else
            (match reaction_target with
             | Some rt =>
                 lift (perform (old world)
                         (RemoteReact sender (Store.r_gc_chat reaction)
                            (Store.gc_parent_id rt) (Store.gcid rt)
                            (Store.emoji reaction) true))
             | None =>
                 wraise (AttributeError "'NoneType' object has no attribute 'gc_parent_id'")
             end)
            (fun e => lift (_rec_error (old world) sender e redaction_id ROOM_REDACTION None) ;;;;
                      wret (RedactionFailed e))
            (fun _ => lift (_rec_success (old world) sender redaction_id ROOM_REDACTION None) ;;;;
                      wret ReactionRedacted)
      | None =>
          lift (_rec_dropped (old world) sender redaction_id ROOM_REDACTION
                  "redaction target not found" None) ;;;;
          wret RedactionTargetNotFound
      end
  end.

(** **** Typing in the home network *)

(** [{mxid: await u.User.get_by_mxid(mxid, create=False) for mxid in
    users}] *)
Fixpoint user_map_of (mxids : list UserID) : W (list (UserID * option User)) :=
  match mxids with
  | [] => wret []
  | mxid :: rest =>
      user <-- do (UserGetByMxid mxid) ;;
      more <-- user_map_of rest ;;
      wret ((mxid, user) :: more)
  end.

(** [user_map.get(mxid)], as the condition and as the object. *)
Fixpoint user_map_get (user_map : list (UserID * option User)) (mxid : UserID)
    : option User :=
  match user_map with
  | [] => None
  | (k, v) :: rest => if String.eqb k mxid then v else user_map_get rest mxid
  end.

(** The coroutines [user_map[mxid].set_typing(self.gcid, flag)] for
    the [mxids] that the map knows. *)
Definition typing_changes (user_map : list (UserID * option User)) (chat : string)
    (flag : bool) (mxids : list UserID) : list (W unit) :=
  flat_map (fun mxid =>
              match user_map_get user_map mxid with
              | Some user =>
                  [ (lift (perform (old world) (SetTyping user chat flag)) : W unit) ]
              | None => []
              end) mxids.

(** [await asyncio.gather] over [aws], one after the other: all of them
    run, and the first exception is the one raised. *)
Fixpoint gather (aws : list (W unit)) : W unit :=
  match aws with
  | [] => wret tt
  | m :: rest =>
      fun s =>
        match m s with
        | (Ok _, s') => gather rest s'
        | (Raise e, s') => (Raise e, snd (gather rest s'))
        end
  end.

Definition handle_matrix_typing (users : gset UserID) : W unit :=
  user_map <-- user_map_of (elements users) ;;
  p <-- lift get_self ;;
  before <-- get_typing ;;
  let stopped_typing := typing_changes user_map (gcid p) false (elements (before ∖ users)) in
  let started_typing := typing_changes user_map (gcid p) true (elements (users ∖ before)) in
  set_typing_set users ;;;;
  gather (stopped_typing ++ started_typing).

(** **** Reactions from the remote network *)




(** **** Deletions in the remote network *)

(** The [for msg in target] of [handle_googlechat_redaction]. *)
Fixpoint redact_rows (timestamp : Z) (rows : list Store.Message) : W unit :=
  match rows with
  | [] => wret tt
  | msg :: rest =>
      lift (modify_db (StoreMore.message_delete msg)) ;;;;
      wtry_except
        (mi <-- lift main_intent ;;
         do (Redact mi (Store.mx_room msg) (Store.mxid msg) (Some (timestamp / 1000))))
        (fun _ => Some (wret tt)) ;;;;
      redact_rows timestamp rest
  end.

Definition handle_googlechat_redaction (evt : MessageDeletedEvent) : W unit :=
  p <-- lift get_self ;;
  if negb (truthy (mxid p)) then wret tt
  else
    d <-- lift get_db ;;
    let target :=
      StoreMore.message_get_all_by_gcid (de_message_id evt) (gcid p) (gc_receiver p) d in
    match target with
    | [] => wret tt
    | _ :: _ => redact_rows (de_timestamp evt) target
    end.

(** **** Read receipts and typing in the remote network *)

Definition mark_read (user_id : string) (ts : Z) : W unit :=
  p <-- lift get_self ;;
  d <-- lift get_db ;;
  let message :=
    StoreMore.message_get_closest_before (gcid p) (gc_receiver p) (ts / 1000) d in
  puppet <-- do (PuppetLookup user_id) ;;
  match puppet, message with
  | Some pu, Some m =>
      intent <-- lift (perform (old world) (IntentFor pu)) ;;
      lift (perform (old world) (MarkRead intent (Some (Store.mx_room m)) (Store.mxid m)))
  | _, _ => wret tt
  end.

Fixpoint handle_googlechat_read_receipts (read_receipts : list ReadReceipt) : W unit :=
  match read_receipts with
  | [] => wret tt
  | rr :: rest =>
      mark_read (rr_user_id rr) (rr_read_time_micros rr) ;;;;
      handle_googlechat_read_receipts rest
  end.

Definition handle_googlechat_typing (source : User) (sender : string) (status : Z)
    : W unit :=
  p <-- lift get_self ;;
  if negb (truthy (mxid p)) then wret tt
  else
    puppet <-- lift (perform (old world) (PuppetGetByGcid sender)) ;;
    joined <--
      (if is_direct p && String.eqb (pu_gcid puppet) (u_gcid source)
       then membership <-- lift (perform (old world) (GetMembership (mxid p) (pu_mxid puppet))) ;;
            wret (is_JOIN membership)
       else wret true) ;;
    if negb joined then wret tt
    else
      intent <-- lift (perform (old world) (IntentFor puppet)) ;;
      do (SetTypingIn intent (mxid p) (status =? TYPING world) 6000).

End Handlers.

End Wide.

(** ** The portals of the bridge

    The class-level indices [by_gcid] and [by_mxid] hold portal
    objects; an object is an address in [heap], so that two lookups
    that give the same portal give the same address. A receiver is
    given with every [get_by_gcid], as the keys of [by_gcid] are
    pairs of strings. *)
Module Registry.
Import Portal.

Record registry (Ext : Type) := {
  outside : Ext;
  heap : list portal;
  index_by_gcid : gmap (string * string) nat;
  index_by_mxid : gmap RoomID nat;
  rows : Store.db
}.
Arguments outside {Ext} r.
Arguments heap {Ext} r.
Arguments index_by_gcid {Ext} r.
Arguments index_by_mxid {Ext} r.
Arguments rows {Ext} r.

(** The portal that [__init__] makes of the columns of a row. *)
Definition of_row (row : Store.PortalRow) : portal :=
  {| gcid := Store.p_gcid row; gc_receiver := Store.p_gc_receiver row;
     other_user_id := Store.p_other_user_id row; mxid := Store.p_mxid row;
     name := Store.p_name row; encrypted := Store.p_encrypted row;
     is_threaded := Store.p_is_threaded row;
     main_intent_mxid := None; last_bridged_mxid := None; dedup := [];
     edit_dedup := ∅; local_dedup := ∅; send_locks := ∅ |}.

(** [cls(gcid=gcid, gc_receiver=receiver)] *)
Definition blank (gcid' receiver : string) : portal :=
  {| gcid := gcid'; gc_receiver := receiver; other_user_id := None; mxid := None;
     name := None; encrypted := false; is_threaded := None;
     main_intent_mxid := None; last_bridged_mxid := None; dedup := [];
     edit_dedup := ∅; local_dedup := ∅; send_locks := ∅ |}.

Definition set_main_intent (v : option UserID) (p : portal) : portal :=
  {| gcid := gcid p; gc_receiver := gc_receiver p; other_user_id := other_user_id p;
     mxid := mxid p; name := name p; encrypted := encrypted p;
     is_threaded := is_threaded p; main_intent_mxid := v;
     last_bridged_mxid := last_bridged_mxid p; dedup := dedup p;
     edit_dedup := edit_dedup p; local_dedup := local_dedup p;
     send_locks := send_locks p |}.

(** Modelled from the spec: the base portal record's [get_by_gcid],
    the row with this composite key or nothing. *)
Definition row_by_gcid (gcid' receiver : string) (d : Store.db) : option Store.PortalRow :=
  List.find (Store.same_portal gcid' receiver) (Store.portals d).

(** Modelled from the spec: the base portal record's [get_by_mxid]. *)
Definition row_by_mxid (room : RoomID) (d : Store.db) : option Store.PortalRow :=
  List.find (fun row => match Store.p_mxid row with
                        | Some r => String.eqb r room
                        | None => false
                        end) (Store.portals d).

(** Modelled from the spec: the base portal record's [insert]. *)
Definition row_insert (row : Store.PortalRow) : Store.db -> Store.db :=
  Store.with_portals (fun l => l ++ [row]).

Section Getters.
Context {Ext : Type}.
Variable env : Env Ext.
(** [puppet.default_mxid_intent], by the id it acts as. *)
Variable default_mxid : Puppet -> UserID.

Definition G (A : Type) : Type := registry Ext -> result A * registry Ext.

Definition gret {A} (a : A) : G A := fun s => (Ok a, s).

Definition gbind {A B} (m : G A) (k : A -> G B) : G B :=
  fun s =>
    match m s with
    | (Ok a, s') => k a s'
    | (Raise e, s') => (Raise e, s')
    end.

Notation "x <~ m ;; k" := (gbind m (fun x => k))
  (at level 100, m at next level, right associativity).
Notation "m ~;; k" := (gbind m (fun _ => k))
  (at level 100, right associativity).

(** A new object. *)
Definition alloc (p : portal) : G nat :=
  fun s =>
    (Ok (length (heap s)),
     {| outside := outside s; heap := heap s ++ [p]; index_by_gcid := index_by_gcid s;
        index_by_mxid := index_by_mxid s; rows := rows s |}).

(** The object at an address; the getters only use addresses they
    have allocated. *)
Definition deref (a : nat) : G portal :=
  fun s =>
    match heap s !! a with
    | Some p => (Ok p, s)
    | None => (Raise (Exception "dangling portal"), s)
    end.

Definition update (a : nat) (f : portal -> portal) : G unit :=
  fun s =>
    (Ok tt,
     {| outside := outside s; heap := alter f a (heap s);
        index_by_gcid := index_by_gcid s; index_by_mxid := index_by_mxid s;
        rows := rows s |}).

Definition set_by_gcid (key : string * string) (a : nat) : G unit :=
  fun s =>
    (Ok tt,
     {| outside := outside s; heap := heap s;
        index_by_gcid := <[key := a]> (index_by_gcid s);
        index_by_mxid := index_by_mxid s; rows := rows s |}).

Definition set_by_mxid (room : RoomID) (a : nat) : G unit :=
  fun s =>
    (Ok tt,
     {| outside := outside s; heap := heap s; index_by_gcid := index_by_gcid s;
        index_by_mxid := <[room := a]> (index_by_mxid s); rows := rows s |}).

Definition modify_rows (f : Store.db -> Store.db) : G unit :=
  fun s =>
    (Ok tt,
     {| outside := outside s; heap := heap s; index_by_gcid := index_by_gcid s;
        index_by_mxid := index_by_mxid s; rows := f (rows s) |}).

Definition ask (c : call) : G (res c) :=
  fun s =>
    (fst (answer env c (outside s)),
     {| outside := snd (answer env c (outside s)); heap := heap s;
        index_by_gcid := index_by_gcid s; index_by_mxid := index_by_mxid s;
        rows := rows s |}).

Definition postinit (a : nat) : G unit :=
  p <~ deref a ;;
  set_by_gcid (gcid_full p) a ~;;
  (match mxid p with
   | Some room => if nonempty room then set_by_mxid room a else gret tt
   | None => gret tt
   end) ~;;
  if truthy (other_user_id p) || negb (is_direct p) then
    intent <~ (if is_direct p
               then pu <~ ask (PuppetGetByGcid (or_else (other_user_id p) "")) ;;
                    gret (default_mxid pu)
               else gret (bot_mxid (config env))) ;;
    update a (set_main_intent (Some intent))
  else gret tt.

Definition get_by_mxid (room : RoomID) : G (option nat) :=
  fun s =>
    match index_by_mxid s !! room with
    | Some a => (Ok (Some a), s)
    | None =>
        match row_by_mxid room (rows s) with
        | Some row =>
            (a <~ alloc (of_row row) ;;
             postinit a ~;;
             gret (Some a)) s
        | None => (Ok None, s)
        end
    end.

Definition get_by_gcid (gcid' receiver : string) : G nat :=
  let receiver := if startswith gcid' "space:" then "" else receiver in
  fun s =>
    match index_by_gcid s !! (gcid', receiver) with
    | Some a => (Ok a, s)
    | None =>
        match row_by_gcid gcid' receiver (rows s) with
        | Some row =>
            (a <~ alloc (of_row row) ;;
             postinit a ~;;
             gret a) s
        | None =>
            (a <~ alloc (blank gcid' receiver) ;;
             modify_rows (row_insert (row_of (blank gcid' receiver))) ~;;
             postinit a ~;;
             gret a) s
        end
    end.

End Getters.

End Registry.

(** ** The tables of the Hangouts bridge *)
Module HangoutsDb.

(** The classes [init] goes through. *)
Inductive table := Portal | Message | User | Puppet | UserProfile | RoomState.

Definition table_eqb (a b : table) : bool :=
  match a, b with
  | Portal, Portal | Message, Message | User, User | Puppet, Puppet
  | UserProfile, UserProfile | RoomState, RoomState => true
  | _, _ => false
  end.

Section Init.
(** Engines, table objects and their column collections. *)
Variables Engine Meta Columns : Type.
(** [table.__table__] and [.c] of it. *)
Variable table_object : table -> Meta.
Variable columns_of : Meta -> Columns.

(** The class attributes [db], [t] and [c]; absent until set. *)
Record attributes := {
  db : option Engine;
  t : option Meta;
  c : option Columns
}.

Definition classes := table -> attributes.

Definition assign (tb : table) (v : attributes) (k : classes) : classes :=
  fun x => if table_eqb x tb then v else k x.

(** The body of the loop, one attribute after the other. *)
Definition bind_table (db_engine : Engine) (k : classes) (tb : table) : classes :=
  let k := assign tb {| db := Some db_engine; t := t (k tb); c := c (k tb) |} k in
  let k := assign tb {| db := db (k tb); t := Some (table_object tb); c := c (k tb) |} k in
  assign tb {| db := db (k tb); t := t (k tb);
               c := match t (k tb) with
                    | Some m => Some (columns_of m)
                    | None => None
                    end |} k.

Definition init (db_engine : Engine) (k : classes) : classes :=
  fold_left (bind_table db_engine) [Portal; Message; User; Puppet; UserProfile; RoomState] k.

End Init.

End HangoutsDb.

(** ** Characters of a string *)
Module Chars.

(** [c in s] *)
Fixpoint occurs (c : ascii) (s : string) : bool :=
  match s with
  | EmptyString => false
  | String x r => Ascii.eqb x c || occurs c r
  end.

(** [sep.join(parts)] for a one-character separator. *)
Fixpoint join (sep : ascii) (parts : list string) : string :=
  match parts with
  | [] => ""
  | [x] => x
  | x :: rest => x +:+ String sep (join sep rest)
  end.

End Chars.

(** ** More concrete inputs *)
Module MoreSamples.
Import Portal.

(** The echo of the message ["hey"] that [Samples.outside] accepts as
    ["remote-1"] under the provisional id drawn for it. *)
Definition echo_of_hey : GcMessage :=
  {| creator_id := "777"; message_id := "remote-1"; parent_topic_id := "";
     local_id := "mautrix-googlechat%7"; create_time := 1700000000000000;
     last_edit_time := 0; last_update_time := 0; text_body := "hey";
     annotations := [] |}.


(** What each action answers when all goes well. *)
Definition default_reply (a : Wide.action) : Wide.reply a :=
  match a return Wide.reply a with
  | Wide.RemoteDeleteMessage _ _ _ _ => tt
  | Wide.React _ _ event _ _ => "$reaction-to-" +:+ event
  | Wide.Redact _ _ _ _ => tt
  | Wide.SetTypingIn _ _ _ _ => tt
  | Wide.UserGetByMxid mxid => Some {| u_mxid := mxid; u_gcid := "777" |}
  | Wide.PuppetLookup g => Some (Samples.ghost g)
  end.

(** An outside that makes the actions of [fails] raise. *)
Definition world (fails : Wide.action -> bool) : Wide.World nat :=
  {| Wide.old := Samples.outside Samples.never;
     Wide.respond := fun a n =>
       (if fails a then Raise (Exception "unavailable") else Ok (default_reply a), S n);
     Wide.TYPING := 1 |}.

Definition no_action (a : Wide.action) : bool := false.

(** The remote network refuses to delete. *)
Definition delete_fails (a : Wide.action) : bool := Wide.is_remote_delete a.


(** The portal [p], idle, with nobody typing. *)
Definition room_of (p : portal) : Wide.room nat :=
  {| Wide.base := Samples.start p; Wide.typing := ∅; Wide.made := [] |}.


(** A bridge that has just started: nothing is loaded, the store
    holds the row of [Samples.dm_portal]. *)
Definition cold : Registry.registry nat :=
  {| Registry.outside := 0%nat; Registry.heap := []; Registry.index_by_gcid := ∅;
     Registry.index_by_mxid := ∅; Registry.rows := Samples.store_of Samples.dm_portal |}.

End MoreSamples.

(** * Properties *)

Import Frame.

(** ** The schema step *)

(** *** C8 *)

(** C8: the step runs exactly one statement, the one that adds the
    nullable text column [space_mxid] to table [user]; its result is the
    result of that one [execute], so an error of [execute] is the error
    of the step, and after a success nothing more is executed. *)
Theorem upgrade_v6_single_ddl :
  Migration.create_table_queries = [Migration.add_space_mxid_query]
  /\ Migration.strip Migration.add_space_mxid_query
     = Migration.render
         {| Migration.ac_table := "user"; Migration.ac_column := "space_mxid";
            Migration.ac_type := Migration.TEXT; Migration.ac_not_null := false |}
  /\ (forall (Conn Err : Type) (execute : Conn -> string -> Err + Conn) (c : Conn),
        Migration.upgrade_v6 execute c = execute c Migration.add_space_mxid_query)
  /\ (forall bad log,
        Migration.upgrade_v6 (Migration.logging_execute bad) log
        = if bad Migration.add_space_mxid_query
          then inl Migration.add_space_mxid_query
          else inr (log ++ [Migration.add_space_mxid_query])).
Proof.
  split; [reflexivity|].
  split; [vm_compute; reflexivity|].
  split.
  - intros Conn Err execute c. unfold Migration.upgrade_v6. simpl.
    destruct (execute c Migration.add_space_mxid_query); reflexivity.
  - intros bad log. unfold Migration.upgrade_v6, Migration.logging_execute. simpl.
    destruct (bad Migration.add_space_mxid_query); reflexivity.
Qed.

(** ** The portal: what a handler leaves alone *)
Section Frames.
Import Portal.
Context {Ext : Type}.
Variable env : Env Ext.
Local Abbreviation keeps_dedup := (@Frame.keeps_dedup Ext).
Local Abbreviation keeps_rows := (@Frame.keeps_rows Ext).
Local Abbreviation only_calls := (@Frame.only_calls Ext).
Local Abbreviation creates_nothing := (@Frame.creates_nothing Ext).

Lemma bind_run {A B} (m : @M Ext A) (k : A -> @M Ext B) (s : machine Ext) :
  bind m k s = match m s with
               | (Ok a, s') => k a s'
               | (Raise e, s') => (Raise e, s')
               end.
Proof. reflexivity. Qed.

Lemma perform_run (c : call) (s : machine Ext) :
  perform env c s = (fst (answer env c (ext s)), performed c (snd (answer env c (ext s))) s).
Proof. reflexivity. Qed.

(** A relation between the machine before and after, kept by every
    step of a computation. [ok] tells which calls keep it. *)
Section Preserve.
Variable R : machine Ext -> machine Ext -> Prop.
Variable ok : call -> bool.
Hypothesis R_refl : forall s, R s s.
Hypothesis R_trans : forall a b c, R a b -> R b c -> R a c.
Hypothesis R_perform : forall c x s, ok c = true -> R s (performed c x s).

Local Abbreviation preserves := (Frame.preserves R).
Local Abbreviation preserves_unless := (Frame.preserves_unless R).
Local Abbreviation finishes_with := (@Frame.finishes_with Ext).

Lemma pres_ret {A} (a : A) : preserves (ret a).
Proof. intros s. apply R_refl. Qed.

Lemma pres_raise {A} (e : exn) : preserves (@raise Ext A e).
Proof. intros s. apply R_refl. Qed.

Lemma pres_get_self : preserves get_self.
Proof. intros s. apply R_refl. Qed.

Lemma pres_get_db : preserves get_db.
Proof. intros s. apply R_refl. Qed.

Lemma pres_bind {A B} (m : @M Ext A) (k : A -> @M Ext B) :
  preserves m -> (forall a, preserves (k a)) -> preserves (bind m k).
Proof.
  intros Hm Hk s. rewrite bind_run. specialize (Hm s).
  destruct (m s) as [[a|e] s']; simpl in *.
  - eapply R_trans; [exact Hm | apply Hk].
  - exact Hm.
Qed.

Lemma pres_try_except {A} (m : @M Ext A) (h : exn -> option (@M Ext A)) :
  preserves m -> (forall e k, h e = Some k -> preserves k) ->
  preserves (try_except m h).
Proof.
  intros Hm Hh s. unfold try_except. specialize (Hm s).
  destruct (m s) as [[a|e] s']; simpl in *; [exact Hm|].
  destruct (h e) as [k|] eqn:He; [|exact Hm].
  eapply R_trans; [exact Hm | eapply Hh; exact He].
Qed.

Lemma pres_try_else {A B} (m : @M Ext A) (h : exn -> @M Ext B) (k : A -> @M Ext B) :
  preserves m -> (forall e, preserves (h e)) -> (forall a, preserves (k a)) ->
  preserves (try_else m h k).
Proof.
  intros Hm Hh Hk s. unfold try_else. specialize (Hm s).
  destruct (m s) as [[a|e] s']; simpl in *;
    (eapply R_trans; [exact Hm|]); [apply Hk | apply Hh].
Qed.

Lemma pres_perform (c : call) : ok c = true -> preserves (perform env c).
Proof. intros Hc s. unfold perform. simpl. apply R_perform, Hc. Qed.

Lemma pres_modify_self (f : portal -> portal) :
  (forall s, R s (with_self f s)) -> preserves (modify_self f).
Proof. intros H s. apply H. Qed.

Lemma pres_modify_db (f : Store.db -> Store.db) :
  (forall s, R s (with_db f s)) -> preserves (modify_db f).
Proof. intros H s. apply H. Qed.

Lemma pres_modify_by_mxid f :
  (forall s : machine Ext, R s (with_by_mxid f s)) -> preserves (modify_by_mxid f).
Proof. intros H s. apply H. Qed.

Lemma pres_modify_by_gcid f :
  (forall s : machine Ext, R s (with_by_gcid f s)) -> preserves (modify_by_gcid f).
Proof. intros H s. apply H. Qed.

(** The calls that neither create a room, nor send a message event,
    nor reach the remote network keep [R]. *)
Hypothesis ok_other :
  forall c, is_create_room c = false -> is_send_message c = false ->
            is_remote_call c = false -> ok c = true.

Ltac pres_step :=
  lazymatch goal with
  | |- preserves (ret _) => apply pres_ret
  | |- preserves (raise _) => apply pres_raise
  | |- preserves get_self => apply pres_get_self
  | |- preserves get_db => apply pres_get_db
  | |- preserves (perform _ _) => apply pres_perform; apply ok_other; reflexivity
  | |- preserves (bind _ _) => apply pres_bind; [|intros ?]
  | |- preserves (try_except _ _) => apply pres_try_except; [|intros ? ? ?]
  | |- preserves (try_else _ _ _) => apply pres_try_else; [|intros ?|intros ?]
  end.

Ltac pres_case :=
  match goal with
  | H : Some _ = Some _ |- _ => inversion H; subst; clear H
  | H : None = Some _ |- _ => discriminate H
  | H : (if ?b then _ else _) = Some _ |- _ => destruct b
  | H : match ?x with _ => _ end = Some _ |- _ => destruct x
  | |- preserves (if ?b then _ else _) => destruct b
  | |- preserves (match ?x with _ => _ end) => destruct x
  | |- preserves (let '(_, _) := ?x in _) => destruct x
  end.

Ltac pres := repeat first [pres_step | pres_case].

Lemma pres_main_intent : preserves main_intent.
Proof. unfold main_intent. pres. Qed.

Lemma pres_room_for_row : preserves room_for_row.
Proof. unfold room_for_row. pres. Qed.

Lemma pres_send_delivery_receipt (event_id : EventID) :
  preserves (_send_delivery_receipt env event_id).
Proof. unfold _send_delivery_receipt. pres. Qed.

Lemma pres_rec_dropped user event_id evt_type reason msgtype :
  preserves (_rec_dropped env user event_id evt_type reason msgtype).
Proof. unfold _rec_dropped. pres. Qed.

Lemma pres_rec_error user err event_id evt_type msgtype :
  preserves (_rec_error env user err event_id evt_type msgtype).
Proof. unfold _rec_error. pres. Qed.

Lemma pres_rec_success user event_id evt_type msgtype :
  preserves (_rec_success env user event_id evt_type msgtype).
Proof.
  unfold _rec_success. apply pres_bind; [apply pres_send_delivery_receipt|].
  intros _. pres.
Qed.

Lemma pres_bridge_own_message_pm source sender invite :
  preserves (_bridge_own_message_pm env source sender invite).
Proof.
  unfold _bridge_own_message_pm.
  repeat first [apply pres_main_intent | pres_step | pres_case].
Qed.

Hypothesis ok_download : forall u url m, ok (RemoteDownloadAttachment u url m) = true.

Lemma pres_fetch_attachment source u max_size :
  preserves (fetch_attachment env source u max_size).
Proof.
  unfold fetch_attachment, Portal._download_external_attachment.
  repeat first [apply pres_perform; apply ok_download | pres_step | pres_case].
Qed.

Hypothesis ok_send : forall i r c t, ok (SendMessage i r c t) = true.

Lemma pres_process_attachment source u intent reply_to timestamp :
  preserves (process_attachment env source u intent reply_to timestamp).
Proof.
  unfold process_attachment.
  repeat first
    [ apply pres_fetch_attachment | apply pres_perform; apply ok_send
    | pres_step | pres_case ].
Qed.

Lemma pres_process_googlechat_attachments source urls intent reply_to timestamp :
  forall acc,
    preserves (process_googlechat_attachments env source urls intent reply_to
                 timestamp acc).
Proof.
  induction urls as [|u rest IH]; intros acc; simpl.
  - apply pres_ret.
  - apply pres_try_else.
    + apply pres_process_attachment.
    + intros e. apply pres_ret.
    + intros y. apply IH.
Qed.


(** The chat-info sync and the room creation write to the portal. *)
Hypothesis R_set_info : forall i s, R s (with_self (set_info i) s).
Hypothesis R_set_encrypted : forall b s, R s (with_self (set_encrypted b) s).
Hypothesis R_set_mxid : forall r s, R s (with_self (set_mxid r) s).
Hypothesis R_portal_save : forall row s, R s (with_db (Store.portal_save row) s).
Hypothesis R_by_mxid : forall f (s : machine Ext), R s (with_by_mxid f s).

Lemma pres_apply_sync r : preserves (apply_sync r).
Proof.
  unfold apply_sync. apply pres_bind.
  - apply pres_modify_self. apply R_set_info.
  - intros _. pres.
Qed.

Lemma pres_update_info source : preserves (update_info env source).
Proof. unfold update_info. pres_step; [pres_step|]. apply pres_apply_sync. Qed.

Lemma pres_update_participants source : preserves (_update_participants env source).
Proof. unfold _update_participants. pres_step; [pres_step|]. apply pres_apply_sync. Qed.

Lemma pres_update_matrix_room_inner source : preserves (_update_matrix_room env source).
Proof.
  unfold _update_matrix_room.
  repeat first [apply pres_main_intent | apply pres_update_info | pres_step | pres_case].
Qed.

Lemma pres_update_matrix_room source : preserves (update_matrix_room env source).
Proof.
  unfold update_matrix_room. apply pres_try_except.
  - apply pres_update_matrix_room_inner.
  - intros e k Hk. inversion Hk; subst. apply pres_ret.
Qed.

Lemma pres_finish_room_creation source new_room :
  preserves (finish_room_creation env source new_room).
Proof.
  unfold finish_room_creation.
  repeat first
    [ apply pres_main_intent | apply pres_update_participants
    | apply pres_modify_db; apply R_portal_save
    | apply pres_modify_by_mxid; apply R_by_mxid
    | pres_step | pres_case ].
Qed.

Hypothesis ok_create : forall i params, ok (CreateRoom i params) = true.

Lemma pres_create_matrix_room_inner source : preserves (_create_matrix_room env source).
Proof.
  unfold _create_matrix_room.
  repeat first
    [ apply pres_main_intent | apply pres_update_info
    | apply pres_update_matrix_room_inner | apply pres_finish_room_creation
    | apply pres_modify_self; first [apply R_set_encrypted | apply R_set_mxid]
    | apply pres_perform; apply ok_create
    | pres_step | pres_case ].
Qed.

Lemma pres_create_matrix_room source : preserves (create_matrix_room env source).
Proof.
  unfold create_matrix_room.
  repeat first
    [ apply pres_update_matrix_room | apply pres_create_matrix_room_inner
    | pres_step | pres_case ].
Qed.

Lemma unless_of_preserves {A} (bad : A -> Prop) (m : @M Ext A) :
  preserves m -> preserves_unless bad m.
Proof. intros H s. destruct (fst (m s)); auto. Qed.

Lemma unless_of_finishes {A} (bad : A -> Prop) (m : @M Ext A) :
  finishes_with bad m -> preserves_unless bad m.
Proof. intros H s. specialize (H s). destruct (fst (m s)); auto. Qed.

Lemma unless_bind {A B} (bad : B -> Prop) (m : @M Ext A) (k : A -> @M Ext B) :
  preserves m -> (forall a, preserves_unless bad (k a)) ->
  preserves_unless bad (bind m k).
Proof.
  intros Hm Hk s. rewrite bind_run. specialize (Hm s).
  destruct (m s) as [[a|e] s']; simpl in *; [|exact I].
  specialize (Hk a s'). destruct (fst (k a s')); [|exact I].
  destruct Hk as [Hb|Hr]; [left; exact Hb | right; eapply R_trans; eauto].
Qed.

Lemma finishes_ret {A} (bad : A -> Prop) (a : A) : bad a -> finishes_with bad (ret a).
Proof. intros H s. exact H. Qed.

Lemma finishes_bind {A B} (bad : B -> Prop) (m : @M Ext A) (k : A -> @M Ext B) :
  (forall a, finishes_with bad (k a)) -> finishes_with bad (bind m k).
Proof.
  intros Hk s. rewrite bind_run. destruct (m s) as [[a|e] s']; simpl; [|exact I].
  apply Hk.
Qed.

(** Until it inserts its rows, the handling of a remote message
    keeps [R]. *)
Lemma unless_bridged source sender evt :
  preserves_unless (fun o => exists ids, o = Bridged ids)
    (bridge_googlechat_message env source sender evt).
Proof.
  unfold bridge_googlechat_message.
  apply unless_bind; [apply pres_get_self|]. intros p.
  apply unless_bind.
  { destruct (negb (truthy (mxid p))); [|apply pres_ret].
    apply pres_bind; [apply pres_create_matrix_room | intros ?; apply pres_ret]. }
  intros created. destruct (negb created).
  { apply unless_of_preserves, pres_ret. }
  apply unless_bind; [apply pres_bridge_own_message_pm|]. intros own.
  destruct (negb own).
  { apply unless_of_preserves, pres_ret. }
  apply unless_bind; [apply pres_perform, ok_other; reflexivity|]. intros intent.
  apply unless_bind; [apply pres_get_self|]. intros p'.
  apply unless_bind; [apply pres_get_db|]. intros d.
  apply unless_bind.
  { destruct (nonempty (text_body evt)); [|apply pres_ret].
    apply pres_bind; [apply pres_perform, ok_other; reflexivity|]. intros c.
    apply pres_bind; [apply pres_perform, ok_send|]. intros e. apply pres_ret. }
  intros text_events.
  apply unless_bind; [apply pres_process_googlechat_attachments|].
  intros [|ev event_ids].
  { apply unless_of_preserves, pres_ret. }
  apply unless_of_finishes.
  apply finishes_bind. intros _. apply finishes_bind. intros _.
  apply finishes_ret. eauto.
Qed.

(** With the insertion of message rows, all of it keeps [R]. *)
Hypothesis R_message_insert :
  forall m s, R s (with_db (Store.message_insert m) s).

Lemma pres_insert_messages sender msg_id parent_id timestamp event_ids :
  forall index,
    preserves (insert_messages sender msg_id parent_id timestamp index event_ids).
Proof.
  induction event_ids as [|[event_id msgtype] rest IH]; intros index; simpl.
  - apply pres_ret.
  - apply pres_bind; [apply pres_room_for_row|]. intros room.
    apply pres_bind; [apply pres_get_self|]. intros p.
    apply pres_bind; [apply pres_modify_db; intros s; apply R_message_insert|].
    intros _. apply IH.
Qed.

Lemma pres_bridge_googlechat_message source sender evt :
  preserves (bridge_googlechat_message env source sender evt).
Proof.
  unfold bridge_googlechat_message.
  repeat first
    [ apply pres_create_matrix_room | apply pres_bridge_own_message_pm
    | apply pres_process_googlechat_attachments | apply pres_insert_messages
    | apply pres_send_delivery_receipt | apply pres_perform; apply ok_send
    | pres_step | pres_case ].
Qed.

(** The sending of a home-network message calls the remote network. *)
Hypothesis ok_any : forall c, ok c = true.

Lemma pres_gcid_plain : preserves gcid_plain.
Proof. unfold gcid_plain. pres. Qed.

Lemma pres_handle_matrix_text sender message thread_id local_id :
  preserves (_handle_matrix_text env sender message thread_id local_id).
Proof.
  unfold _handle_matrix_text.
  repeat first [apply pres_perform; apply ok_any | pres_step | pres_case].
Qed.

Lemma pres_handle_matrix_media sender message thread_id local_id :
  preserves (_handle_matrix_media env sender message thread_id local_id).
Proof.
  unfold _handle_matrix_media.
  repeat first
    [ apply pres_main_intent | apply pres_gcid_plain
    | apply pres_perform; apply ok_any | pres_step | pres_case ].
Qed.

End Preserve.

(** *** The dedup history and the provisional ids are left alone *)

Lemma keeps_dedup_refl s : keeps_dedup s s.
Proof.
  split; [reflexivity|]. split; [reflexivity|].
  exists []. rewrite app_nil_r. split; [reflexivity | constructor].
Qed.

Lemma keeps_dedup_trans a b c : keeps_dedup a b -> keeps_dedup b c -> keeps_dedup a c.
Proof.
  intros (Hd1 & Hl1 & n1 & Ht1 & Hf1) (Hd2 & Hl2 & n2 & Ht2 & Hf2).
  split; [congruence|]. split; [congruence|].
  exists (n1 ++ n2). split.
  - rewrite Ht2, Ht1, app_assoc. reflexivity.
  - apply Forall_app. split; [exact Hf1|].
    eapply Forall_impl; [exact Hf2|]. intros st Hst. simpl in Hst. congruence.
Qed.

Lemma keeps_dedup_perform c x s : keeps_dedup s (performed c x s).
Proof.
  split; [reflexivity|]. split; [reflexivity|].
  exists [step_of c s]. split; [reflexivity|].
  constructor; [reflexivity | constructor].
Qed.

(** A write to the portal that touches neither field. *)
Lemma keeps_dedup_with_self (f : portal -> portal) s :
  dedup (f (self s)) = dedup (self s) ->
  local_dedup (f (self s)) = local_dedup (self s) ->
  keeps_dedup s (with_self f s).
Proof.
  intros Hd Hl. split; [exact Hd|]. split; [exact Hl|].
  exists []. simpl. rewrite app_nil_r. split; [reflexivity | constructor].
Qed.

Lemma keeps_dedup_same_self s s' :
  self s' = self s -> trace s' = trace s -> keeps_dedup s s'.
Proof.
  intros Hs Ht. unfold keeps_dedup. rewrite Hs, Ht.
  split; [reflexivity|]. split; [reflexivity|].
  exists []. rewrite app_nil_r. split; [reflexivity | constructor].
Qed.

Lemma bridge_keeps_dedup source sender evt s :
  keeps_dedup s (snd (bridge_googlechat_message env source sender evt s)).
Proof.
  apply (pres_bridge_googlechat_message keeps_dedup (fun _ => true)
           keeps_dedup_refl keeps_dedup_trans).
  - intros c x s0 _. apply keeps_dedup_perform.
  - reflexivity.
  - reflexivity.
  - reflexivity.
  - intros i s0. apply keeps_dedup_with_self; reflexivity.
  - intros b s0. apply keeps_dedup_with_self; reflexivity.
  - intros r s0. apply keeps_dedup_with_self; reflexivity.
  - intros row s0. apply keeps_dedup_same_self; reflexivity.
  - intros f s0. apply keeps_dedup_same_self; reflexivity.
  - reflexivity.
  - intros m s0. apply keeps_dedup_same_self; reflexivity.
Qed.

(** *** The message and reaction rows are left alone *)

Lemma keeps_rows_same_db s s' : db s' = db s -> keeps_rows s s'.
Proof. intros H. unfold keeps_rows. rewrite H. split; reflexivity. Qed.

Lemma bridge_aborted_keeps_rows source sender evt s :
  match fst (bridge_googlechat_message env source sender evt s) with
  | Ok o => (exists ids, o = Bridged ids)
            \/ keeps_rows s (snd (bridge_googlechat_message env source sender evt s))
  | Raise _ => True
  end.
Proof.
  apply (unless_bridged keeps_rows (fun _ => true)).
  - intros s0. apply keeps_rows_same_db. reflexivity.
  - intros a b c [H1 H2] [H3 H4]. split; congruence.
  - intros c x s0 _. apply keeps_rows_same_db. reflexivity.
  - reflexivity.
  - reflexivity.
  - reflexivity.
  - intros i s0. apply keeps_rows_same_db. reflexivity.
  - intros b s0. apply keeps_rows_same_db. reflexivity.
  - intros r s0. apply keeps_rows_same_db. reflexivity.
  - intros row s0. split; reflexivity.
  - intros f s0. apply keeps_rows_same_db. reflexivity.
  - reflexivity.
Qed.

End Frames.

(** ** Remote messages and the dedup history *)
Section InboundDedup.
Import Portal.
Context {Ext : Type}.
Variable env : Env Ext.
Local Abbreviation keeps_dedup := (@Frame.keeps_dedup Ext).
Local Abbreviation keeps_rows := (@Frame.keeps_rows Ext).
Local Abbreviation only_calls := (@Frame.only_calls Ext).
Local Abbreviation creates_nothing := (@Frame.creates_nothing Ext).

Lemma appendleft_head (x : string) (d : list string) : x ∈ appendleft x d.
Proof. unfold appendleft, dedup_maxlen. simpl. apply list_elem_of_here. Qed.

(** A delivery whose id is in the history, and whose provisional id
    is not pending, resolves the sender and returns. *)
Lemma delivery_of_known_id (source : User) (evt : GcMessage) (s : machine Ext) :
  local_id evt ∉ local_dedup (self s) ->
  message_id evt ∈ dedup (self s) ->
  handle_googlechat_message env source evt s
  = (match fst (answer env (PuppetGetByGcid (creator_id evt)) (ext s)) with
     | Ok _ => Ok DroppedDedupQueue
     | Raise e => Raise e
     end,
     performed (PuppetGetByGcid (creator_id evt))
       (snd (answer env (PuppetGetByGcid (creator_id evt)) (ext s))) s).
Proof.
  intros Hlocal Hknown. unfold handle_googlechat_message.
  rewrite bind_run. unfold perform.
  destruct (fst (answer env (PuppetGetByGcid (creator_id evt)) (ext s)))
    as [sender|e]; [|reflexivity].
  rewrite bind_run. simpl.
  rewrite bool_decide_eq_false_2 by exact Hlocal.
  rewrite bool_decide_eq_true_2 by exact Hknown.
  reflexivity.
Qed.

(** What a delivery that passes the gate runs. *)
Lemma delivery_of_new_id (source : User) (evt : GcMessage) (s : machine Ext)
    (sender : Puppet) :
  fst (answer env (PuppetGetByGcid (creator_id evt)) (ext s)) = Ok sender ->
  local_id evt ∉ local_dedup (self s) ->
  message_id evt ∉ dedup (self s) ->
  handle_googlechat_message env source evt s
  = bridge_googlechat_message env source sender evt
      (with_self (fun p => set_dedup (appendleft (message_id evt) (dedup p)) p)
         (performed (PuppetGetByGcid (creator_id evt))
            (snd (answer env (PuppetGetByGcid (creator_id evt)) (ext s))) s)).
Proof.
  intros Hsender Hlocal Hnew. unfold handle_googlechat_message.
  rewrite bind_run. unfold perform. rewrite Hsender.
  rewrite bind_run. simpl.
  rewrite bool_decide_eq_false_2 by exact Hlocal.
  rewrite bool_decide_eq_false_2 by exact Hnew.
  reflexivity.
Qed.

(** The gate: a delivery returns by one of its first three exits, or
    it is the run of what follows the gate. *)
Lemma delivery_cases (source : User) (evt : GcMessage) (s : machine Ext) :
  let lookup := PuppetGetByGcid (creator_id evt) in
  let s0 := performed lookup (snd (answer env lookup (ext s))) s in
  (exists e, handle_googlechat_message env source evt s = (Raise e, s0))
  \/ handle_googlechat_message env source evt s = (Ok DroppedLocalDedup, s0)
  \/ ((local_id evt ∉ local_dedup (self s))
      /\ (message_id evt ∈ dedup (self s))
      /\ handle_googlechat_message env source evt s = (Ok DroppedDedupQueue, s0))
  \/ (exists sender,
        fst (answer env lookup (ext s)) = Ok sender
        /\ (local_id evt ∉ local_dedup (self s))
        /\ (message_id evt ∉ dedup (self s))).
Proof.
  intros lookup s0. unfold handle_googlechat_message.
  rewrite bind_run. unfold perform. fold lookup. fold s0.
  destruct (fst (answer env lookup (ext s))) as [sender|e] eqn:Hsender.
  - rewrite bind_run. simpl.
    destruct (decide (local_id evt ∈ local_dedup (self s))) as [Hl|Hl].
    + rewrite bool_decide_eq_true_2 by exact Hl. right. left. reflexivity.
    + rewrite bool_decide_eq_false_2 by exact Hl.
      destruct (decide (message_id evt ∈ dedup (self s))) as [Hk|Hk].
      * rewrite bool_decide_eq_true_2 by exact Hk. right. right. left. auto.
      * right. right. right. exists sender. auto.
  - left. exists e. reflexivity.
Qed.

(** Past the gate the id is in the history, for the rest of the
    delivery and after it. *)
Lemma delivery_records (source : User) (evt : GcMessage) (s : machine Ext)
    (sender : Puppet) :
  fst (answer env (PuppetGetByGcid (creator_id evt)) (ext s)) = Ok sender ->
  local_id evt ∉ local_dedup (self s) ->
  let s1 := snd (handle_googlechat_message env source evt s) in
  (message_id evt ∈ dedup (self s1))
  /\ local_dedup (self s1) = local_dedup (self s).
Proof.
  intros Hsender Hlocal s1.
  destruct (decide (message_id evt ∈ dedup (self s))) as [Hk|Hk].
  - subst s1. rewrite delivery_of_known_id by assumption. simpl. auto.
  - subst s1. rewrite (delivery_of_new_id _ _ _ sender) by assumption.
    match goal with |- context [bridge_googlechat_message env source sender evt ?s0] =>
      destruct (bridge_keeps_dedup env source sender evt s0) as (Hd & Hl & _)
    end.
    rewrite Hd, Hl. simpl. split; [apply appendleft_head | reflexivity].
Qed.

End InboundDedup.

(** ** Computations that only call out *)
Section CallsOnly.
Import Portal.
Context {Ext : Type}.
Variable env : Env Ext.
Local Abbreviation keeps_dedup := (@Frame.keeps_dedup Ext).
Local Abbreviation keeps_rows := (@Frame.keeps_rows Ext).
Local Abbreviation only_calls := (@Frame.only_calls Ext).
Local Abbreviation creates_nothing := (@Frame.creates_nothing Ext).

Lemma only_calls_refl ok s : only_calls ok s s.
Proof.
  split; [reflexivity|]. split; [reflexivity|].
  exists []. rewrite app_nil_r. split; [reflexivity | constructor].
Qed.

Lemma only_calls_trans ok a b c :
  only_calls ok a b -> only_calls ok b c -> only_calls ok a c.
Proof.
  intros (Hs1 & Hd1 & n1 & Ht1 & Hf1) (Hs2 & Hd2 & n2 & Ht2 & Hf2).
  split; [congruence|]. split; [congruence|].
  exists (n1 ++ n2). split.
  - rewrite Ht2, Ht1, app_assoc. reflexivity.
  - apply Forall_app. split; [exact Hf1|].
    eapply Forall_impl; [exact Hf2|]. intros st (Hok & Hseen & Hstored).
    split; [exact Hok|]. split; congruence.
Qed.

Lemma only_calls_perform ok c x s : ok c = true -> only_calls ok s (performed c x s).
Proof.
  intros Hc. split; [reflexivity|]. split; [reflexivity|].
  exists [step_of c s]. split; [reflexivity|].
  constructor; [|constructor]. split; [exact Hc|]. split; reflexivity.
Qed.

Lemma quiet_not_send c : quiet c = true -> is_send_message c = false.
Proof. unfold quiet. destruct (is_send_message c); simpl; [discriminate | reflexivity]. Qed.

Lemma quiet_not_react c : quiet c = true -> is_react c = false.
Proof. destruct c; simpl; intros H; first [reflexivity | discriminate H]. Qed.
Lemma own_message_rule_only_calls source sender invite s :
  only_calls quiet s (snd (_bridge_own_message_pm env source sender invite s)).
Proof.
  apply (pres_bridge_own_message_pm env (only_calls quiet) quiet
           (only_calls_refl _) (only_calls_trans _)).
  - intros c x s0 Hc. apply only_calls_perform, Hc.
  - intros c _ Hs Hr. unfold quiet. rewrite Hs, Hr. reflexivity.
Qed.

Lemma delivery_receipt_only_calls event_id s :
  only_calls quiet s (snd (_send_delivery_receipt env event_id s)).
Proof.
  apply (pres_send_delivery_receipt env (only_calls quiet) quiet
           (only_calls_refl _) (only_calls_trans _)).
  - intros c x s0 Hc. apply only_calls_perform, Hc.
  - intros c _ Hs Hr. unfold quiet. rewrite Hs, Hr. reflexivity.
Qed.

Lemma rec_dropped_only_calls user event_id evt_type reason msgtype s :
  only_calls quiet s (snd (_rec_dropped env user event_id evt_type reason msgtype s)).
Proof.
  apply (pres_rec_dropped env (only_calls quiet) quiet
           (only_calls_refl _) (only_calls_trans _)).
  - intros c x s0 Hc. apply only_calls_perform, Hc.
  - intros c _ Hs Hr. unfold quiet. rewrite Hs, Hr. reflexivity.
Qed.

Lemma rec_error_only_calls user err event_id evt_type msgtype s :
  only_calls quiet s (snd (_rec_error env user err event_id evt_type msgtype s)).
Proof.
  apply (pres_rec_error env (only_calls quiet) quiet
           (only_calls_refl _) (only_calls_trans _)).
  - intros c x s0 Hc. apply only_calls_perform, Hc.
  - intros c _ Hs Hr. unfold quiet. rewrite Hs, Hr. reflexivity.
Qed.

Lemma rec_success_only_calls user event_id evt_type msgtype s :
  only_calls quiet s (snd (_rec_success env user event_id evt_type msgtype s)).
Proof.
  apply (pres_rec_success env (only_calls quiet) quiet
           (only_calls_refl _) (only_calls_trans _)).
  - intros c x s0 Hc. apply only_calls_perform, Hc.
  - intros c _ Hs Hr. unfold quiet. rewrite Hs, Hr. reflexivity.
Qed.

Lemma matrix_text_only_calls sender message thread_id local_id s :
  only_calls any_call s (snd (_handle_matrix_text env sender message thread_id local_id s)).
Proof.
  apply (pres_handle_matrix_text env (only_calls any_call) any_call
           (only_calls_refl _) (only_calls_trans _)).
  - intros c x s0 Hc. apply only_calls_perform, Hc.
  - reflexivity.
Qed.

Lemma matrix_media_only_calls sender message thread_id local_id s :
  only_calls any_call s (snd (_handle_matrix_media env sender message thread_id local_id s)).
Proof.
  apply (pres_handle_matrix_media env (only_calls any_call) any_call
           (only_calls_refl _) (only_calls_trans _)).
  - intros c x s0 Hc. apply only_calls_perform, Hc.
  - reflexivity.
Qed.

End CallsOnly.

(** ** Edits from the remote network *)
Section InboundEdits.
Import Portal.
Context {Ext : Type}.
Variable env : Env Ext.
Local Abbreviation keeps_dedup := (@Frame.keeps_dedup Ext).
Local Abbreviation keeps_rows := (@Frame.keeps_rows Ext).
Local Abbreviation only_calls := (@Frame.only_calls Ext).
Local Abbreviation creates_nothing := (@Frame.creates_nothing Ext).


(** An edit that is not newer than the recorded one changes nothing
    and sends nothing. *)
Lemma stale_edit_run (source : User) (evt : GcMessage) (s : machine Ext) (t : Z) :
  edit_dedup (self s) !! message_id evt = Some t ->
  edit_time evt <= t ->
  (forall e, fst (handle_googlechat_edit env source evt s) <> Ok (EditBridged e))
  /\ only_calls quiet s (snd (handle_googlechat_edit env source evt s)).
Proof.
  intros Hseen Hle. unfold handle_googlechat_edit.
  rewrite bind_run. cbn [get_self].
  destruct (negb (truthy (mxid (self s)))).
  { cbn [ret fst snd]. split; [discriminate | apply only_calls_refl]. }
  rewrite bind_run, perform_run.
  set (lookup := PuppetGetByGcid (creator_id evt)).
  set (s1 := performed lookup (snd (answer env lookup (ext s))) s).
  assert (H1 : only_calls quiet s s1) by (apply only_calls_perform; reflexivity).
  destruct (fst (answer env lookup (ext s))) as [sender|e].
  2:{ cbn [fst snd]. split; [discriminate | exact H1]. }
  rewrite bind_run.
  pose proof (own_message_rule_only_calls env source sender true s1) as H2.
  destruct (_bridge_own_message_pm env source sender true s1) as [[own|e] s2].
  2:{ cbn [fst snd] in *. split; [discriminate | eapply only_calls_trans; eauto]. }
  cbn [snd] in H2. pose proof (only_calls_trans _ _ _ _ H1 H2) as H12.
  destruct own; cbn [negb].
  2:{ cbn [ret fst snd]. split; [discriminate | exact H12]. }
  rewrite bind_run. cbn [get_self].
  destruct H12 as (Hself & Hrest). rewrite Hself, Hseen.
  destruct (Z.leb_spec (edit_time evt) t) as [_|Hlt]; [|lia].
  cbn [ret fst snd]. split; [discriminate|].
  split; [exact Hself | exact Hrest].
Qed.


End InboundEdits.

(** ** Reactions from the home network *)
Section Reactions.
Import Portal.
Context {Ext : Type}.
Variable env : Env Ext.
Local Abbreviation keeps_dedup := (@Frame.keeps_dedup Ext).
Local Abbreviation keeps_rows := (@Frame.keeps_rows Ext).
Local Abbreviation only_calls := (@Frame.only_calls Ext).
Local Abbreviation creates_nothing := (@Frame.creates_nothing Ext).

Lemma reaction_lookup_finds emoji sender target row (d : Store.db) :
  In row (Store.reactions d) ->
  matches_reaction emoji sender target row ->
  exists found,
    Store.reaction_get_by_gcid emoji (u_gcid sender) (Store.gcid target)
      (Store.gc_chat target) (Store.gc_receiver target) d = Some found.
Proof.
  intros Hin (He & Hs & Hm & Hc & Hr). unfold Store.reaction_get_by_gcid.
  match goal with |- exists found, List.find ?f ?l = Some found =>
    destruct (List.find f l) as [found|] eqn:Hfind
  end.
  - exists found. reflexivity.
  - apply List.find_none with (x := row) in Hfind; [|exact Hin].
    exfalso. revert Hfind. unfold Store.text_eq, Store.str_eq.
    rewrite He, Hs, Hm, Hc, Hr, !String.eqb_refl, bool_decide_eq_true_2 by reflexivity.
    discriminate.
Qed.

(** With a stored row for the same emoji, sender and target, the
    handler reports the drop and returns. *)
Lemma duplicate_reaction_run (sender : User) (reaction_id target_id : EventID)
    (reaction : text) (s : machine Ext) (target : Store.Message) (row : Store.Reaction) :
  Store.message_get_by_mxid (Some target_id) (mxid (self s)) (db s) = Some target ->
  In row (Store.reactions (db s)) ->
  matches_reaction (rstrip [VS16] reaction) sender target row ->
  let report := duplicate_report sender reaction_id (self s) in
  handle_matrix_reaction env sender reaction_id target_id reaction s
  = (match fst (answer env report (ext s)) with
     | Ok _ => Ok DuplicateReaction
     | Raise e => Raise e
     end,
     performed report (snd (answer env report (ext s))) s).
Proof.
  intros Htarget Hin Hmatch report.
  destruct (reaction_lookup_finds _ _ _ _ _ Hin Hmatch) as [found Hfound].
  unfold handle_matrix_reaction.
  rewrite bind_run. cbn [get_self]. rewrite bind_run. cbn [get_db].
  rewrite Htarget, Hfound.
  rewrite bind_run. unfold _rec_dropped. rewrite bind_run. cbn [get_self].
  rewrite perform_run. fold (duplicate_report sender reaction_id (self s)). fold report.
  destruct (fst (answer env report (ext s))); reflexivity.
Qed.

(** The run of a reaction whose remote call raises. *)
Lemma failed_reaction_run (sender : User) (reaction_id target_id : EventID)
    (reaction : text) (s : machine Ext) (e : exn) :
  fst (handle_matrix_reaction env sender reaction_id target_id reaction s)
  = Ok (ReactionFailed e) ->
  exists target room ts,
    Store.message_get_by_mxid (Some target_id) (mxid (self s)) (db s) = Some target
    /\ mxid (self s) = Some room
    /\ fst (answer env TimeMillis (ext s)) = Ok ts
    /\ let row := new_reaction_row sender reaction_id room reaction target ts in
       let s1 := performed TimeMillis (snd (answer env TimeMillis (ext s))) s in
       let s2 := with_db (Store.reaction_insert row) s1 in
       let react := react_call sender reaction target in
       let s3 := performed react (snd (answer env react (ext s2))) s2 in
       fst (answer env react (ext s2)) = Raise e
       /\ only_calls quiet s3
            (snd (handle_matrix_reaction env sender reaction_id target_id reaction s)).
Proof.
  unfold handle_matrix_reaction.
  rewrite bind_run. cbn [get_self]. rewrite bind_run. cbn [get_db].
  destruct (Store.message_get_by_mxid (Some target_id) (mxid (self s)) (db s))
    as [target|] eqn:Htarget.
  2:{ rewrite bind_run.
      destruct (_rec_dropped env sender reaction_id REACTION "reaction target not found"
                  None s) as [[[]|e'] s']; cbn; discriminate. }
  destruct (Store.reaction_get_by_gcid (rstrip [VS16] reaction) (u_gcid sender)
              (Store.gcid target) (Store.gc_chat target) (Store.gc_receiver target) (db s)).
  { rewrite bind_run.
    destruct (_rec_dropped env sender reaction_id REACTION "duplicate reaction"
                None s) as [[[]|e'] s']; cbn; discriminate. }
  rewrite bind_run, perform_run.
  destruct (fst (answer env TimeMillis (ext s))) as [ts|e'] eqn:Hts.
  2:{ cbn. discriminate. }
  set (s1 := performed TimeMillis (snd (answer env TimeMillis (ext s))) s).
  rewrite bind_run. unfold room_for_row. rewrite bind_run. cbn [get_self].
  change (self s1) with (self s).
  destruct (mxid (self s)) as [room|] eqn:Hroom.
  2:{ cbn. discriminate. }
  cbn [ret]. rewrite bind_run. cbn [modify_db].
  fold (new_reaction_row sender reaction_id room reaction target ts).
  set (row := new_reaction_row sender reaction_id room reaction target ts).
  set (s2 := with_db (Store.reaction_insert row) s1).
  unfold try_else. rewrite perform_run.
  fold (react_call sender reaction target).
  set (react := react_call sender reaction target).
  set (s3 := performed react (snd (answer env react (ext s2))) s2).
  destruct (fst (answer env react (ext s2))) as [[]|e'] eqn:Hreact.
  { rewrite bind_run.
    destruct (_rec_success env sender reaction_id REACTION None s3) as [[[]|e''] s'];
      cbn; discriminate. }
  rewrite bind_run.
  pose proof (rec_error_only_calls env sender e' reaction_id REACTION None s3) as Hcalls.
  destruct (_rec_error env sender e' reaction_id REACTION None s3) as [[[]|e''] s'].
  2:{ cbn. discriminate. }
  cbn. intros Hout. inversion Hout; subst e'.
  exists target, room, ts. split; [reflexivity|]. split; [reflexivity|].
  split; [reflexivity|]. split; [exact Hreact | exact Hcalls].
Qed.

End Reactions.

(** ** Room creation *)
Section RoomCreation.
Import Portal.
Context {Ext : Type}.
Variable env : Env Ext.
Local Abbreviation keeps_dedup := (@Frame.keeps_dedup Ext).
Local Abbreviation keeps_rows := (@Frame.keeps_rows Ext).
Local Abbreviation only_calls := (@Frame.only_calls Ext).
Local Abbreviation creates_nothing := (@Frame.creates_nothing Ext).

Lemma creates_nothing_refl s : creates_nothing s s.
Proof. exists []. rewrite app_nil_r. split; [reflexivity | constructor]. Qed.

Lemma creates_nothing_trans a b c :
  creates_nothing a b -> creates_nothing b c -> creates_nothing a c.
Proof.
  intros (n1 & Ht1 & Hf1) (n2 & Ht2 & Hf2). exists (n1 ++ n2). split.
  - rewrite Ht2, Ht1, app_assoc. reflexivity.
  - apply Forall_app. split; assumption.
Qed.

Lemma creates_nothing_perform c x s :
  negb (is_create_room c) = true -> creates_nothing s (performed c x s).
Proof.
  intros Hc. exists [step_of c s]. split; [reflexivity|].
  constructor; [|constructor]. unfold no_create. simpl.
  destruct (is_create_room c); [discriminate Hc | reflexivity].
Qed.

Lemma creates_nothing_same_trace s s' : trace s' = trace s -> creates_nothing s s'.
Proof. intros H. exists []. rewrite app_nil_r. split; [exact H | constructor]. Qed.

Lemma update_info_creates_nothing source s :
  creates_nothing s (snd (update_info env source s)).
Proof.
  apply (pres_update_info env creates_nothing (fun c => negb (is_create_room c))
           creates_nothing_refl creates_nothing_trans).
  - intros c x s0 Hc. apply creates_nothing_perform, Hc.
  - intros c Hc _ _. rewrite Hc. reflexivity.
  - intros i s0. apply creates_nothing_same_trace. reflexivity.
Qed.

Lemma update_room_creates_nothing source s :
  creates_nothing s (snd (_update_matrix_room env source s)).
Proof.
  apply (pres_update_matrix_room_inner env creates_nothing
           (fun c => negb (is_create_room c)) creates_nothing_refl creates_nothing_trans).
  - intros c x s0 Hc. apply creates_nothing_perform, Hc.
  - intros c Hc _ _. rewrite Hc. reflexivity.
  - intros i s0. apply creates_nothing_same_trace. reflexivity.
Qed.

Lemma finish_creates_nothing source new_room s :
  creates_nothing s (snd (finish_room_creation env source new_room s)).
Proof.
  apply (pres_finish_room_creation env creates_nothing
           (fun c => negb (is_create_room c)) creates_nothing_refl creates_nothing_trans).
  - intros c x s0 Hc. apply creates_nothing_perform, Hc.
  - intros c Hc _ _. rewrite Hc. reflexivity.
  - intros i s0. apply creates_nothing_same_trace. reflexivity.
  - intros row s0. apply creates_nothing_same_trace. reflexivity.
  - intros f s0. apply creates_nothing_same_trace. reflexivity.
Qed.

(** The room, if any, is asked for once, by the main intent, with the
    parameters computed from the portal as the call sees it. *)
Lemma create_room_steps (source : User) (s : machine Ext) :
  truthy (mxid (self s)) = false ->
  exists before,
    Forall no_create before
    /\ ((trace (snd (_create_matrix_room env source s)) = trace s ++ before
         /\ exists e, fst (_create_matrix_room env source s) = Raise e)
        \/ exists st intent after,
             trace (snd (_create_matrix_room env source s))
             = trace s ++ before ++ st :: after
             /\ Forall no_create after
             /\ main_intent_mxid (seen st) = Some intent
             /\ what st = CreateRoom intent
                            (room_params env (seen st) source intent
                               (initial_power_levels (seen st) source intent)
                               (bridge_info env (seen st) intent)
                               (bridge_info_state_key (seen st)))).
Proof.
  intros Hroom. unfold _create_matrix_room.
  rewrite bind_run. cbn [get_self]. rewrite Hroom.
  rewrite bind_run.
  destruct (update_info_creates_nothing source s) as (before & Ht1 & Hbefore).
  destruct (update_info env source s) as [[[]|e] s1]; cbn [snd] in Ht1.
  2:{ exists before. split; [exact Hbefore|]. left. cbn [fst snd]. eauto. }
  exists before. split; [exact Hbefore|].
  rewrite bind_run. cbn [get_self]. rewrite bind_run.
  unfold main_intent. rewrite bind_run. cbn [get_self].
  destruct (main_intent_mxid (self s1)) as [mi|] eqn:Hmain.
  2:{ left. cbn. split; [exact Ht1 | eauto]. }
  cbn [ret].
  assert (Hstep : forall s2 : machine Ext,
             trace s2 = trace s1 -> main_intent_mxid (self s2) = Some mi ->
             is_direct (self s2) = is_direct (self s1) ->
             name (self s2) = name (self s1) ->
             is_threaded (self s2) = is_threaded (self s1) ->
             gcid (self s2) = gcid (self s1) ->
             let create := CreateRoom mi
                             (room_params env (self s2) source mi
                                (initial_power_levels (self s1) source mi)
                                (bridge_info env (self s1) mi)
                                (bridge_info_state_key (self s1))) in
             exists st intent after,
               trace (snd (bind (perform env create)
                             (fun new_room =>
                                bind (modify_self (set_mxid new_room))
                                  (fun _ => finish_room_creation env source new_room)) s2))
               = trace s ++ before ++ st :: after
               /\ Forall no_create after
               /\ main_intent_mxid (seen st) = Some intent
               /\ what st = CreateRoom intent
                              (room_params env (seen st) source intent
                                 (initial_power_levels (seen st) source intent)
                                 (bridge_info env (seen st) intent)
                                 (bridge_info_state_key (seen st)))).
  { intros s2 Ht2 Hmi Hdirect Hname Hthreaded Hgcid create.
    assert (Hcreate : create
                      = CreateRoom mi
                          (room_params env (self s2) source mi
                             (initial_power_levels (self s2) source mi)
                             (bridge_info env (self s2) mi)
                             (bridge_info_state_key (self s2)))).
    { unfold create, initial_power_levels, bridge_info, bridge_info_state_key.
      rewrite Hdirect, Hname, Hthreaded, Hgcid. reflexivity. }
    rewrite bind_run, perform_run.
    set (s3 := performed create (snd (answer env create (ext s2))) s2).
    destruct (fst (answer env create (ext s2))) as [new_room|e].
    - rewrite bind_run. cbn [modify_self].
      destruct (finish_creates_nothing source new_room (with_self (set_mxid new_room) s3))
        as (after & Ht3 & Hafter).
      exists (step_of create s2), mi, after.
      split; [|split; [exact Hafter | split; [exact Hmi | exact Hcreate]]].
      rewrite Ht3. cbn [trace with_self s3 performed]. rewrite Ht2, Ht1.
      rewrite <- !app_assoc. reflexivity.
    - exists (step_of create s2), mi, []. cbn [fst snd].
      split; [|split; [constructor | split; [exact Hmi | exact Hcreate]]].
      cbn [trace s3 performed]. rewrite Ht2, Ht1, <- !app_assoc. reflexivity. }
  right.
  destruct (encryption_default (config env) && e2ee (config env));
    rewrite bind_run; cbn [modify_self ret]; rewrite bind_run; cbn [get_self].
  - apply (Hstep (with_self (set_encrypted true) s1)); first [reflexivity | exact Hmain].
  - apply (Hstep s1); first [reflexivity | exact Hmain].
Qed.

(** The levels of a new room. *)
Lemma initial_power_levels_lookup (p : portal) (source : User) (main : UserID) :
  initial_power_levels p source main !! main = Some 100
  /\ (u_mxid source <> main ->
      initial_power_levels p source main !! u_mxid source
      = if is_direct p then Some 50 else None)
  /\ (forall other, other <> main -> other <> u_mxid source ->
        initial_power_levels p source main !! other = None).
Proof.
  unfold initial_power_levels. split; [apply lookup_insert_eq|]. split.
  - intros Hne. rewrite lookup_insert_ne by congruence.
    destruct (is_direct p); [apply lookup_insert_eq | apply lookup_empty].
  - intros other Hm Hs. rewrite lookup_insert_ne by congruence.
    destruct (is_direct p); [rewrite lookup_insert_ne by congruence|]; apply lookup_empty.
Qed.

End RoomCreation.

(** *** C1 *)

(** C1: a remote message whose provisional id is not pending is
    delivered twice in a row to a portal, the sender being resolved the
    first time. The second delivery only resolves the sender again and
    returns by the dedup-queue exit (or with the error of that lookup):
    the portal, the store with its message rows, and the two indices are
    those the first delivery left, and no call but the lookup is made, so
    the rows and the home-network events are those of the first delivery
    alone. It holds with or without a room. *)
Theorem inbound_redelivery_is_dropped {Ext : Type} (env : Portal.Env Ext)
    (source : Portal.User) (evt : Portal.GcMessage) (s : Portal.machine Ext)
    (sender : Portal.Puppet) :
  Portal.local_id evt ∉ Portal.local_dedup (Portal.self s) ->
  fst (Portal.answer env (Portal.PuppetGetByGcid (Portal.creator_id evt)) (Portal.ext s))
  = Portal.Ok sender ->
  let lookup := Portal.PuppetGetByGcid (Portal.creator_id evt) in
  let s1 := snd (Portal.handle_googlechat_message env source evt s) in
  let second := Portal.handle_googlechat_message env source evt s1 in
  second
  = (match fst (Portal.answer env lookup (Portal.ext s1)) with
     | Portal.Ok _ => Portal.Ok Portal.DroppedDedupQueue
     | Portal.Raise e => Portal.Raise e
     end,
     Portal.performed lookup (snd (Portal.answer env lookup (Portal.ext s1))) s1)
  /\ Store.messages (Portal.db (snd second)) = Store.messages (Portal.db s1)
  /\ Portal.trace (snd second) = Portal.trace s1 ++ [Portal.step_of lookup s1]
  /\ filter (fun st => Portal.is_home_event (Portal.what st) = true)
       (Portal.trace (snd second))
     = filter (fun st => Portal.is_home_event (Portal.what st) = true) (Portal.trace s1).
Proof.
  intros Hlocal Hsender lookup s1 second.
  destruct (delivery_records env source evt s sender Hsender Hlocal) as [Hknown Hsame].
  fold s1 in Hknown, Hsame.
  assert (Hrun : second
                 = (match fst (Portal.answer env lookup (Portal.ext s1)) with
                    | Portal.Ok _ => Portal.Ok Portal.DroppedDedupQueue
                    | Portal.Raise e => Portal.Raise e
                    end,
                    Portal.performed lookup
                      (snd (Portal.answer env lookup (Portal.ext s1))) s1)).
  { subst second. apply delivery_of_known_id; [rewrite Hsame; exact Hlocal | exact Hknown]. }
  split; [exact Hrun|]. rewrite Hrun. simpl.
  split; [reflexivity|]. split; [reflexivity|].
  rewrite filter_app. simpl. rewrite filter_cons_False, filter_nil, app_nil_r; [reflexivity|].
  simpl. discriminate.
Qed.

Lemma inbound_redelivery_is_dropped_witness :
  let env := Samples.outside Samples.never in
  let s1 := snd (Portal.handle_googlechat_message env Samples.alice Samples.greeting
                   (Samples.start Samples.dm_portal)) in
  fst (Portal.handle_googlechat_message env Samples.alice Samples.greeting s1)
  = Portal.Ok Portal.DroppedDedupQueue
  /\ length (Store.messages (Portal.db s1)) = 3%nat
  /\ Store.messages
       (Portal.db (snd (Portal.handle_googlechat_message env Samples.alice
                          Samples.greeting s1)))
     = Store.messages (Portal.db s1).
Proof.
  intros env s1.
  destruct (inbound_redelivery_is_dropped env Samples.alice Samples.greeting
              (Samples.start Samples.dm_portal) (Samples.ghost "12345"))
    as (Hrun & Hrows & _).
  - apply not_elem_of_empty.
  - reflexivity.
  - split; [|split].
    + fold s1 in Hrun. rewrite Hrun. reflexivity.
    + vm_compute. reflexivity.
    + exact Hrows.
Defined.

(** *** C9 *)

(** C9: a delivery ends by one of the three exits that follow the
    gate: the room could not be created, the own-message rule of direct
    chats, or no event was produced. Then its id was put in the dedup
    history before any of that was tried (every call after the sender
    lookup was made with the id in the history), no message row was
    inserted, and a redelivery of the same message is dropped by the
    dedup-queue exit without a further call. *)
Theorem aborted_delivery_is_remembered {Ext : Type} (env : Portal.Env Ext)
    (source : Portal.User) (evt : Portal.GcMessage) (s : Portal.machine Ext) :
  let lookup := Portal.PuppetGetByGcid (Portal.creator_id evt) in
  let first := Portal.handle_googlechat_message env source evt s in
  let s1 := snd first in
  fst first = Portal.Ok Portal.RoomCreationFailed
  \/ fst first = Portal.Ok Portal.OwnMessageIgnored
  \/ fst first = Portal.Ok Portal.Unhandled ->
  (Portal.message_id evt ∉ Portal.dedup (Portal.self s))
  /\ (Portal.message_id evt ∈ Portal.dedup (Portal.self s1))
  /\ (exists later,
         Portal.trace s1 = Portal.trace s ++ Portal.step_of lookup s :: later
         /\ Forall (fun st => Portal.message_id evt ∈ Portal.dedup (Portal.seen st)) later)
  /\ Store.messages (Portal.db s1) = Store.messages (Portal.db s)
  /\ Portal.handle_googlechat_message env source evt s1
     = (match fst (Portal.answer env lookup (Portal.ext s1)) with
        | Portal.Ok _ => Portal.Ok Portal.DroppedDedupQueue
        | Portal.Raise e => Portal.Raise e
        end,
        Portal.performed lookup (snd (Portal.answer env lookup (Portal.ext s1))) s1).
Proof.
  intros lookup first s1 Hout.
  destruct (delivery_cases env source evt s)
    as [[e He] | [Hd | [(_ & _ & Hd) | (sender & Hsender & Hlocal & Hnew)]]].
  - subst first. rewrite He in Hout. simpl in Hout.
    destruct Hout as [H|[H|H]]; discriminate H.
  - subst first. rewrite Hd in Hout. simpl in Hout.
    destruct Hout as [H|[H|H]]; discriminate H.
  - subst first. rewrite Hd in Hout. simpl in Hout.
    destruct Hout as [H|[H|H]]; discriminate H.
  - pose proof (delivery_of_new_id env source evt s sender Hsender Hlocal Hnew) as Hrun.
    fold lookup in Hrun.
    remember (Portal.with_self
                (fun p => Portal.set_dedup
                            (Portal.appendleft (Portal.message_id evt) (Portal.dedup p)) p)
                (Portal.performed lookup (snd (Portal.answer env lookup (Portal.ext s))) s))
      as s0 eqn:Hs0.
    destruct (bridge_keeps_dedup env source sender evt s0) as (Hd & Hl & later & Ht & Hsaw).
    pose proof (bridge_aborted_keeps_rows env source sender evt s0) as Hrows.
    rewrite <- Hrun in Hd, Hl, Ht, Hrows. fold first in Hd, Hl, Ht, Hrows.
    fold s1 in Hd, Hl, Ht, Hrows.
    assert (Hhead : Portal.message_id evt ∈ Portal.dedup (Portal.self s0)).
    { rewrite Hs0. simpl. apply appendleft_head. }
    assert (Hin : Portal.message_id evt ∈ Portal.dedup (Portal.self s1)).
    { rewrite Hd. exact Hhead. }
    split; [exact Hnew|]. split; [exact Hin|]. split; [|split].
    + exists later. split.
      * rewrite Ht, Hs0. simpl. rewrite <- app_assoc. reflexivity.
      * eapply Forall_impl; [exact Hsaw|]. intros st Hst. simpl in Hst.
        rewrite Hst. exact Hhead.
    + destruct Hout as [H|[H|H]]; rewrite H in Hrows;
        (destruct Hrows as [[ids Hids]|[Hm _]];
         [discriminate Hids | rewrite Hm, Hs0; reflexivity]).
    + apply delivery_of_known_id; [rewrite Hl, Hs0; exact Hlocal | exact Hin].
Qed.

Lemma aborted_delivery_is_remembered_witness :
  let env := Samples.outside Samples.never in
  let s := Samples.start Samples.dm_portal in
  let s1 := snd (Portal.handle_googlechat_message env Samples.alice Samples.empty_message s) in
  Store.messages (Portal.db s1) = Store.messages (Portal.db s)
  /\ fst (Portal.handle_googlechat_message env Samples.alice Samples.empty_message s1)
     = Portal.Ok Portal.DroppedDedupQueue.
Proof.
  intros env s s1.
  destruct (aborted_delivery_is_remembered env Samples.alice Samples.empty_message s)
    as (_ & _ & _ & Hrows & Hrun).
  - right. right. reflexivity.
  - split; [exact Hrows|]. fold s1 in Hrun. rewrite Hrun. reflexivity.
Defined.

(** *** C3 *)



(** *** C5 *)

(** C5: a reaction from the home network whose target message is
    found, while a reaction row is stored with the same emoji (after
    the trailing U+FE0F are stripped), sender and target. The handler
    makes one call, the report of the drop with reason
    ["duplicate reaction"], and returns: no row is inserted and the
    remote react operation is not called. *)
Theorem duplicate_reaction_is_dropped {Ext : Type} (env : Portal.Env Ext)
    (sender : Portal.User) (reaction_id target_id : EventID) (reaction : text)
    (s : Portal.machine Ext) (target : Store.Message) (row : Store.Reaction) :
  Store.message_get_by_mxid (Some target_id) (Portal.mxid (Portal.self s)) (Portal.db s)
  = Some target ->
  In row (Store.reactions (Portal.db s)) ->
  Store.emoji row = rstrip [VS16] reaction ->
  Store.r_gc_sender row = Portal.u_gcid sender ->
  Store.gc_msgid row = Store.gcid target ->
  Store.r_gc_chat row = Store.gc_chat target ->
  Store.r_gc_receiver row = Store.gc_receiver target ->
  let run := Portal.handle_matrix_reaction env sender reaction_id target_id reaction s in
  let report :=
    Portal.SendRemoteCheckpoint sender Portal.PERM_FAILURE reaction_id
      (Portal.mxid (Portal.self s)) Portal.REACTION None
      (Some (Portal.Exception "duplicate reaction")) in
  fst run = match fst (Portal.answer env report (Portal.ext s)) with
            | Portal.Ok _ => Portal.Ok Portal.DuplicateReaction
            | Portal.Raise e => Portal.Raise e
            end
  /\ Portal.db (snd run) = Portal.db s
  /\ Portal.self (snd run) = Portal.self s
  /\ Portal.trace (snd run) = Portal.trace s ++ [Portal.step_of report s]
  /\ Portal.is_react report = false.
Proof.
  intros Htarget Hin He Hs Hm Hc Hr run report.
  pose proof (duplicate_reaction_run env sender reaction_id target_id reaction s target row
                Htarget Hin (conj He (conj Hs (conj Hm (conj Hc Hr))))) as Hrun.
  subst run. rewrite Hrun. cbn [fst snd].
  split; [reflexivity|]. split; [reflexivity|]. split; [reflexivity|].
  split; reflexivity.
Qed.

Lemma duplicate_reaction_is_dropped_witness :
  let env := Samples.outside Samples.never in
  let run := Portal.handle_matrix_reaction env Samples.alice "$again" "$hello"
               (Samples.thumbs_up ++ [VS16]) (Samples.start Samples.dm_portal) in
  fst run = Portal.Ok Portal.DuplicateReaction
  /\ Portal.db (snd run) = Portal.db (Samples.start Samples.dm_portal)
  /\ length (Portal.trace (snd run)) = 1%nat.
Proof.
  intros env run.
  destruct (duplicate_reaction_is_dropped env Samples.alice "$again" "$hello"
              (Samples.thumbs_up ++ [VS16]) (Samples.start Samples.dm_portal)
              Samples.hello_row Samples.thumbs_row)
    as (Hout & Hdb & _ & Htrace & _).
  - reflexivity.
  - left. reflexivity.
  - vm_compute. reflexivity.
  - reflexivity.
  - reflexivity.
  - reflexivity.
  - reflexivity.
  - fold run in Hout, Hdb, Htrace. split; [|split].
    + rewrite Hout. reflexivity.
    + exact Hdb.
    + rewrite Htrace. reflexivity.
Defined.

(** *** C10 *)

(** C10: a reaction whose remote react call raises. The reaction row
    was inserted before the call (the store seen by the call holds it)
    and is still stored when the handler has reported the failure: the
    store is the one before with that row added. A retry, under any
    event id, of a reaction with the same emoji (up to trailing U+FE0F),
    sender and target is then dropped as a duplicate: it makes one call,
    the report of the drop, and no remote react call. *)
Theorem failed_reaction_stays_stored {Ext : Type} (env : Portal.Env Ext)
    (sender : Portal.User) (reaction_id target_id : EventID) (reaction : text)
    (s : Portal.machine Ext) (e : Portal.exn) :
  let run := Portal.handle_matrix_reaction env sender reaction_id target_id reaction s in
  fst run = Portal.Ok (Portal.ReactionFailed e) ->
  exists (row : Store.Reaction) (target : Store.Message),
    Store.message_get_by_mxid (Some target_id) (Portal.mxid (Portal.self s)) (Portal.db s)
    = Some target
    /\ Store.r_mxid row = reaction_id
    /\ Store.emoji row = rstrip [VS16] reaction
    /\ Store.r_gc_sender row = Portal.u_gcid sender
    /\ Store.gc_msgid row = Store.gcid target
    /\ (exists before react after,
           Portal.trace (snd run) = Portal.trace s ++ before ++ react :: after
           /\ Portal.what react
              = Portal.RemoteReact sender (Store.gc_chat target) (Store.gc_parent_id target)
                  (Store.gcid target) (rstrip [VS16] reaction) false
           /\ In row (Store.reactions (Portal.stored react))
           /\ Forall (fun st => Portal.is_react (Portal.what st) = false) before
           /\ Forall (fun st => Portal.is_react (Portal.what st) = false) after)
    /\ Portal.db (snd run) = Store.reaction_insert row (Portal.db s)
    /\ Portal.self (snd run) = Portal.self s
    /\ forall (retry_id : EventID) (again : text),
         rstrip [VS16] again = rstrip [VS16] reaction ->
         let retry := Portal.handle_matrix_reaction env sender retry_id target_id again
                        (snd run) in
         let report :=
           Portal.SendRemoteCheckpoint sender Portal.PERM_FAILURE retry_id
             (Portal.mxid (Portal.self s)) Portal.REACTION None
             (Some (Portal.Exception "duplicate reaction")) in
         fst retry = match fst (Portal.answer env report (Portal.ext (snd run))) with
                     | Portal.Ok _ => Portal.Ok Portal.DuplicateReaction
                     | Portal.Raise e' => Portal.Raise e'
                     end
         /\ Portal.db (snd retry) = Portal.db (snd run)
         /\ Portal.trace (snd retry)
            = Portal.trace (snd run) ++ [Portal.step_of report (snd run)].
Proof.
  intros run Hout.
  destruct (failed_reaction_run env sender reaction_id target_id reaction s e Hout)
    as (target & room & ts & Htarget & Hroom & Hts & Hraise & Hcalls).
  fold run in Hcalls. cbv zeta in Hraise, Hcalls.
  set (row := new_reaction_row sender reaction_id room reaction target ts) in *.
  set (s1 := Portal.performed Portal.TimeMillis
               (snd (Portal.answer env Portal.TimeMillis (Portal.ext s))) s) in *.
  set (s2 := Portal.with_db (Store.reaction_insert row) s1) in *.
  set (react := react_call sender reaction target) in *.
  set (s3 := Portal.performed react (snd (Portal.answer env react (Portal.ext s2))) s2) in *.
  destruct Hcalls as (Hself & Hdb & after & Htrace & Hafter).
  assert (Hin : In row (Store.reactions (Store.reaction_insert row (Portal.db s)))).
  { simpl. apply List.in_or_app. right. left. reflexivity. }
  exists row, target.
  split; [exact Htarget|]. split; [reflexivity|]. split; [reflexivity|].
  split; [reflexivity|]. split; [reflexivity|]. split; [|split; [|split]].
  - exists [Portal.step_of Portal.TimeMillis s], (Portal.step_of react s2), after.
    split; [|split; [|split; [|split]]].
    + rewrite Htrace. subst s3 s2 s1. simpl. rewrite <- !app_assoc. reflexivity.
    + reflexivity.
    + exact Hin.
    + constructor; [reflexivity | constructor].
    + eapply Forall_impl; [exact Hafter|]. intros st Hst.
      apply quiet_not_react, (proj1 Hst).
  - rewrite Hdb. reflexivity.
  - rewrite Hself. reflexivity.
  - intros retry_id again Hsame retry report.
    assert (Hrun := duplicate_reaction_run env sender retry_id target_id again (snd run)
                      target row).
    rewrite Hself, Hdb in Hrun. subst s3 s2 s1. cbn [Portal.self Portal.performed
      Portal.with_db Portal.db] in Hrun.
    specialize (Hrun Htarget Hin).
    rewrite Hsame in Hrun.
    specialize (Hrun (conj eq_refl (conj eq_refl (conj eq_refl (conj eq_refl eq_refl))))).
    cbv zeta in Hrun. unfold duplicate_report in Hrun.
    subst retry. rewrite Hrun. cbn [fst snd].
    split; [reflexivity|]. split; reflexivity.
Qed.

Lemma failed_reaction_stays_stored_witness :
  let env := Samples.outside Portal.is_react in
  let run := Portal.handle_matrix_reaction env Samples.alice "$heart" "$hello"
               [10084%N; VS16] (Samples.start Samples.dm_portal) in
  fst run = Portal.Ok (Portal.ReactionFailed (Portal.Exception "unavailable"))
  /\ length (Store.reactions (Portal.db (snd run))) = 2%nat
  /\ fst (Portal.handle_matrix_reaction env Samples.alice "$heart-again" "$hello"
            [10084%N] (snd run))
     = Portal.Ok Portal.DuplicateReaction.
Proof.
  intros env run.
  assert (Hout : fst run = Portal.Ok (Portal.ReactionFailed (Portal.Exception "unavailable")))
    by (vm_compute; reflexivity).
  destruct (failed_reaction_stays_stored env Samples.alice "$heart" "$hello"
              [10084%N; VS16] (Samples.start Samples.dm_portal)
              (Portal.Exception "unavailable") Hout)
    as (row & target & _ & _ & _ & _ & _ & _ & Hdb & _ & Hretry).
  split; [exact Hout|]. split.
  - fold run in Hdb. rewrite Hdb. reflexivity.
  - destruct (Hretry "$heart-again" [10084%N] eq_refl) as (Hagain & _).
    fold run in Hagain. rewrite Hagain. reflexivity.
Defined.

(** *** C6 *)

(** C6: [_create_matrix_room] on a portal without a room. Every
    [create_room] call it makes is made by the portal's main acting
    identity, and the first event of its initial state is the power-level
    content whose [users] hold level 100 for that identity, level 50 for
    the inviting user exactly when the portal is a direct chat (no entry
    for that user in a group chat), and nobody else; the inviting user is
    a bridge user, never the acting ghost or bot itself. A room is
    returned only after such a call. *)
Theorem new_room_power_levels {Ext : Type} (env : Portal.Env Ext)
    (source : Portal.User) (s : Portal.machine Ext) :
  truthy (Portal.mxid (Portal.self s)) = false ->
  let run := Portal._create_matrix_room env source s in
  exists new,
    Portal.trace (snd run) = Portal.trace s ++ new
    /\ Forall
         (fun st =>
            forall intent params,
              Portal.what st = Portal.CreateRoom intent params ->
              Portal.main_intent_mxid (Portal.seen st) = Some intent
              /\ Portal.rp_is_direct params = Portal.is_direct (Portal.seen st)
              /\ exists users rest,
                   Portal.rp_initial_state params
                   = {| Portal.se_type := "m.room.power_levels";
                        Portal.se_state_key := None;
                        Portal.se_content := Portal.PowerLevels users |} :: rest
                   /\ users !! intent = Some 100
                   /\ (Portal.u_mxid source <> intent ->
                       users !! Portal.u_mxid source
                       = if Portal.is_direct (Portal.seen st) then Some 50 else None)
                   /\ (forall other, other <> intent -> other <> Portal.u_mxid source ->
                         users !! other = None))
         new
    /\ (forall room, fst run = Portal.Ok room ->
          Exists (fun st => Portal.is_create_room (Portal.what st) = true) new).
Proof.
  intros Hroom run.
  assert (Hquiet : forall (Q : Portal.step -> UserID -> Portal.RoomParams -> Prop) l,
            Forall no_create l ->
            Forall (fun st => forall intent params,
                      Portal.what st = Portal.CreateRoom intent params ->
                      Q st intent params) l).
  { intros Q l Hl. eapply Forall_impl; [exact Hl|]. intros st Hst intent params Hwhat.
    unfold no_create in Hst. rewrite Hwhat in Hst. discriminate Hst. }
  destruct (create_room_steps env source s Hroom)
    as (before & Hbefore & [[Ht [e He]] | (st & mi & after & Ht & Hafter & Hmain & Hwhat)]).
  - exists before. fold run in Ht, He. split; [exact Ht|]. split.
    + apply Hquiet, Hbefore.
    + intros room Hok. rewrite He in Hok. discriminate Hok.
  - exists (before ++ st :: after). fold run in Ht. split; [exact Ht|]. split.
    + apply Forall_app. split; [apply Hquiet, Hbefore|].
      constructor; [|apply Hquiet, Hafter].
      intros intent params Hcall. rewrite Hwhat in Hcall.
      injection Hcall as <- <-.
      split; [exact Hmain|]. split; [reflexivity|].
      destruct (initial_power_levels_lookup (Portal.seen st) source mi)
        as (Hown & Hsource & Hother).
      unfold Portal.room_params. cbn [Portal.rp_initial_state].
      destruct (Portal.encryption_default (Portal.config env)
                && Portal.e2ee (Portal.config env));
        cbn [app]; eexists _, _; (split; [reflexivity|]); auto.
    + intros room _. apply Exists_app. right. constructor.
      rewrite Hwhat. reflexivity.
Qed.

Lemma new_room_power_levels_witness :
  let env := Samples.outside Samples.never in
  let run := Portal._create_matrix_room env Samples.alice
               (Samples.start Samples.dm_portal_no_room) in
  fst run = Portal.Ok (Some "!created:example.org")
  /\ exists new,
       Portal.trace (snd run) = new
       /\ Exists (fun st => Portal.is_create_room (Portal.what st) = true) new.
Proof.
  intros env run.
  assert (Hout : fst run = Portal.Ok (Some "!created:example.org"))
    by (vm_compute; reflexivity).
  destruct (new_room_power_levels env Samples.alice
              (Samples.start Samples.dm_portal_no_room) eq_refl)
    as (new & Ht & _ & Hcreated).
  split; [exact Hout|]. exists new. split; [exact Ht|].
  apply (Hcreated _ Hout).
Defined.

(** *** C7 *)

(** C7: [delete] never raises and makes no call. With a room id, the
    message rows and then the reaction rows of that room are deleted;
    the portal leaves the index by (gcid, receiver) and the index by
    room id; last, its row leaves the portal table. Afterwards no message
    or reaction row of the room is stored, neither index holds the
    portal, and no portal row has its key. *)
Theorem delete_cascades {Ext : Type} (s : Portal.machine Ext) :
  let p := Portal.self s in
  let run := Portal.delete s in
  fst run = Portal.Ok tt
  /\ Portal.db (snd run)
     = Store.portal_delete (Portal.gcid p) (Portal.gc_receiver p)
         (match Portal.mxid p with
          | Some room =>
              if nonempty room
              then Store.reaction_delete_all_by_room room
                     (Store.message_delete_all_by_room room (Portal.db s))
              else Portal.db s
          | None => Portal.db s
          end)
  /\ (forall room, Portal.mxid p = Some room -> nonempty room = true ->
        (forall m, In m (Store.messages (Portal.db (snd run))) -> Store.mx_room m <> room)
        /\ (forall r, In r (Store.reactions (Portal.db (snd run))) ->
              Store.r_mx_room r <> room))
  /\ Portal.by_gcid (snd run) !! Portal.gcid_full p = None
  /\ (forall room, Portal.mxid p = Some room -> Portal.by_mxid (snd run) !! room = None)
  /\ (forall row, In row (Store.portals (Portal.db (snd run))) ->
        ~ (Store.p_gcid row = Portal.gcid p
           /\ Store.p_gc_receiver row = Portal.gc_receiver p))
  /\ Portal.trace (snd run) = Portal.trace s
  /\ Portal.self (snd run) = p.
Proof.
  intros p run.
  assert (Hrun : run
                 = (Portal.Ok tt,
                    Portal.with_db (Store.portal_delete (Portal.gcid p) (Portal.gc_receiver p))
                      (Portal.with_by_mxid
                         (match Portal.mxid p with
                          | Some room => base.delete room
                          | None => id
                          end)
                         (Portal.with_by_gcid (base.delete (Portal.gcid_full p))
                            (match Portal.mxid p with
                             | Some room =>
                                 if nonempty room
                                 then Portal.with_db (Store.reaction_delete_all_by_room room)
                                        (Portal.with_db
                                           (Store.message_delete_all_by_room room) s)
                                 else s
                             | None => s
                             end))))).
  { subst run p. unfold Portal.delete. rewrite bind_run. cbn [Portal.get_self].
    destruct (Portal.mxid (Portal.self s)) as [room|]; [destruct (nonempty room)|];
      reflexivity. }
  rewrite Hrun. cbn [fst snd].
  split; [reflexivity|]. split.
  { destruct (Portal.mxid p) as [room|]; [destruct (nonempty room)|]; reflexivity. }
  split.
  { intros room Hp Hne. rewrite Hp, Hne. cbn. split.
    - intros m Hm. apply List.filter_In in Hm as [_ Hm]. unfold Store.str_eq in Hm.
      intros Heq. rewrite Heq, String.eqb_refl in Hm. discriminate Hm.
    - intros r Hr. apply List.filter_In in Hr as [_ Hr]. unfold Store.str_eq in Hr.
      intros Heq. rewrite Heq, String.eqb_refl in Hr. discriminate Hr. }
  split.
  { cbn. destruct (Portal.mxid p) as [room|]; [destruct (nonempty room)|];
      cbn; apply lookup_delete_eq. }
  split.
  { intros room Hp. rewrite Hp. cbn. destruct (nonempty room); cbn; apply lookup_delete_eq. }
  split.
  { intros row Hrow [Hg Hr]. cbn in Hrow.
    apply List.filter_In in Hrow as [_ Hrow]. unfold Store.same_portal, Store.str_eq in Hrow.
    rewrite Hg, Hr, !String.eqb_refl in Hrow. discriminate Hrow. }
  split.
  { cbn. destruct (Portal.mxid p) as [room|]; [destruct (nonempty room)|]; reflexivity. }
  cbn. destruct (Portal.mxid p) as [room|]; [destruct (nonempty room)|]; reflexivity.
Qed.

Lemma delete_cascades_witness :
  let run := Portal.delete (Samples.start Samples.dm_portal) in
  Store.messages (Portal.db (snd run)) = [Samples.other_row]
  /\ Store.reactions (Portal.db (snd run)) = []
  /\ Store.portals (Portal.db (snd run)) = []
  /\ Portal.by_mxid (snd run) !! "!room:example.org" = None
  /\ (forall m, In m (Store.messages (Portal.db (snd run))) ->
        Store.mx_room m <> "!room:example.org").
Proof.
  intros run.
  destruct (delete_cascades (Samples.start Samples.dm_portal))
    as (_ & Hdb & Hrows & _ & Hindex & _).
  fold run in Hdb, Hrows, Hindex.
  split; [rewrite Hdb; reflexivity|]. split; [rewrite Hdb; reflexivity|].
  split; [rewrite Hdb; reflexivity|]. split; [apply Hindex; reflexivity|].
  apply (Hrows "!room:example.org"); reflexivity.
Defined.

(** *** C2 *)

(** C2, the failing half: when the sending of a home-network message
    fails (the remote call raises, or anything else inside the [try]),
    the handler reports the failure and returns with the provisional id
    still in the set: the set is the one before with the new id added.
    The id is in the set for every call made after it is drawn. *)
Theorem failed_send_keeps_provisional_id {Ext : Type} (env : Portal.Env Ext)
    (sender : Portal.User) (message : Portal.Content) (event_id : EventID)
    (s : Portal.machine Ext) (e : Portal.exn) :
  truthy (Portal.c_edit message) = false ->
  let run := Portal.handle_matrix_message env sender message event_id s in
  fst run = Portal.Ok (Portal.SendFailed e) ->
  exists rnd,
    fst (Portal.answer env (Portal.RandInt 0 18446744073709551615) (Portal.ext s))
    = Portal.Ok rnd
    /\ Portal.local_dedup (Portal.self (snd run))
       = {[Portal.new_local_id rnd]} ∪ Portal.local_dedup (Portal.self s)
    /\ (Portal.new_local_id rnd ∈ Portal.local_dedup (Portal.self (snd run)))
    /\ exists later,
         Portal.trace (snd run)
         = Portal.trace s
             ++ Portal.step_of (Portal.RandInt 0 18446744073709551615) s :: later
         /\ Forall (fun st => Portal.new_local_id rnd ∈ Portal.local_dedup (Portal.seen st))
              later.
Proof.
  intros Hedit run. subst run. unfold Portal.handle_matrix_message. rewrite Hedit.
  rewrite bind_run. cbn [Portal.get_self]. rewrite bind_run. cbn [Portal.get_db].
  rewrite bind_run, perform_run.
  set (draw := Portal.RandInt 0 18446744073709551615).
  destruct (fst (Portal.answer env draw (Portal.ext s))) as [rnd|e'].
  2:{ cbn. discriminate. }
  set (s1 := Portal.performed draw (snd (Portal.answer env draw (Portal.ext s))) s).
  rewrite bind_run. cbn [Portal.modify_self].
  rewrite bind_run. unfold Portal.require_send_lock. cbn [Portal.modify_self].
  set (s2 := Portal.with_self _ (Portal.with_self _ s1)).
  assert (Hset : Portal.local_dedup (Portal.self s2)
                 = {[Portal.new_local_id rnd]} ∪ Portal.local_dedup (Portal.self s))
    by reflexivity.
  assert (Htrace : Portal.trace s2 = Portal.trace s ++ [Portal.step_of draw s])
    by reflexivity.
  clearbody s2. clear s1.
  unfold Portal.try_else.
  match goal with |- context [let (_, _) := ?body s2 in _] =>
    assert (Hbody : only_calls any_call s2 (snd (body s2)));
    [|destruct (body s2) as [[resp|e'] s3]]
  end.
  { destruct (Portal.is_TEXT (Portal.c_msgtype message)
              || Portal.is_NOTICE (Portal.c_msgtype message)).
    - apply matrix_text_only_calls.
    - destruct (Portal.is_media (Portal.c_msgtype message)).
      + apply matrix_media_only_calls.
      + apply only_calls_refl. }
  - intros Hout. exfalso. revert Hout.
    match goal with |- fst (?m s3) = _ -> False =>
      assert (Hfin : finishes_with (fun o => exists id, o = Portal.Sent id) m)
    end.
    { repeat (apply finishes_bind; intros ?). apply finishes_ret. eauto. }
    specialize (Hfin s3).
    match goal with |- fst ?r = _ -> False => destruct (fst r) end;
      [|discriminate].
    destruct Hfin as [id ->]. discriminate.
  - cbn [snd] in Hbody. rewrite bind_run.
    pose proof (rec_error_only_calls env sender e' event_id Portal.ROOM_MESSAGE
                  (Some (Portal.c_msgtype message)) s3) as Hrec.
    destruct (Portal._rec_error env sender e' event_id Portal.ROOM_MESSAGE
                (Some (Portal.c_msgtype message)) s3) as [[[]|e''] s4].
    2:{ cbn. discriminate. }
    cbn [fst snd Portal.ret] in *. intros _.
    destruct Hbody as (Hself3 & _ & new3 & Ht3 & Hsaw3).
    destruct Hrec as (Hself4 & _ & new4 & Ht4 & Hsaw4).
    exists rnd. split; [reflexivity|].
    assert (Hfinal : Portal.local_dedup (Portal.self s4)
                     = {[Portal.new_local_id rnd]} ∪ Portal.local_dedup (Portal.self s)).
    { rewrite Hself4, Hself3. exact Hset. }
    split; [exact Hfinal|].
    assert (Hnew : forall X : gset string,
               Portal.new_local_id rnd ∈ ({[Portal.new_local_id rnd]} ∪ X)).
    { intros X. apply elem_of_union. left. apply elem_of_singleton. reflexivity. }
    split; [rewrite Hfinal; apply Hnew|].
    exists (new3 ++ new4). split.
    + rewrite Ht4, Ht3, Htrace, <- !app_assoc. reflexivity.
    + apply Forall_app. split.
      * eapply Forall_impl; [exact Hsaw3|]. intros st (_ & Hseen & _).
        rewrite Hseen, Hset. apply Hnew.
      * eapply Forall_impl; [exact Hsaw4|]. intros st (_ & Hseen & _).
        rewrite Hseen, Hself3, Hset. apply Hnew.
Qed.

Lemma failed_send_keeps_provisional_id_witness :
  let env := Samples.outside Samples.send_fails in
  let run := Portal.handle_matrix_message env Samples.alice (Samples.plain_text "hey")
               "$out" (Samples.start Samples.dm_portal) in
  fst run = Portal.Ok (Portal.SendFailed (Portal.Exception "unavailable"))
  /\ Portal.local_dedup (Portal.self (snd run)) = {[ "mautrix-googlechat%7" ]} ∪ ∅
  /\ ("mautrix-googlechat%7" ∈ Portal.local_dedup (Portal.self (snd run))).
Proof.
  intros env run.
  assert (Hout : fst run = Portal.Ok (Portal.SendFailed (Portal.Exception "unavailable")))
    by (vm_compute; reflexivity).
  destruct (failed_send_keeps_provisional_id env Samples.alice (Samples.plain_text "hey")
              "$out" (Samples.start Samples.dm_portal) (Portal.Exception "unavailable")
              eq_refl Hout)
    as (rnd & Hrnd & Hset & Hin & _).
  injection Hrnd as <-.
  split; [exact Hout|]. split; [exact Hset | exact Hin].
Defined.

(** The other half of C2 on the same message: when the remote network
    accepts it, the provisional id is gone from the set and the remote
    id is in the dedup history. *)
Example accepted_send_removes_provisional_id :
  let run := Portal.handle_matrix_message (Samples.outside Samples.never) Samples.alice
               (Samples.plain_text "hey") "$out" (Samples.start Samples.dm_portal) in
  fst run = Portal.Ok (Portal.Sent "remote-1")
  /\ elements (Portal.local_dedup (Portal.self (snd run))) = []
  /\ Portal.dedup (Portal.self (snd run)) = ["remote-1"].
Proof. vm_compute. repeat split; reflexivity. Qed.

(** ** The foreign download *)
Section DownloadFacts.
Import Download.

Lemma read_some_split (n : nat) (s : stream) :
  (0 < n)%nat ->
  forall b s', read_some n s = (b, s') ->
    b ++ concat s' = concat s /\ (length b <= n)%nat
    /\ (b = [] -> s' = [] /\ concat s = []).
Proof.
  intros Hn. induction s as [|c rest IH]; intros b s' Hr; simpl in Hr.
  - inversion Hr; subst. simpl. split; [reflexivity|]. split; [lia|]. auto.
  - destruct c as [|x c'].
    + simpl. apply IH. exact Hr.
    + destruct (Nat.leb_spec (length (x :: c')) n) as [Hle|Hlt];
        inversion Hr; subst; clear Hr.
      * split; [reflexivity|]. split; [exact Hle|]. intros Hnil; discriminate Hnil.
      * split; [|split].
        -- change (concat (drop n (x :: c') :: rest))
             with (drop n (x :: c') ++ concat rest).
           change (concat ((x :: c') :: rest)) with ((x :: c') ++ concat rest).
           rewrite app_assoc, take_drop. reflexivity.
        -- rewrite length_take. lia.
        -- intros Hnil. destruct n; [lia|]. simpl in Hnil. discriminate Hnil.
Qed.

Lemma read_blocks_round (fuel : nat) (max_size : Z) (s : stream) (blocks : list bytes) :
  read_blocks (S fuel) max_size s blocks
  = match read max_size s with
    | ([], s') => Some (blocks, s')
    | (block, s') =>
        read_blocks fuel (max_size - Z.of_nat (length block)) s' (blocks ++ [block])
    end.
Proof. simpl. destruct (read max_size s) as [[|x b] s']; reflexivity. Qed.

(** With a cap that is not negative the loop ends, within the fuel
    [_download_external_attachment] gives it, on the first
    [max_size] bytes of the body. *)
Lemma read_blocks_take (fuel : nat) :
  forall (max_size : Z) (s : stream) (blocks : list bytes),
    0 <= max_size -> (total s < fuel)%nat ->
    exists bs rest,
      read_blocks fuel max_size s blocks = Some (blocks ++ bs, rest)
      /\ concat bs = take (Z.to_nat max_size) (concat s)
      /\ concat bs ++ concat rest = concat s.
Proof.
  induction fuel as [|fuel IH]; intros max_size s blocks Hcap Hfuel; [lia|].
  rewrite read_blocks_round. unfold read.
  destruct (Z.eqb_spec max_size 0) as [H0|H0].
  - subst. exists [], s. rewrite app_nil_r. simpl. auto.
  - destruct (Z.ltb_spec max_size 0) as [Hneg|_]; [lia|].
    destruct (read_some (Z.to_nat max_size) s) as [b s'] eqn:Hr.
    apply read_some_split in Hr as (Hsplit & Hlen & Hnil); [|lia].
    destruct b as [|x b'].
    + destruct (Hnil eq_refl) as [-> Hs]. exists [], []. rewrite app_nil_r.
      simpl. rewrite Hs. rewrite take_nil. auto.
    + set (b := x :: b') in *.
      assert (Htot : total s = (length b + total s')%nat).
      { unfold total. rewrite <- Hsplit, length_app. reflexivity. }
      destruct (IH (max_size - Z.of_nat (length b)) s' (blocks ++ [b]))
        as (bs & rest & Hrun & Htake & Hcat).
      * lia.
      * assert (0 < length b)%nat by (subst b; simpl; lia). lia.
      * exists (b :: bs), rest. split; [|split].
        -- rewrite <- app_assoc in Hrun. exact Hrun.
        -- change (concat (b :: bs)) with (b ++ concat bs).
           rewrite Htake, <- Hsplit.
           rewrite take_app_ge by exact Hlen.
           replace (Z.to_nat max_size - length b)%nat
             with (Z.to_nat (max_size - Z.of_nat (length b))) by lia.
           reflexivity.
        -- change (concat (b :: bs)) with (b ++ concat bs).
           rewrite <- app_assoc, Hcat. exact Hsplit.
Qed.
End DownloadFacts.

(** *** C4 *)

(** C4: a download from a foreign host with a positive cap, answered
    with a status below 400. A declared [Content-Length] above the cap
    gives the too-large error and leaves the whole body unread. With no
    declared length the blocks that are read are the first [cap] bytes of
    the body and no more: the sum of their lengths never exceeds the cap,
    and it is the cap exactly when the body is longer. *)
Theorem download_external_cap (sniff : Download.bytes -> string)
    (url_path : string) (cap : Z) (resp : Download.response) :
  0 < cap -> Download.status resp < 400 ->
  (forall declared,
      Download.content_length resp = Download.LenInt declared -> cap < declared ->
      Download._download_external_attachment sniff url_path cap resp
      = (inl (Download.FileTooLargeError "Image size larger than maximum"),
         Download.body resp))
  /\ (Download.content_length resp = Download.LenAbsent ->
      exists dl rest,
        Download._download_external_attachment sniff url_path cap resp = (inr dl, rest)
        /\ Download.data dl = take (Z.to_nat cap) (concat (Download.body resp))
        /\ Download.data dl ++ concat rest = concat (Download.body resp)
        /\ Z.of_nat (length (Download.data dl)) <= cap
        /\ (cap < Z.of_nat (Download.total (Download.body resp)) ->
            Z.of_nat (length (Download.data dl)) = cap)).
Proof.
  intros Hcap Hstatus. unfold Download._download_external_attachment.
  destruct (Z.leb_spec 400 (Download.status resp)) as [Hbad|_]; [lia|].
  split.
  - intros declared -> Hover. simpl.
    destruct (Z.ltb_spec 0 cap); [|lia].
    destruct (Z.ltb_spec cap declared); [|lia]. reflexivity.
  - intros ->. cbn [Download.header_int].
    destruct (Z.ltb_spec 0 cap); [|lia].
    destruct (Z.ltb_spec cap 0); [lia|]. cbn [andb].
    destruct (read_blocks_take (S (Download.total (Download.body resp))) cap
                (Download.body resp) []) as (bs & rest & Hrun & Htake & Hcat);
      [lia|lia|].
    rewrite Hrun. cbn [app]. eexists _, rest. split; [reflexivity|].
    cbn [Download.data].
    split; [exact Htake|]. split; [exact Hcat|].
    rewrite Htake, length_take. unfold Download.total. split; lia.
Qed.

Lemma download_external_cap_witness :
  Download._download_external_attachment Samples.sniff_none "/a/cat.png" 3 Samples.oversized_declared
  = (inl (Download.FileTooLargeError "Image size larger than maximum"),
     Download.body Samples.oversized_declared)
  /\ exists dl rest,
      Download._download_external_attachment Samples.sniff_none "/a/cat.png" 3 Samples.oversized_undeclared
      = (inr dl, rest)
      /\ Z.of_nat (length (Download.data dl)) = 3.
Proof.
  split.
  - apply (proj1 (download_external_cap Samples.sniff_none "/a/cat.png" 3 Samples.oversized_declared
                    ltac:(lia) ltac:(simpl; lia)) 9); [reflexivity | lia].
  - destruct (proj2 (download_external_cap Samples.sniff_none "/a/cat.png" 3 Samples.oversized_undeclared
                       ltac:(lia) ltac:(simpl; lia)) eq_refl)
      as (dl & rest & Hrun & _ & _ & _ & Hfull).
    exists dl, rest. split; [exact Hrun|]. apply Hfull. vm_compute. reflexivity.
Defined.

(** * More of the portal *)

(** Steps through a computation for a relation [R] with its proofs of
    reflexivity [refl], transitivity [trans] and closure under calls
    [perf]; [side] proves that a call is allowed. *)
Ltac frame_hyp :=
  match goal with
  | H : Some _ = Some _ |- _ => inversion H; subst; clear H
  | H : None = Some _ |- _ => discriminate H
  | H : (if ?b then _ else _) = Some _ |- _ => destruct b
  | H : match ?x with _ => _ end = Some _ |- _ => destruct x
  end.

Ltac frame_goal refl trans perf side :=
  lazymatch goal with
  | |- Frame.preserves _ (Portal.ret _) => apply (pres_ret _ refl)
  | |- Frame.preserves _ (Portal.raise _) => apply (pres_raise _ refl)
  | |- Frame.preserves _ Portal.get_self => apply (pres_get_self _ refl)
  | |- Frame.preserves _ Portal.get_db => apply (pres_get_db _ refl)
  | |- Frame.preserves _ Portal.main_intent => apply (pres_main_intent _ refl trans)
  | |- Frame.preserves _ Portal.room_for_row => apply (pres_room_for_row _ refl trans)
  | |- Frame.preserves _ (Portal.bind _ _) => apply (pres_bind _ trans); [|intros ?]
  | |- Frame.preserves _ (Portal.try_except _ _) =>
      apply (pres_try_except _ trans); [|intros ? ? ?]
  | |- Frame.preserves _ (Portal.try_else _ _ _) =>
      apply (pres_try_else _ trans); [|intros ?|intros ?]
  | |- Frame.preserves _ (Portal.perform _ _) => apply (pres_perform _ _ _ perf); side
  | |- Frame.preserves _ (if ?b then _ else _) => destruct b
  | |- Frame.preserves _ (match ?x with _ => _ end) => destruct x
  end.

Ltac frame refl trans perf side :=
  repeat first [frame_hyp | frame_goal refl trans perf side].

(** ** Messages from the home network *)
Section Outbound.
Import Portal Parts.
Context {Ext : Type}.
Variable env : Env Ext.
Local Abbreviation only_calls := (@Frame.only_calls Ext).

(** The handler, part by part. *)
Lemma matrix_message_anatomy (sender : User) (message : Content) (event_id : EventID)
    (s : machine Ext) :
  truthy (c_edit message) = false ->
  let thread_id := thread_of message (self s) (db s) in
  handle_matrix_message env sender message event_id s
  = match fst (answer env draw (ext s)) with
    | Raise e => (Raise e, performed draw (snd (answer env draw (ext s))) s)
    | Ok rnd =>
        let local_id := new_local_id rnd in
        let s2 := in_flight sender local_id
                    (performed draw (snd (answer env draw (ext s))) s) in
        match send_body env sender message thread_id local_id s2 with
        | (Ok resp, s3) => record_sent env sender message event_id thread_id local_id resp s3
        | (Raise e, s3) => record_failed env sender message event_id e s3
        end
    end.
Proof.
  intros Hedit thread_id. unfold handle_matrix_message. rewrite Hedit.
  rewrite bind_run. cbn [get_self]. rewrite bind_run. cbn [get_db].
  rewrite bind_run, perform_run. fold draw.
  destruct (fst (answer env draw (ext s))) as [rnd|e]; [|reflexivity].
  rewrite bind_run. cbn [modify_self].
  rewrite bind_run. unfold require_send_lock. cbn [modify_self].
  reflexivity.
Qed.

Lemma send_body_calls sender message thread_id local_id s :
  only_calls (carries local_id) s (snd (send_body env sender message thread_id local_id s)).
Proof.
  revert s.
  change (Frame.preserves (only_calls (carries local_id))
            (send_body env sender message thread_id local_id)).
  unfold send_body, _handle_matrix_text, _handle_matrix_media, gcid_plain.
  frame (only_calls_refl (Ext:=Ext) (carries local_id))
        (only_calls_trans (Ext:=Ext) (carries local_id))
        (fun c x s => only_calls_perform (Ext:=Ext) (carries local_id) c x s)
        ltac:(first [reflexivity | apply String.eqb_refl]).
Qed.

Lemma record_failed_run sender message event_id e s :
  only_calls quiet s (snd (record_failed env sender message event_id e s))
  /\ match fst (record_failed env sender message event_id e s) with
     | Ok o => o = SendFailed e
     | Raise _ => True
     end.
Proof.
  unfold record_failed. rewrite bind_run.
  pose proof (rec_error_only_calls env sender e event_id ROOM_MESSAGE
                (Some (c_msgtype message)) s) as H.
  destruct (_rec_error env sender e event_id ROOM_MESSAGE (Some (c_msgtype message)) s)
    as [[[]|e'] s']; cbn in *; auto.
Qed.

(** The [else] of a send: after the success report the portal and the
    store are written to, and nothing is called. *)
Lemma record_sent_run sender message event_id thread_id local_id resp s :
  local_id ∈ local_dedup (self s) ->
  exists s4,
    only_calls quiet s s4
    /\ trace (snd (record_sent env sender message event_id thread_id local_id resp s))
       = trace s4
    /\ match fst (record_sent env sender message event_id thread_id local_id resp s) with
       | Ok o =>
           o = Sent (sr_gcid resp)
           /\ exists room,
                mxid (self s) = Some room
                /\ snd (record_sent env sender message event_id thread_id local_id resp s)
                   = with_self (set_last_bridged_mxid (Some event_id))
                       (with_db (Store.message_insert
                                   (sent_row sender message event_id thread_id resp room
                                      (set_local_dedup (local_dedup (self s) ∖ {[local_id]})
                                         (set_dedup (appendleft (sr_gcid resp)
                                                       (dedup (self s))) (self s)))))
                          (with_self (fun p => set_local_dedup
                                                 (local_dedup p ∖ {[local_id]}) p)
                             (with_self (fun p => set_dedup (appendleft (sr_gcid resp)
                                                               (dedup p)) p) s4)))
       | Raise _ => True
       end.
Proof.
  intros Hpending. unfold record_sent. rewrite bind_run.
  pose proof (rec_success_only_calls env sender event_id ROOM_MESSAGE
                (Some (c_msgtype message)) s) as Hcalls.
  destruct (_rec_success env sender event_id ROOM_MESSAGE (Some (c_msgtype message)) s)
    as [[[]|e'] s4]; cbn [snd] in Hcalls.
  2:{ exists s4. cbn. auto. }
  exists s4. split; [exact Hcalls|].
  destruct Hcalls as (Hself & _).
  rewrite bind_run. cbn [modify_self].
  rewrite bind_run. unfold local_dedup_remove. rewrite bind_run. cbn [get_self].
  cbn [with_self self]. rewrite Hself. cbn [local_dedup set_dedup].
  rewrite bool_decide_eq_true_2 by exact Hpending.
  cbn [modify_self]. rewrite bind_run. unfold room_for_row. rewrite bind_run.
  cbn [get_self with_self self]. rewrite Hself. cbn [mxid set_local_dedup set_dedup].
  destruct (mxid (self s)) as [room|].
  2:{ cbn. auto. }
  cbn [ret]. rewrite bind_run. cbn [get_self]. rewrite bind_run. cbn [modify_db].
  rewrite bind_run. cbn [modify_self ret fst snd].
  split; [reflexivity|]. split; [reflexivity|].
  exists room. split; [reflexivity|].
  cbn [with_self with_db self]. rewrite Hself. reflexivity.
Qed.

Lemma quiet_not_remote c : quiet c = true -> is_remote_call c = false.
Proof.
  unfold quiet. destruct (is_remote_call c); [|reflexivity].
  rewrite andb_false_r. discriminate.
Qed.

(** A delivery whose provisional id is pending resolves the sender
    and returns. *)
Lemma delivery_of_pending_id (source : User) (evt : GcMessage) (s : machine Ext) :
  local_id evt ∈ local_dedup (self s) ->
  handle_googlechat_message env source evt s
  = (match fst (answer env (PuppetGetByGcid (creator_id evt)) (ext s)) with
     | Ok _ => Ok DroppedLocalDedup
     | Raise e => Raise e
     end,
     performed (PuppetGetByGcid (creator_id evt))
       (snd (answer env (PuppetGetByGcid (creator_id evt)) (ext s))) s).
Proof.
  intros Hpending. unfold handle_googlechat_message.
  rewrite bind_run, perform_run.
  destruct (fst (answer env (PuppetGetByGcid (creator_id evt)) (ext s)))
    as [sender|e]; [|reflexivity].
  rewrite bind_run. cbn [get_self performed self].
  rewrite bool_decide_eq_true_2 by exact Hpending. reflexivity.
Qed.

(** What an accepted send leaves. *)
Lemma accepted_send_state (sender : User) (message : Content) (event_id : EventID)
    (s : machine Ext) (id : string) :
  truthy (c_edit message) = false ->
  fst (handle_matrix_message env sender message event_id s) = Ok (Sent id) ->
  exists rnd resp room,
    fst (answer env draw (ext s)) = Ok rnd
    /\ sr_gcid resp = id
    /\ mxid (self s) = Some room
    /\ self (snd (handle_matrix_message env sender message event_id s))
       = set_last_bridged_mxid (Some event_id)
           (set_local_dedup (({[new_local_id rnd]} ∪ local_dedup (self s))
                               ∖ {[new_local_id rnd]})
              (set_dedup (appendleft id (dedup (self s)))
                 (set_send_locks ({[u_gcid sender]} ∪ send_locks (self s)) (self s))))
    /\ db (snd (handle_matrix_message env sender message event_id s))
       = Store.message_insert
           (sent_row sender message event_id (thread_of message (self s) (db s)) resp room
              (self s))
           (db s).
Proof.
  intros Hedit. rewrite (matrix_message_anatomy _ _ _ _ Hedit). cbv zeta.
  destruct (fst (answer env draw (ext s))) as [rnd|e]; [|discriminate].
  set (s1 := performed draw (snd (answer env draw (ext s))) s).
  set (thread_id := thread_of message (self s) (db s)).
  pose proof (send_body_calls sender message thread_id (new_local_id rnd)
                (in_flight sender (new_local_id rnd) s1)) as Hbody.
  destruct (send_body env sender message thread_id (new_local_id rnd)
              (in_flight sender (new_local_id rnd) s1)) as [[resp|e] s3].
  2:{ destruct (record_failed_run sender message event_id e s3) as [_ Hfail].
      intros Hout. rewrite Hout in Hfail. discriminate Hfail. }
  cbn [snd] in Hbody. destruct Hbody as (Hself3 & Hdb3 & _).
  assert (Hpending : new_local_id rnd ∈ local_dedup (self s3)).
  { rewrite Hself3. cbn. apply elem_of_union. left. apply elem_of_singleton. reflexivity. }
  destruct (record_sent_run sender message event_id thread_id (new_local_id rnd) resp s3
              Hpending) as (s4 & (Hself4 & Hdb4 & _) & _ & Hsent).
  intros Hout. rewrite Hout in Hsent.
  destruct Hsent as (Hid & room & Hroom & Hfinal).
  injection Hid as Hid. exists rnd, resp, room.
  split; [reflexivity|]. split; [congruence|].
  split; [rewrite Hself3 in Hroom; exact Hroom|].
  rewrite Hfinal. cbn [with_self with_db self db]. rewrite Hself4, Hdb4, Hself3, Hdb3, <- Hid.
  split; reflexivity.
Qed.

(** Every step of a send, whatever its end: the draw, then the calls
    of the [try] on the portal in flight, then quiet calls. *)
Lemma matrix_message_steps (sender : User) (message : Content) (event_id : EventID)
    (s : machine Ext) :
  truthy (c_edit message) = false ->
  exists later,
    trace (snd (handle_matrix_message env sender message event_id s))
    = trace s ++ step_of draw s :: later
    /\ Forall (fun st =>
         quiet (what st) = true
         \/ exists rnd,
              fst (answer env draw (ext s)) = Ok rnd
              /\ carries (new_local_id rnd) (what st) = true
              /\ (is_TEXT (c_msgtype message) || is_NOTICE (c_msgtype message)
                  || is_media (c_msgtype message) = true)
              /\ seen st
                 = self (in_flight sender (new_local_id rnd) s)) later.
Proof.
  intros Hedit. rewrite (matrix_message_anatomy _ _ _ _ Hedit). cbv zeta.
  destruct (fst (answer env draw (ext s))) as [rnd|e] eqn:Hdraw.
  2:{ exists []. split; [reflexivity | constructor]. }
  set (s1 := performed draw (snd (answer env draw (ext s))) s).
  set (thread_id := thread_of message (self s) (db s)).
  set (s2 := in_flight sender (new_local_id rnd) s1).
  assert (Hbody : only_calls (carries (new_local_id rnd)) s2
                    (snd (send_body env sender message thread_id (new_local_id rnd) s2))
                  /\ (is_TEXT (c_msgtype message) || is_NOTICE (c_msgtype message)
                      || is_media (c_msgtype message) = false ->
                      trace (snd (send_body env sender message thread_id
                                    (new_local_id rnd) s2)) = trace s2)).
  { split; [apply send_body_calls|]. unfold send_body.
    destruct (is_TEXT (c_msgtype message) || is_NOTICE (c_msgtype message));
      [discriminate|].
    destruct (is_media (c_msgtype message)); [discriminate | reflexivity]. }
  destruct Hbody as [Hbody Hnone].
  assert (Hs2 : self s2 = self (in_flight sender (new_local_id rnd) s)) by reflexivity.
  assert (Ht2 : trace s2 = trace s ++ [step_of draw s]) by reflexivity.
  assert (Hpending2 : new_local_id rnd ∈ local_dedup (self s2)).
  { cbn. apply elem_of_union. left. apply elem_of_singleton. reflexivity. }
  clearbody s2.
  assert (Hafter : forall s3 (s' : machine Ext),
             only_calls (carries (new_local_id rnd)) s2 s3 ->
             (is_TEXT (c_msgtype message) || is_NOTICE (c_msgtype message)
              || is_media (c_msgtype message) = false -> trace s3 = trace s2) ->
             (exists s4, only_calls quiet s3 s4 /\ trace s' = trace s4) ->
             exists later,
               trace s' = trace s ++ step_of draw s :: later
               /\ Forall (fun st =>
                    quiet (what st) = true
                    \/ exists rnd0,
                         Ok rnd = Ok rnd0
                         /\ carries (new_local_id rnd0) (what st) = true
                         /\ (is_TEXT (c_msgtype message) || is_NOTICE (c_msgtype message)
                             || is_media (c_msgtype message) = true)
                         /\ seen st = self (in_flight sender (new_local_id rnd0) s)) later).
  { intros s3 s' (Hself3 & _ & new3 & Ht3 & Hsaw3) Hnone3
           (s4 & (_ & _ & new4 & Ht4 & Hsaw4) & Htrace).
    exists (new3 ++ new4). split.
    - rewrite Htrace, Ht4, Ht3, Ht2, <- !app_assoc. reflexivity.
    - apply Forall_app. split.
      + destruct (is_TEXT (c_msgtype message) || is_NOTICE (c_msgtype message)
                  || is_media (c_msgtype message)) eqn:Hkind.
        * eapply Forall_impl; [exact Hsaw3|]. intros st (Hok & Hseen & _).
          right. exists rnd. split; [reflexivity|]. split; [exact Hok|].
          split; [reflexivity|]. rewrite Hseen. exact Hs2.
        * specialize (Hnone3 eq_refl). rewrite Ht3 in Hnone3.
          assert (new3 = []) as ->.
          { apply (app_inv_head (trace s2)). rewrite app_nil_r. exact Hnone3. }
          constructor.
      + eapply Forall_impl; [exact Hsaw4|]. intros st (Hok & _). left. exact Hok. }
  destruct (send_body env sender message thread_id (new_local_id rnd) s2)
    as [[resp|e] s3]; cbn [snd] in Hbody, Hnone.
  - apply (Hafter s3 _ Hbody Hnone).
    assert (Hpending : new_local_id rnd ∈ local_dedup (self s3)).
    { destruct Hbody as (Hself3 & _). rewrite Hself3. exact Hpending2. }
    destruct (record_sent_run sender message event_id thread_id (new_local_id rnd) resp s3
                Hpending) as (s4 & Hcalls & Htrace & _).
    exists s4. split; [exact Hcalls | exact Htrace].
  - apply (Hafter s3 _ Hbody Hnone).
    exists (snd (record_failed env sender message event_id e s3)).
    split; [apply record_failed_run | reflexivity].
Qed.

(** When nothing can be sent, the [try] raises at once. *)
Lemma unsupported_send_run (sender : User) (message : Content) (event_id : EventID)
    (s : machine Ext) :
  truthy (c_edit message) = false ->
  is_TEXT (c_msgtype message) || is_NOTICE (c_msgtype message)
  || is_media (c_msgtype message) = false ->
  match fst (handle_matrix_message env sender message event_id s) with
  | Ok o => o = SendFailed (ValueError ("Unsupported msgtype " +:+ value (c_msgtype message)))
  | Raise _ => True
  end
  /\ db (snd (handle_matrix_message env sender message event_id s)) = db s.
Proof.
  intros Hedit Hkind. rewrite (matrix_message_anatomy _ _ _ _ Hedit). cbv zeta.
  destruct (fst (answer env draw (ext s))) as [rnd|e]; [|split; [exact I | reflexivity]].
  unfold send_body.
  destruct (is_TEXT (c_msgtype message) || is_NOTICE (c_msgtype message));
    [discriminate|].
  destruct (is_media (c_msgtype message)); [discriminate|].
  cbn [raise].
  match goal with
  | |- context [record_failed env sender message event_id ?e ?s0] =>
      destruct (record_failed_run sender message event_id e s0) as ((_ & Hdb & _) & Hout)
  end.
  split; [exact Hout|]. rewrite Hdb. reflexivity.
Qed.

End Outbound.



(** X2: the echo of an accepted send is dropped. After the handler
    returns with the remote id, a remote message with that id whose
    provisional id was not already pending before the send only resolves
    its sender and returns by the dedup-queue exit: no row, no event. *)
Theorem echo_of_accepted_send_is_dropped {Ext : Type} (env : Portal.Env Ext)
    (sender : Portal.User) (message : Portal.Content) (event_id : EventID)
    (s : Portal.machine Ext) (id : string)
    (source : Portal.User) (echo : Portal.GcMessage) :
  truthy (Portal.c_edit message) = false ->
  let run := Portal.handle_matrix_message env sender message event_id s in
  fst run = Portal.Ok (Portal.Sent id) ->
  Portal.message_id echo = id ->
  Portal.local_id echo ∉ Portal.local_dedup (Portal.self s) ->
  let lookup := Portal.PuppetGetByGcid (Portal.creator_id echo) in
  Portal.handle_googlechat_message env source echo (snd run)
  = (match fst (Portal.answer env lookup (Portal.ext (snd run))) with
     | Portal.Ok _ => Portal.Ok Portal.DroppedDedupQueue
     | Portal.Raise e => Portal.Raise e
     end,
     Portal.performed lookup (snd (Portal.answer env lookup (Portal.ext (snd run))))
       (snd run)).
Proof.
  intros Hedit run Hout Hid Hfresh lookup.
  destruct (accepted_send_state env sender message event_id s id Hedit Hout)
    as (rnd & resp & room & _ & _ & _ & Hself & _).
  fold run in Hself. apply delivery_of_known_id.
  - rewrite Hself. cbn. intros Hl. apply Hfresh.
    apply elem_of_difference in Hl as [Hl Hne].
    apply elem_of_union in Hl as [Hl|Hl]; [contradiction | exact Hl].
  - rewrite Hself, Hid. cbn. apply appendleft_head.
Qed.

Lemma echo_of_accepted_send_is_dropped_witness :
  let env := Samples.outside Samples.never in
  let run := Portal.handle_matrix_message env Samples.alice
               (Samples.plain_text "hey") "$out" (Samples.start Samples.dm_portal) in
  fst (Portal.handle_googlechat_message env Samples.alice MoreSamples.echo_of_hey (snd run))
  = Portal.Ok Portal.DroppedDedupQueue.
Proof.
  intros env run.
  assert (Hdrop := echo_of_accepted_send_is_dropped env Samples.alice
             (Samples.plain_text "hey") "$out" (Samples.start Samples.dm_portal)
             "remote-1" Samples.alice MoreSamples.echo_of_hey eq_refl).
  cbv zeta in Hdrop. fold run in Hdrop. rewrite Hdrop.
  - reflexivity.
  - vm_compute. reflexivity.
  - reflexivity.
  - apply not_elem_of_empty.
Defined.

(** X3: whatever the end of [handle_matrix_message] on a message that
    is not an edit, every remote send it makes carries a provisional id
    that is pending in the portal at the moment of the call, and the
    sender's lock exists then. *)
Theorem remote_send_carries_pending_id {Ext : Type} (env : Portal.Env Ext)
    (sender : Portal.User) (message : Portal.Content) (event_id : EventID)
    (s : Portal.machine Ext) :
  truthy (Portal.c_edit message) = false ->
  let run := Portal.handle_matrix_message env sender message event_id s in
  exists new,
    Portal.trace (snd run) = Portal.trace s ++ new
    /\ Forall (fun st =>
         forall user chat body annotations thread_id local_id,
           Portal.what st
           = Portal.RemoteSendMessage user chat body annotations thread_id local_id ->
           local_id ∈ Portal.local_dedup (Portal.seen st)
           /\ Portal.u_gcid sender ∈ Portal.send_locks (Portal.seen st)) new.
Proof.
  intros Hedit run.
  destruct (matrix_message_steps env sender message event_id s Hedit)
    as (later & Htrace & Hsteps).
  exists (Portal.step_of Parts.draw s :: later). split; [exact Htrace|].
  constructor; [intros ? ? ? ? ? ? Hwhat; discriminate Hwhat|].
  eapply Forall_impl; [exact Hsteps|].
  intros st [Hquiet | (rnd & _ & Hcarries & _ & Hseen)] user chat body annotations
         thread_id local_id Hwhat; rewrite Hwhat in *.
  - discriminate Hquiet.
  - cbn in Hcarries. apply String.eqb_eq in Hcarries. subst local_id.
    rewrite Hseen. cbn. split.
    + apply elem_of_union. left. apply elem_of_singleton. reflexivity.
    + apply elem_of_union. left. apply elem_of_singleton. reflexivity.
Qed.

Lemma remote_send_carries_pending_id_witness :
  let run := Portal.handle_matrix_message (Samples.outside Samples.never) Samples.alice
               (Samples.plain_text "hey") "$out" (Samples.start Samples.dm_portal) in
  exists st,
    st ∈ Portal.trace (snd run)
    /\ Portal.what st
       = Portal.RemoteSendMessage Samples.alice "dm:abc" (Some "hey") [] None
           "mautrix-googlechat%7"
    /\ "mautrix-googlechat%7" ∈ Portal.local_dedup (Portal.seen st).
Proof.
  intros run.
  destruct (remote_send_carries_pending_id (Samples.outside Samples.never) Samples.alice
              (Samples.plain_text "hey") "$out" (Samples.start Samples.dm_portal) eq_refl)
    as (new & Htrace & Hsteps).
  fold run in Htrace.
  assert (Hnew : new = Portal.trace (snd run)) by (rewrite Htrace; reflexivity).
  subst new.
  assert (Hthird : exists st, Portal.trace (snd run) !! 3%nat = Some st
                              /\ Portal.what st
                                 = Portal.RemoteSendMessage Samples.alice "dm:abc"
                                     (Some "hey") [] None "mautrix-googlechat%7").
  { vm_compute. eexists. split; reflexivity. }
  destruct Hthird as (st & Hat & Hwhat).
  exists st. split; [eapply list_elem_of_lookup_2; exact Hat|]. split; [exact Hwhat|].
  rewrite Forall_forall in Hsteps.
  apply (Hsteps st (list_elem_of_lookup_2 _ _ _ Hat) _ _ _ _ _ _ Hwhat).
Defined.

(** X4: a message that is neither text, notice nor media (an emote, a
    location) is never sent: no call of the run reaches the remote
    network, the store is left as it was, and the handler returns the
    failure [ValueError "Unsupported msgtype ..."] unless a report
    raises. *)
Theorem unsupported_message_is_not_sent {Ext : Type} (env : Portal.Env Ext)
    (sender : Portal.User) (message : Portal.Content) (event_id : EventID)
    (s : Portal.machine Ext) :
  truthy (Portal.c_edit message) = false ->
  Portal.is_TEXT (Portal.c_msgtype message) = false ->
  Portal.is_NOTICE (Portal.c_msgtype message) = false ->
  Portal.is_media (Portal.c_msgtype message) = false ->
  let run := Portal.handle_matrix_message env sender message event_id s in
  (forall o, fst run = Portal.Ok o ->
             o = Portal.SendFailed
                   (Portal.ValueError
                      ("Unsupported msgtype " +:+ Portal.value (Portal.c_msgtype message))))
  /\ Portal.db (snd run) = Portal.db s
  /\ exists new,
       Portal.trace (snd run) = Portal.trace s ++ new
       /\ Forall (fun st => Portal.is_remote_call (Portal.what st) = false) new.
Proof.
  intros Hedit Htext Hnotice Hmedia run.
  assert (Hkind : Portal.is_TEXT (Portal.c_msgtype message)
                  || Portal.is_NOTICE (Portal.c_msgtype message)
                  || Portal.is_media (Portal.c_msgtype message) = false).
  { rewrite Htext, Hnotice, Hmedia. reflexivity. }
  destruct (unsupported_send_run env sender message event_id s Hedit Hkind) as [Hout Hdb].
  fold run in Hout, Hdb. split.
  { intros o Ho. rewrite Ho in Hout. exact Hout. }
  split; [exact Hdb|].
  destruct (matrix_message_steps env sender message event_id s Hedit)
    as (later & Htrace & Hsteps).
  exists (Portal.step_of Parts.draw s :: later). split; [exact Htrace|].
  constructor; [reflexivity|].
  eapply Forall_impl; [exact Hsteps|].
  intros st [Hquiet | (rnd & _ & _ & Hsome & _)].
  - apply quiet_not_remote, Hquiet.
  - rewrite Hkind in Hsome. discriminate Hsome.
Qed.

Lemma unsupported_message_is_not_sent_witness :
  let emote := {| Portal.c_msgtype := Portal.EMOTE; Portal.c_body := "waves";
                  Portal.c_reply_to := None; Portal.c_edit := None;
                  Portal.c_url := None; Portal.c_file := None; Portal.c_size := 0;
                  Portal.c_mimetype := None |} in
  let run := Portal.handle_matrix_message (Samples.outside Samples.never) Samples.alice
               emote "$wave" (Samples.start Samples.dm_portal) in
  fst run = Portal.Ok (Portal.SendFailed (Portal.ValueError "Unsupported msgtype m.emote"))
  /\ Portal.db (snd run) = Portal.db (Samples.start Samples.dm_portal).
Proof.
  intros emote run.
  destruct (unsupported_message_is_not_sent (Samples.outside Samples.never) Samples.alice
              emote "$wave" (Samples.start Samples.dm_portal)
              eq_refl eq_refl eq_refl eq_refl) as (Hout & Hdb & _).
  fold run in Hout, Hdb. split; [|exact Hdb].
  assert (Hok : exists o, fst run = Portal.Ok o) by (vm_compute; eexists; reflexivity).
  destruct Hok as (o & Ho). rewrite Ho. f_equal. apply Hout, Ho.
Defined.

(** ** Edits from the home network *)
Section OutboundEdits.
Import Portal.
Context {Ext : Type}.
Variable env : Env Ext.
Local Abbreviation only_calls := (@Frame.only_calls Ext).

(** An edit that is dropped before the remote network is asked. *)
Lemma dropped_edit_run (sender : User) (message : Content) (event_id : EventID)
    (s : machine Ext) :
  Store.message_get_by_mxid (c_edit message) (mxid (self s)) (db s) = None
  \/ is_TEXT (c_msgtype message) = false ->
  only_calls quiet s (snd (handle_matrix_edit env sender message event_id s))
  /\ match fst (handle_matrix_edit env sender message event_id s) with
     | Ok o =>
         match Store.message_get_by_mxid (c_edit message) (mxid (self s)) (db s) with
         | None => o = UnknownEditTarget
         | Some _ => o = NonTextEdit
         end
     | Raise _ => True
     end.
Proof.
  intros Hwhy. unfold handle_matrix_edit.
  rewrite bind_run. cbn [get_self]. rewrite bind_run. cbn [get_db].
  destruct (Store.message_get_by_mxid (c_edit message) (mxid (self s)) (db s))
    as [target|].
  - destruct Hwhy as [Hnone|Hkind]; [discriminate Hnone|]. rewrite Hkind. cbn [negb].
    rewrite bind_run.
    pose proof (rec_dropped_only_calls env sender event_id ROOM_MESSAGE "non-text edit"
                  (Some (c_msgtype message)) s) as Hcalls.
    destruct (_rec_dropped env sender event_id ROOM_MESSAGE "non-text edit"
                (Some (c_msgtype message)) s) as [[[]|e] s1]; cbn in *; auto.
  - rewrite bind_run.
    pose proof (rec_dropped_only_calls env sender event_id ROOM_MESSAGE
                  "unknown edit target" (Some (c_msgtype message)) s) as Hcalls.
    destruct (_rec_dropped env sender event_id ROOM_MESSAGE "unknown edit target"
                (Some (c_msgtype message)) s) as [[[]|e] s1]; cbn in *; auto.
Qed.

(** What an accepted edit leaves: the time the remote network
    answered, under the id of the edited message. *)
Lemma accepted_edit_state (sender : User) (message : Content) (event_id : EventID)
    (s : machine Ext) (id : string) :
  fst (handle_matrix_edit env sender message event_id s) = Ok (Sent id) ->
  exists target formatted x t,
    Store.message_get_by_mxid (c_edit message) (mxid (self s)) (db s) = Some target
    /\ Store.gcid target = id
    /\ fst (answer env (RemoteEditMessage sender (Store.gc_chat target)
                          (Store.gc_parent_id target) id
                          (fst formatted) (snd formatted)) x) = Ok t
    /\ self (snd (handle_matrix_edit env sender message event_id s))
       = set_edit_dedup (<[id := t]> (edit_dedup (self s)))
           (set_send_locks ({[u_gcid sender]} ∪ send_locks (self s)) (self s))
    /\ db (snd (handle_matrix_edit env sender message event_id s)) = db s.
Proof.
  unfold handle_matrix_edit.
  rewrite bind_run. cbn [get_self]. rewrite bind_run. cbn [get_db].
  destruct (Store.message_get_by_mxid (c_edit message) (mxid (self s)) (db s))
    as [target|].
  2:{ rewrite bind_run.
      destruct (_rec_dropped env sender event_id ROOM_MESSAGE "unknown edit target"
                  (Some (c_msgtype message)) s) as [[[]|e] s1]; cbn; discriminate. }
  destruct (negb (is_TEXT (c_msgtype message))).
  { rewrite bind_run.
    destruct (_rec_dropped env sender event_id ROOM_MESSAGE "non-text edit"
                (Some (c_msgtype message)) s) as [[[]|e] s1]; cbn; discriminate. }
  rewrite bind_run, perform_run.
  destruct (fst (answer env (FmtMatrixToGooglechat message) (ext s))) as [formatted|e];
    [|cbn; discriminate].
  set (s1 := performed (FmtMatrixToGooglechat message)
               (snd (answer env (FmtMatrixToGooglechat message) (ext s))) s).
  unfold try_else. rewrite bind_run. unfold require_send_lock. cbn [modify_self].
  rewrite bind_run, perform_run.
  set (s2 := with_self _ s1).
  set (edit := RemoteEditMessage sender (Store.gc_chat target) (Store.gc_parent_id target)
                 (Store.gcid target) (fst formatted) (snd formatted)).
  destruct (fst (answer env edit (ext s2))) as [t|e] eqn:Hanswer.
  2:{ rewrite bind_run.
      destruct (_rec_error env sender e event_id ROOM_MESSAGE (Some (c_msgtype message))
                  (performed edit (snd (answer env edit (ext s2))) s2))
        as [[[]|e'] s3]; cbn; discriminate. }
  cbn [modify_self]. rewrite bind_run.
  match goal with
  | |- context [_rec_success env sender event_id ROOM_MESSAGE ?mt ?s0] =>
      pose proof (rec_success_only_calls env sender event_id ROOM_MESSAGE mt s0)
        as (Hself & Hdb & _);
      destruct (_rec_success env sender event_id ROOM_MESSAGE mt s0) as [[[]|e'] s4]
  end; [|cbn; discriminate].
  cbn [ret fst snd] in *. intros Hid. injection Hid as Hid.
  exists target, formatted, (ext s2), t.
  split; [reflexivity|]. split; [exact Hid|].
  split; [rewrite <- Hid; exact Hanswer|].
  rewrite Hself, Hdb, <- Hid. split; reflexivity.
Qed.

End OutboundEdits.

(** X5: an edit from the home network whose target is not a bridged
    message of the room, or whose type is not text, is dropped: the
    portal and the store stay as they are, no call reaches the remote
    network and no message is sent to the room; the exit is the one of
    the first failing test, the target first. *)
Theorem dropped_edit_changes_nothing {Ext : Type} (env : Portal.Env Ext)
    (sender : Portal.User) (message : Portal.Content) (event_id : EventID)
    (s : Portal.machine Ext) :
  truthy (Portal.c_edit message) = true ->
  Store.message_get_by_mxid (Portal.c_edit message) (Portal.mxid (Portal.self s))
    (Portal.db s) = None
  \/ Portal.is_TEXT (Portal.c_msgtype message) = false ->
  let run := Portal.handle_matrix_message env sender message event_id s in
  Portal.self (snd run) = Portal.self s
  /\ Portal.db (snd run) = Portal.db s
  /\ (exists new,
        Portal.trace (snd run) = Portal.trace s ++ new
        /\ Forall (fun st => Portal.is_remote_call (Portal.what st) = false
                             /\ Portal.is_send_message (Portal.what st) = false) new)
  /\ (forall o, fst run = Portal.Ok o ->
        o = match Store.message_get_by_mxid (Portal.c_edit message)
                    (Portal.mxid (Portal.self s)) (Portal.db s) with
            | None => Portal.UnknownEditTarget
            | Some _ => Portal.NonTextEdit
            end).
Proof.
  intros Hedit Hwhy run. subst run. unfold Portal.handle_matrix_message. rewrite Hedit.
  destruct (dropped_edit_run env sender message event_id s Hwhy)
    as ((Hself & Hdb & new & Htrace & Hsteps) & Hout).
  split; [exact Hself|]. split; [exact Hdb|]. split.
  - exists new. split; [exact Htrace|].
    eapply Forall_impl; [exact Hsteps|]. intros st (Hquiet & _).
    split; [apply quiet_not_remote, Hquiet | apply quiet_not_send, Hquiet].
  - intros o Ho. rewrite Ho in Hout.
    destruct (Store.message_get_by_mxid (Portal.c_edit message)
                (Portal.mxid (Portal.self s)) (Portal.db s)); exact Hout.
Qed.

Lemma dropped_edit_changes_nothing_witness :
  let run := Portal.handle_matrix_message (Samples.outside Samples.never) Samples.alice
               (Portal.set_edit "$nowhere" (Samples.plain_text "fixed")) "$edit"
               (Samples.start Samples.dm_portal) in
  fst run = Portal.Ok Portal.UnknownEditTarget
  /\ Portal.self (snd run) = Samples.dm_portal.
Proof.
  intros run.
  destruct (dropped_edit_changes_nothing (Samples.outside Samples.never) Samples.alice
              (Portal.set_edit "$nowhere" (Samples.plain_text "fixed")) "$edit"
              (Samples.start Samples.dm_portal) eq_refl (or_introl eq_refl))
    as (Hself & _ & _ & Hout).
  fold run in Hself, Hout. split; [|exact Hself].
  assert (Hok : exists o, fst run = Portal.Ok o) by (vm_compute; eexists; reflexivity).
  destruct Hok as (o & Ho). rewrite Ho. f_equal. apply (Hout o Ho).
Defined.

(** X6: an edit from the home network that the remote network
    accepts writes no row; it records, under the id of the edited
    message, the edit time the remote network answered. The echo of the
    edit, and any remote edit of that message that is not newer, is then
    dropped without an event. *)
Theorem echo_of_accepted_edit_is_dropped {Ext : Type} (env : Portal.Env Ext)
    (sender : Portal.User) (message : Portal.Content) (event_id : EventID)
    (s : Portal.machine Ext) (id : string) :
  truthy (Portal.c_edit message) = true ->
  let run := Portal.handle_matrix_message env sender message event_id s in
  fst run = Portal.Ok (Portal.Sent id) ->
  Portal.db (snd run) = Portal.db s
  /\ Portal.dedup (Portal.self (snd run)) = Portal.dedup (Portal.self s)
  /\ exists target formatted x t,
       Store.message_get_by_mxid (Portal.c_edit message) (Portal.mxid (Portal.self s))
         (Portal.db s) = Some target
       /\ Store.gcid target = id
       /\ fst (Portal.answer env
                 (Portal.RemoteEditMessage sender (Store.gc_chat target)
                    (Store.gc_parent_id target) id (fst formatted) (snd formatted)) x)
          = Portal.Ok t
       /\ Portal.edit_dedup (Portal.self (snd run)) !! id = Some t
       /\ forall source echo,
            Portal.message_id echo = id -> Portal.edit_time echo <= t ->
            let again := Portal.handle_googlechat_edit env source echo (snd run) in
            (forall e, fst again <> Portal.Ok (Portal.EditBridged e))
            /\ Portal.self (snd again) = Portal.self (snd run)
            /\ Portal.db (snd again) = Portal.db s.
Proof.
  intros Hedit run Hout. subst run.
  unfold Portal.handle_matrix_message in *. rewrite Hedit in *.
  destruct (accepted_edit_state env sender message event_id s id Hout)
    as (target & formatted & x & t & Htarget & Hid & Hanswer & Hself & Hdb).
  split; [exact Hdb|]. split; [rewrite Hself; reflexivity|].
  exists target, formatted, x, t.
  split; [exact Htarget|]. split; [exact Hid|]. split; [exact Hanswer|].
  assert (Hrecorded : Portal.edit_dedup
                        (Portal.self (snd (Portal.handle_matrix_edit env sender message
                                             event_id s))) !! id = Some t).
  { rewrite Hself. cbn. apply lookup_insert_eq. }
  split; [exact Hrecorded|].
  intros source echo Hsame Hold. cbv zeta.
  rewrite <- Hsame in Hrecorded.
  destruct (stale_edit_run env source echo _ t Hrecorded Hold)
    as (Hnone & Hself' & Hdb' & _).
  split; [exact Hnone|]. split; [exact Hself'|]. rewrite Hdb'. exact Hdb.
Qed.

Lemma echo_of_accepted_edit_is_dropped_witness :
  let env := Samples.outside Samples.never in
  let run := Portal.handle_matrix_message env Samples.alice
               (Portal.set_edit "$hello" (Samples.plain_text "fixed")) "$edit"
               (Samples.start Samples.dm_portal) in
  Portal.edit_dedup (Portal.self (snd run)) !! "msg-1" = Some 1700000001000000
  /\ fst (Portal.handle_googlechat_edit env Samples.alice
            (Samples.edit_at 1700000001000000 "fixed") (snd run))
     = Portal.Ok Portal.EditDuplicate.
Proof.
  intros env run.
  destruct (echo_of_accepted_edit_is_dropped env Samples.alice
              (Portal.set_edit "$hello" (Samples.plain_text "fixed")) "$edit"
              (Samples.start Samples.dm_portal) "msg-1" eq_refl)
    as (_ & _ & target & formatted & x & t & _ & _ & _ & Hrecorded & _).
  - vm_compute. reflexivity.
  - fold run in Hrecorded. split; [|vm_compute; reflexivity].
    assert (Ht : Portal.edit_dedup (Portal.self (snd run)) !! "msg-1"
                 = Some 1700000001000000) by (vm_compute; reflexivity).
    exact Ht.
Defined.

(** ** Rooms *)
Section Rooms.
Import Portal Post.
Context {Ext : Type}.
Variable env : Env Ext.

Lemma ensures_bind {A B} (Q : B -> machine Ext -> Prop) (m : @M Ext A)
    (k : A -> @M Ext B) :
  (forall a, ensures Q (k a)) -> ensures Q (bind m k).
Proof.
  intros Hk s. unfold bind. destruct (m s) as [[a|e] s1]; [apply Hk | exact I].
Qed.

Lemma ensures_last {B} (Q : B -> machine Ext -> Prop) (f : portal -> B) :
  (forall s, Q (f (self s)) s) -> ensures Q (bind get_self (fun p => ret (f p))).
Proof. intros H s. apply H. Qed.

Lemma ensures_raise {A} (Q : A -> machine Ext -> Prop) e : ensures Q (raise e).
Proof. intros s. exact I. Qed.

Lemma ensures_try_except {A} (Q : A -> machine Ext -> Prop) (m : @M Ext A) h :
  ensures Q m -> (forall e k, h e = Some k -> ensures Q k) ->
  ensures Q (try_except m h).
Proof.
  intros Hm Hh s. unfold try_except. specialize (Hm s).
  destruct (m s) as [[a|e] s1]; [exact Hm|].
  destruct (h e) as [k|] eqn:He; [apply (Hh e k He) | exact I].
Qed.

Lemma ensures_try_else {A B} (Q : B -> machine Ext -> Prop) (m : @M Ext A) h k :
  (forall e, ensures Q (h e)) -> (forall a, ensures Q (k a)) ->
  ensures Q (try_else m h k).
Proof.
  intros Hh Hk s. unfold try_else. destruct (m s) as [[a|e] s1]; [apply Hk | apply Hh].
Qed.

Lemma ensures_weaken {A} (Q Q' : A -> machine Ext -> Prop) (m : @M Ext A) :
  (forall a s, Q a s -> Q' a s) -> ensures Q m -> ensures Q' m.
Proof.
  intros Himp Hm s. specialize (Hm s). destruct (m s) as [[a|e] s1]; [apply Himp, Hm | exact I].
Qed.

(** A [try] whose [except Exception] returns does not raise. *)
Lemma try_except_returns {A} (m : @M Ext A) (a0 : A) :
  returns (try_except m (fun _ => Some (ret a0))).
Proof.
  intros s. unfold try_except. destruct (m s) as [[a|e] s1]; cbn; eauto.
Qed.





Lemma keeps_mxid_finish source new_room (s : machine Ext) :
  keeps_mxid s (snd (finish_room_creation env source new_room s)).
Proof.
  apply (pres_finish_room_creation env keeps_mxid any_call).
  - intros s0. reflexivity.
  - intros a b c Hab Hbc. unfold keeps_mxid in *. congruence.
  - intros c x s0 _. reflexivity.
  - intros c _ _ _. reflexivity.
  - intros i s0. reflexivity.
  - intros row s0. reflexivity.
  - intros f s0. reflexivity.
Qed.

(** What [_create_matrix_room] returns is the room of the portal. *)
Lemma create_inner_returns_room source :
  ensures (fun r s' => r = mxid (self s')) (_create_matrix_room env source).
Proof.
  unfold _create_matrix_room, finish_room_creation.
  repeat first
    [ apply ensures_last; intros s; reflexivity
    | apply ensures_raise
    | apply ensures_bind; intros ?
    | match goal with
      | |- ensures _ (if ?b then _ else _) => destruct b
      | |- ensures _ (match ?x with _ => _ end) => destruct x
      end ].
Qed.

Lemma create_returns_room source :
  ensures (fun r s' => r = None \/ r = mxid (self s')) (create_matrix_room env source).
Proof.
  unfold create_matrix_room. apply ensures_bind. intros p.
  destruct (truthy (mxid p)).
  - apply ensures_bind. intros _. apply ensures_last. intros s. right. reflexivity.
  - apply ensures_try_except.
    + eapply ensures_weaken; [|apply create_inner_returns_room].
      intros r s Hr. right. exact Hr.
    + intros e k Hk. injection Hk as <-. intros s. cbn. left. reflexivity.
Qed.

Lemma create_matrix_room_returns source : returns (create_matrix_room env source).
Proof.
  intros s. unfold create_matrix_room. rewrite bind_run. cbn [get_self].
  destruct (truthy (mxid (self s))).
  - rewrite bind_run.
    destruct (try_except_returns (_update_matrix_room env source) tt s) as ([] & Hok).
    fold (update_matrix_room env source) in Hok.
    destruct (update_matrix_room env source s) as [[[]|e] s1]; [|discriminate Hok].
    cbn. eauto.
  - apply try_except_returns.
Qed.

End Rooms.



(** X8: [create_matrix_room] never raises: every exception of the
    creation or of the update is caught. It returns nothing, or the
    room the portal has when it returns. *)
Theorem create_matrix_room_never_raises {Ext : Type} (env : Portal.Env Ext)
    (source : Portal.User) (s : Portal.machine Ext) :
  exists room,
    fst (Portal.create_matrix_room env source s) = Portal.Ok room
    /\ (room = None
        \/ room = Portal.mxid (Portal.self (snd (Portal.create_matrix_room env source s)))).
Proof.
  destruct (create_matrix_room_returns env source s) as (room & Hok).
  exists room. split; [exact Hok|].
  pose proof (create_returns_room env source s) as Hroom.
  destruct (Portal.create_matrix_room env source s) as [[r|e] s1]; [|discriminate Hok].
  cbn in *. injection Hok as <-. exact Hroom.
Qed.

(** ** Messages from the remote network *)
Section Inbound.
Import Portal Post Parts.
Context {Ext : Type}.
Variable env : Env Ext.
Local Abbreviation keeps_rows := (@Frame.keeps_rows Ext).
Local Abbreviation only_calls := (@Frame.only_calls Ext).

Lemma follows_bind {A B} (R : machine Ext -> machine Ext -> Prop)
    (Q : machine Ext -> B -> machine Ext -> Prop) (m : @M Ext A) (k : A -> @M Ext B) :
  (forall a b c, R a b -> R b c -> R a c) ->
  Frame.preserves R m -> (forall a, follows R Q (k a)) -> follows R Q (bind m k).
Proof.
  intros Htrans Hm Hk s0 s H0. unfold bind. specialize (Hm s).
  destruct (m s) as [[a|e] s1]; [|exact I].
  apply Hk. eapply Htrans; [exact H0 | exact Hm].
Qed.

Lemma follows_ret {A} (R : machine Ext -> machine Ext -> Prop)
    (Q : machine Ext -> A -> machine Ext -> Prop) (a : A) :
  (forall s0 s, R s0 s -> Q s0 a s) -> follows R Q (ret a).
Proof. intros H s0 s H0. apply H, H0. Qed.

Lemma keeps_rows_refl (s : machine Ext) : keeps_rows s s.
Proof. split; reflexivity. Qed.

Lemma keeps_rows_trans (a b c : machine Ext) :
  keeps_rows a b -> keeps_rows b c -> keeps_rows a c.
Proof. intros [H1 H2] [H3 H4]. split; congruence. Qed.

Lemma keeps_rows_perform c x (s : machine Ext) :
  any_call c = true -> keeps_rows s (performed c x s).
Proof. intros _. split; reflexivity. Qed.

(** The rows of a delivery, one after the other. *)
Lemma insert_messages_run sender msg_id parent_id timestamp ids :
  forall index (s : machine Ext),
    match insert_messages sender msg_id parent_id timestamp index ids s with
    | (Ok _, s') =>
        self s' = self s /\ trace s' = trace s
        /\ Store.reactions (db s') = Store.reactions (db s)
        /\ (ids <> [] -> exists room, mxid (self s) = Some room)
        /\ forall room, mxid (self s) = Some room ->
             Store.messages (db s')
             = Store.messages (db s)
                 ++ imap (fun i ev => row_at sender msg_id parent_id timestamp room (self s)
                                        (index + Z.of_nat i) ev) ids
    | (Raise _, _) => True
    end.
Proof.
  induction ids as [|[event_id msgtype] rest IH]; intros index s.
  - cbn. split; [reflexivity|]. split; [reflexivity|]. split; [reflexivity|].
    split; [intros H; contradiction|]. intros room _. rewrite app_nil_r. reflexivity.
  - cbn [insert_messages]. rewrite bind_run. unfold room_for_row.
    rewrite bind_run. cbn [get_self].
    destruct (mxid (self s)) as [room|] eqn:Hroom; [|exact I].
    cbn [ret]. rewrite bind_run. cbn [get_self]. rewrite bind_run. cbn [modify_db].
    match goal with
    | |- context [insert_messages _ _ _ _ _ rest ?s1] =>
        specialize (IH (index + 1) s1);
        destruct (insert_messages sender msg_id parent_id timestamp (index + 1) rest s1)
          as [[[]|e] s'];
        [|exact I]
    end.
    destruct IH as (Hself & Htrace & Hreact & _ & Hrows).
    cbn [with_db self trace db] in *.
    split; [exact Hself|]. split; [exact Htrace|]. split; [exact Hreact|].
    split; [intros _; exists room; reflexivity|].
    intros room' Hroom'. injection Hroom' as <-.
    rewrite (Hrows room Hroom). cbn [Store.message_insert Store.with_messages Store.messages].
    rewrite <- app_assoc. f_equal. rewrite imap_cons. cbn [app]. f_equal.
    + unfold row_at. cbn [fst snd]. rewrite Z.add_0_r. reflexivity.
    + apply imap_ext. intros i ev _. cbn. f_equal. lia.
Qed.

(** A delivery that nothing stops adds the rows of its events to
    the store, and no other row. *)
Lemma bridge_rows source sender evt :
  follows keeps_rows
    (fun s0 o s' =>
       forall ids, o = Bridged ids ->
         ids <> []
         /\ Store.reactions (db s') = Store.reactions (db s0)
         /\ exists room,
              mxid (self s') = Some room
              /\ Store.messages (db s')
                 = Store.messages (db s0)
                     ++ imap (fun i ev =>
                                row_at sender (message_id evt) (parent_topic_id evt)
                                  (create_time evt / 1000) room (self s') (Z.of_nat i) ev)
                          ids)
    (bridge_googlechat_message env source sender evt).
Proof.
  assert (Hother : forall c : call,
             is_create_room c = false -> is_send_message c = false ->
             is_remote_call c = false -> any_call c = true) by reflexivity.
  assert (Hsame : forall (f : portal -> portal) (s : machine Ext),
             keeps_rows s (with_self f s)) by (intros; split; reflexivity).
  unfold bridge_googlechat_message.
  apply follows_bind; [exact keeps_rows_trans | apply (pres_get_self _ keeps_rows_refl) |].
  intros p. apply follows_bind; [exact keeps_rows_trans | |].
  { destruct (negb (truthy (mxid p))); [|apply (pres_ret _ keeps_rows_refl)].
    apply (pres_bind _ keeps_rows_trans); [|intros ?; apply (pres_ret _ keeps_rows_refl)].
    apply (pres_create_matrix_room env keeps_rows any_call keeps_rows_refl keeps_rows_trans
             keeps_rows_perform Hother); try (intros; apply Hsame); try reflexivity.
    - intros row s. split; reflexivity.
    - intros f s. split; reflexivity. }
  intros created. destruct (negb created).
  { apply follows_ret. intros s0 s _ ids Hids. discriminate Hids. }
  apply follows_bind; [exact keeps_rows_trans | |].
  { apply (pres_bridge_own_message_pm env keeps_rows any_call keeps_rows_refl
             keeps_rows_trans keeps_rows_perform Hother). }
  intros own. destruct (negb own).
  { apply follows_ret. intros s0 s _ ids Hids. discriminate Hids. }
  apply follows_bind; [exact keeps_rows_trans | |].
  { apply (pres_perform env keeps_rows any_call keeps_rows_perform). reflexivity. }
  intros intent.
  apply follows_bind; [exact keeps_rows_trans | apply (pres_get_self _ keeps_rows_refl) |].
  intros p'.
  apply follows_bind; [exact keeps_rows_trans | apply (pres_get_db _ keeps_rows_refl) |].
  intros d.
  apply follows_bind; [exact keeps_rows_trans | |].
  { destruct (nonempty (text_body evt)); [|apply (pres_ret _ keeps_rows_refl)].
    apply (pres_bind _ keeps_rows_trans);
      [apply (pres_perform env keeps_rows any_call keeps_rows_perform); reflexivity|].
    intros c. apply (pres_bind _ keeps_rows_trans);
      [apply (pres_perform env keeps_rows any_call keeps_rows_perform); reflexivity|].
    intros e. apply (pres_ret _ keeps_rows_refl). }
  intros text_events.
  apply follows_bind; [exact keeps_rows_trans | |].
  { apply (pres_process_googlechat_attachments env keeps_rows any_call keeps_rows_refl
             keeps_rows_trans keeps_rows_perform Hother); reflexivity. }
  intros [|ev event_ids].
  { apply follows_ret. intros s0 s _ ids Hids. discriminate Hids. }
  intros s0 s [Hmsgs Hreacts]. rewrite bind_run.
  pose proof (insert_messages_run sender (message_id evt) (parent_topic_id evt)
                (create_time evt / 1000) (ev :: event_ids) 0 s) as Hins.
  destruct (insert_messages sender (message_id evt) (parent_topic_id evt)
              (create_time evt / 1000) 0 (ev :: event_ids) s) as [[[]|e] s1]; [|exact I].
  destruct Hins as (Hself & _ & Hreact1 & Hroom & Hrows).
  destruct (Hroom ltac:(discriminate)) as (room & Hmxid).
  rewrite bind_run.
  match goal with
  | |- context [_send_delivery_receipt env ?e ?s0] =>
      pose proof (delivery_receipt_only_calls env e s0) as (Hself2 & Hdb2 & _);
      destruct (_send_delivery_receipt env e s0) as [[[]|e'] s2]; [|exact I]
  end.
  cbn [ret snd] in *. intros ids Hids. injection Hids as <-.
  split; [discriminate|]. rewrite Hdb2, Hself2, Hself.
  split; [congruence|]. exists room. split; [exact Hmxid|].
  rewrite (Hrows room Hmxid), Hmsgs. reflexivity.
Qed.

End Inbound.

(** X9: the rows of a delivered message. When
    [handle_googlechat_message] bridges a remote message into the events
    [ids], there is at least one event, the portal has a room, and the
    store gained exactly one message row per event, in order, numbered
    from 0: each with the event's id and type, the room, the remote
    message id, the portal's conversation and receiver, the thread, the
    creation time in milliseconds and the resolved sender. No other
    message row and no reaction row changed. *)
Theorem delivered_message_rows {Ext : Type} (env : Portal.Env Ext)
    (source : Portal.User) (evt : Portal.GcMessage) (s : Portal.machine Ext)
    (ids : list (EventID * Portal.MessageType)) :
  let run := Portal.handle_googlechat_message env source evt s in
  fst run = Portal.Ok (Portal.Bridged ids) ->
  ids <> []
  /\ Store.reactions (Portal.db (snd run)) = Store.reactions (Portal.db s)
  /\ exists sender room,
       fst (Portal.answer env (Portal.PuppetGetByGcid (Portal.creator_id evt))
              (Portal.ext s)) = Portal.Ok sender
       /\ Portal.mxid (Portal.self (snd run)) = Some room
       /\ Store.messages (Portal.db (snd run))
          = Store.messages (Portal.db s)
              ++ imap (fun i ev =>
                         {| Store.mxid := fst ev; Store.mx_room := room;
                            Store.gcid := Portal.message_id evt;
                            Store.gc_chat := Portal.gcid (Portal.self (snd run));
                            Store.gc_receiver := Portal.gc_receiver (Portal.self (snd run));
                            Store.gc_parent_id := Some (Portal.parent_topic_id evt);
                            Store.index := Z.of_nat i;
                            Store.timestamp := Portal.create_time evt / 1000;
                            Store.msgtype := Portal.value (snd ev);
                            Store.gc_sender := Portal.pu_gcid sender |}) ids.
Proof.
  intros run. subst run. unfold Portal.handle_googlechat_message.
  rewrite bind_run, perform_run.
  set (lookup := Portal.PuppetGetByGcid (Portal.creator_id evt)).
  destruct (fst (Portal.answer env lookup (Portal.ext s))) as [sender|e];
    [|cbn; discriminate].
  set (s1 := Portal.performed lookup (snd (Portal.answer env lookup (Portal.ext s))) s).
  rewrite bind_run. cbn [Portal.get_self].
  destruct (bool_decide (Portal.local_id evt ∈ Portal.local_dedup (Portal.self s1)));
    [cbn; discriminate|].
  destruct (bool_decide (Portal.message_id evt ∈ Portal.dedup (Portal.self s1)));
    [cbn; discriminate|].
  rewrite bind_run. cbn [Portal.modify_self].
  match goal with
  | |- context [Portal.bridge_googlechat_message env source sender evt ?s2] =>
      pose proof (bridge_rows env source sender evt s s2
                    ltac:(split; reflexivity)) as Hrows;
      destruct (Portal.bridge_googlechat_message env source sender evt s2) as [[o|e] s3]
  end; [|cbn; discriminate].
  cbn [fst snd]. intros Hout. injection Hout as ->.
  destruct (Hrows ids eq_refl) as (Hne & Hreact & room & Hroom & Hmsgs).
  split; [exact Hne|]. split; [exact Hreact|].
  exists sender, room. split; [reflexivity|]. split; [exact Hroom | exact Hmsgs].
Qed.

Lemma delivered_message_rows_witness :
  let run := Portal.handle_googlechat_message (Samples.outside Samples.never) Samples.alice
               Samples.greeting (Samples.start Samples.dm_portal_no_room) in
  Portal.mxid (Portal.self (snd run)) = Some "!created:example.org"
  /\ length (Store.messages (Portal.db (snd run))) = 3%nat.
Proof.
  intros run.
  destruct (delivered_message_rows (Samples.outside Samples.never) Samples.alice
              Samples.greeting (Samples.start Samples.dm_portal_no_room)
              [("$hi@1700000002000", Portal.TEXT)])
    as (_ & _ & sender & room & _ & Hroom & Hmsgs).
  - vm_compute. reflexivity.
  - fold run in Hroom, Hmsgs. split.
    + assert (Hcreated : Portal.mxid (Portal.self (snd run)) = Some "!created:example.org")
        by (vm_compute; reflexivity).
      exact Hcreated.
    + rewrite Hmsgs. reflexivity.
Defined.

(** ** Attachments *)
Section Attachments.
Import Portal Post.
Context {Ext : Type}.
Variable env : Env Ext.

Lemma ensures_ret {A} (Q : A -> machine Ext -> Prop) (a : A) :
  (forall s, Q a s) -> ensures Q (ret a).
Proof. intros H s. apply H. Qed.

(** What one attachment yields is never a text event. *)
Lemma process_attachment_type source u intent reply_to timestamp :
  ensures (fun yielded _ => forall ev, yielded = Some ev -> is_TEXT (snd ev) = false)
    (process_attachment env source u intent reply_to timestamp).
Proof.
  unfold process_attachment. cbv zeta.
  apply ensures_bind. intros [d|]; [|apply ensures_ret; intros s ev H; discriminate H].
  apply ensures_bind. intros filename.
  apply ensures_bind. intros p.
  apply ensures_bind. intros [[data decryption_info] upload_mime].
  apply ensures_bind. intros mxc_url.
  apply ensures_bind. intros event_id.
  apply ensures_ret. intros s ev Hev. injection Hev as <-. cbn [snd].
  destruct (is_TEXT (of_name (upper (hd "" (split "/" (Download.mime d)))))) eqn:Htext;
    [reflexivity | exact Htext].
Qed.

(** The loop over the attachments returns what it was given, followed
    by at most one event per attachment. *)
Lemma attachments_run source intent reply_to timestamp urls :
  forall acc (s : machine Ext),
  exists ids,
    fst (process_googlechat_attachments env source urls intent reply_to timestamp acc s)
    = Ok (acc ++ ids)
    /\ (length ids <= length urls)%nat
    /\ Forall (fun ev => is_TEXT (snd ev) = false) ids.
Proof.
  induction urls as [|u rest IH]; intros acc s.
  - exists []. cbn. rewrite app_nil_r. split; [reflexivity|]. split; [lia | constructor].
  - cbn [process_googlechat_attachments]. unfold try_else.
    pose proof (process_attachment_type source u intent reply_to timestamp s) as Htype.
    destruct (process_attachment env source u intent reply_to timestamp s)
      as [[yielded|e] s1].
    + destruct yielded as [ev|].
      * destruct (IH (acc ++ [ev]) s1) as (ids & Hrun & Hlen & Htypes).
        exists (ev :: ids). rewrite Hrun, <- app_assoc. split; [reflexivity|].
        split; [cbn; lia|]. constructor; [apply (Htype ev eq_refl) | exact Htypes].
      * destruct (IH acc s1) as (ids & Hrun & Hlen & Htypes).
        exists ids. split; [exact Hrun|]. split; [cbn; lia | exact Htypes].
    + exists []. cbn. rewrite app_nil_r. split; [reflexivity|]. split; [lia | constructor].
Qed.

End Attachments.

(** X10: bridging the attachments of a remote message never raises
    and never loses an event: the result is the list of events it was
    given (the text event, if any) followed by at most one event per
    attachment, and none of the attachment events is of type text. *)
Theorem attachments_keep_earlier_events {Ext : Type} (env : Portal.Env Ext)
    (source : Portal.User) (urls : list Portal.URL) (intent : UserID)
    (reply_to : option Store.Message) (timestamp : Z)
    (event_ids : list (EventID * Portal.MessageType)) (s : Portal.machine Ext) :
  exists more,
    fst (Portal.process_googlechat_attachments env source urls intent reply_to
           timestamp event_ids s) = Portal.Ok (event_ids ++ more)
    /\ (length more <= length urls)%nat
    /\ Forall (fun ev => snd ev <> Portal.TEXT) more.
Proof.
  destruct (attachments_run env source intent reply_to timestamp urls event_ids s)
    as (more & Hrun & Hlen & Htypes).
  exists more. split; [exact Hrun|]. split; [exact Hlen|].
  eapply Forall_impl; [exact Htypes|]. intros [event_id msgtype] Hev Heq.
  cbn [snd] in Hev, Heq. subst msgtype. discriminate Hev.
Qed.

(** ** Strings *)
Section Strings.
Import Chars.
Local Arguments append s1%_string s2%_string : simpl nomatch.

Lemma rstrip_snoc (chars : list N) (s : text) (c : N) :
  c ∈ chars -> rstrip chars (s ++ [c]) = rstrip chars s.
Proof.
  intros Hc. induction s as [|x r IH]; cbn.
  - rewrite bool_decide_eq_true_2 by exact Hc. reflexivity.
  - rewrite IH. reflexivity.
Qed.

Lemma rstrip_replicate (chars : list N) (s : text) (c : N) (n : nat) :
  c ∈ chars -> rstrip chars (s ++ replicate n c) = rstrip chars s.
Proof.
  intros Hc. induction n as [|n IH]; cbn [replicate].
  - rewrite app_nil_r. reflexivity.
  - replace (s ++ c :: replicate n c) with ((s ++ replicate n c) ++ [c]).
    + rewrite rstrip_snoc by exact Hc. exact IH.
    + rewrite <- app_assoc. f_equal.
      change (c :: replicate n c) with (replicate (S n) c).
      rewrite <- replicate_S_end. reflexivity.
Qed.

Lemma append_assoc (a b c : string) : (a +:+ b) +:+ c = a +:+ (b +:+ c).
Proof. induction a as [|x a IH]; cbn; [reflexivity | rewrite IH; reflexivity]. Qed.

Lemma append_empty_r (a : string) : a +:+ "" = a.
Proof. induction a as [|x a IH]; cbn; [reflexivity | rewrite IH; reflexivity]. Qed.

Lemma occurs_append (c : ascii) (a b : string) :
  occurs c (a +:+ b) = occurs c a || occurs c b.
Proof.
  induction a as [|x a IH]; cbn; [reflexivity|]. rewrite IH, orb_assoc. reflexivity.
Qed.

(** Splitting cuts at every separator and nowhere else. *)
Lemma split_from_spec (sep : ascii) (s : string) :
  forall acc, occurs sep acc = false ->
    join sep (split_from sep acc s) = acc +:+ s
    /\ Forall (fun part => occurs sep part = false) (split_from sep acc s)
    /\ split_from sep acc s <> [].
Proof.
  induction s as [|c r IH]; intros acc Hacc; cbn [split_from].
  - cbn. rewrite append_empty_r. split; [reflexivity|]. split; [|discriminate].
    constructor; [exact Hacc | constructor].
  - destruct (Ascii.eqb c sep) eqn:Hc.
    + apply Ascii.eqb_eq in Hc. subst c.
      destruct (IH "" eq_refl) as (Hjoin & Hparts & Hne).
      split; [|split; [constructor; assumption | discriminate]].
      cbn [join]. destruct (split_from sep "" r) as [|p ps] eqn:Hsplit;
        [contradiction|].
      rewrite Hjoin. reflexivity.
    + destruct (IH (acc +:+ String c "")) as (Hjoin & Hparts & Hne).
      { rewrite occurs_append, Hacc. cbn. rewrite Hc. reflexivity. }
      split; [|split; assumption]. rewrite Hjoin, append_assoc. reflexivity.
Qed.

Lemma split_from_none (sep : ascii) (b : string) :
  occurs sep b = false -> forall acc, split_from sep acc b = [acc +:+ b].
Proof.
  induction b as [|y b IH]; intros Hb acc; cbn.
  - rewrite append_empty_r. reflexivity.
  - cbn in Hb. apply orb_false_elim in Hb as [Hy Hb]. rewrite Hy.
    rewrite (IH Hb), append_assoc. reflexivity.
Qed.

Lemma split_of_two (sep : ascii) (a b : string) :
  occurs sep a = false -> occurs sep b = false ->
  forall acc, split_from sep acc (a +:+ String sep b) = [acc +:+ a; b].
Proof.
  intros Ha Hb. induction a as [|x a IH]; intros acc; cbn.
  - rewrite Ascii.eqb_refl, append_empty_r, (split_from_none sep b Hb). reflexivity.
  - cbn in Ha. apply orb_false_elim in Ha as [Hx Ha]. rewrite Hx.
    rewrite (IH Ha), append_assoc. reflexivity.
Qed.

End Strings.

(** X11: trailing emoji presentation selectors (U+FE0F) are ignored
    by [handle_matrix_reaction]: a reaction followed by any number of
    them is handled exactly as the reaction without them, whatever the
    portal, the store and the outside are. *)
Theorem reaction_ignores_trailing_selectors {Ext : Type} (env : Portal.Env Ext)
    (sender : Portal.User) (reaction_id target_id : EventID) (reaction : text)
    (n : nat) (s : Portal.machine Ext) :
  Portal.handle_matrix_reaction env sender reaction_id target_id
    (reaction ++ replicate n VS16) s
  = Portal.handle_matrix_reaction env sender reaction_id target_id reaction s.
Proof.
  unfold Portal.handle_matrix_reaction. cbv zeta.
  rewrite rstrip_replicate by (apply list_elem_of_here). reflexivity.
Qed.

(** X12: [gcid_plain] returns the part after the colon exactly when
    the portal's id is one kind and one plain id joined by a single
    colon; the portal is left as it is. For any other id (no colon, or
    more than one) it raises [ValueError]. *)
Theorem gcid_plain_unpacks {Ext : Type} (s : Portal.machine Ext) :
  (forall kind plain,
      Chars.occurs ":" kind = false -> Chars.occurs ":" plain = false ->
      Portal.gcid (Portal.self s) = kind +:+ String ":" plain ->
      Portal.gcid_plain s = (Portal.Ok plain, s))
  /\ (forall plain,
        fst (Portal.gcid_plain s) = Portal.Ok plain ->
        exists kind,
          Portal.gcid (Portal.self s) = kind +:+ String ":" plain
          /\ Chars.occurs ":" kind = false /\ Chars.occurs ":" plain = false)
  /\ (forall e, fst (Portal.gcid_plain s) = Portal.Raise e ->
        e = Portal.ValueError "not enough or too many values to unpack").
Proof.
  unfold Portal.gcid_plain. rewrite bind_run. cbn [Portal.get_self]. unfold split.
  split; [|split].
  - intros kind plain Hkind Hplain Hid. rewrite Hid.
    rewrite (split_of_two ":" kind plain Hkind Hplain ""). reflexivity.
  - intros plain.
    destruct (split_from_spec ":" (Portal.gcid (Portal.self s)) "" eq_refl)
      as (Hjoin & Hparts & _).
    destruct (split_from ":" "" (Portal.gcid (Portal.self s))) as [|a [|b [|c rest]]];
      cbn; try discriminate.
    intros Hok. injection Hok as <-. exists a. cbn in Hjoin.
    inversion Hparts as [|? ? Ha Hrest]; subst. inversion Hrest as [|? ? Hb _]; subst.
    split; [symmetry; exact Hjoin|]. split; assumption.
  - intros e.
    destruct (split_from ":" "" (Portal.gcid (Portal.self s))) as [|a [|b [|c rest]]];
      cbn; intros He; first [discriminate He | injection He as <-; reflexivity].
Qed.

Lemma gcid_plain_unpacks_witness :
  Portal.gcid_plain (Samples.start Samples.dm_portal)
  = (Portal.Ok "abc", Samples.start Samples.dm_portal).
Proof.
  apply (proj1 (gcid_plain_unpacks (Samples.start Samples.dm_portal)) "dm" "abc");
    reflexivity.
Defined.

(** ** More of the foreign download *)
Section DownloadEdges.
Import Download Chars.
Local Arguments append s1%_string s2%_string : simpl nomatch.

(** Without a cap the first read takes the whole body. *)
Lemma read_blocks_all (max_size : Z) (s : stream) :
  max_size < 0 ->
  exists blocks rest,
    read_blocks (S (total s)) max_size s [] = Some (blocks, rest)
    /\ concat blocks = concat s /\ rest = [].
Proof.
  intros Hneg. rewrite read_blocks_round. unfold read.
  destruct (Z.eqb_spec max_size 0) as [H0|_]; [lia|].
  destruct (Z.ltb_spec max_size 0) as [_|Hpos]; [|lia].
  destruct (concat s) as [|x b] eqn:Hbody.
  - exists [], []. split; [reflexivity|]. split; reflexivity.
  - unfold total. rewrite Hbody. cbn [length]. rewrite read_blocks_round. unfold read.
    destruct (Z.eqb_spec (max_size - Z.of_nat (S (length b))) 0) as [H0|_]; [lia|].
    destruct (Z.ltb_spec (max_size - Z.of_nat (S (length b))) 0) as [_|Hpos]; [|lia].
    cbn. exists [x :: b], []. split; [reflexivity|]. cbn. rewrite app_nil_r.
    split; reflexivity.
Qed.

Lemma last_segment_from_spec (path : string) :
  forall acc, occurs "/" acc = false ->
    occurs "/" (last_segment_from acc path) = false
    /\ exists dir,
         acc +:+ path = dir +:+ last_segment_from acc path
         /\ (dir = "" \/ exists d, dir = d +:+ "/").
Proof.
  induction path as [|c r IH]; intros acc Hacc; cbn [last_segment_from].
  - split; [exact Hacc|]. exists "". split; [|left; reflexivity].
    cbn. apply append_empty_r.
  - destruct (Ascii.eqb c "/") eqn:Hc.
    + apply Ascii.eqb_eq in Hc. subst c.
      destruct (IH "" eq_refl) as (Hnone & dir & Hsplit & Hdir).
      split; [exact Hnone|]. cbn in Hsplit.
      exists (acc +:+ String "/" dir). split.
      * rewrite append_assoc. f_equal. cbn. f_equal. exact Hsplit.
      * right. destruct Hdir as [->|(d & ->)].
        -- exists acc. reflexivity.
        -- exists (acc +:+ String "/" d). rewrite append_assoc. reflexivity.
    + destruct (IH (acc +:+ String c "")) as (Hnone & dir & Hsplit & Hdir).
      { rewrite occurs_append, Hacc. cbn. rewrite Hc. reflexivity. }
      split; [exact Hnone|]. exists dir. split; [|exact Hdir].
      rewrite <- Hsplit, append_assoc. reflexivity.
Qed.

End DownloadEdges.

(** X13: a cap that is not positive switches the size check off. For
    a status below 400 and a length header that is absent or an integer
    (however large), the download never ends with the too-large error:
    with cap 0 nothing is read and the data is empty; with a negative cap
    the whole body is read. *)
Theorem download_without_positive_cap (sniff : Download.bytes -> string)
    (url_path : string) (max_size : Z) (resp : Download.response) :
  max_size <= 0 -> Download.status resp < 400 ->
  Download.content_length resp <> Download.LenMalformed ->
  exists dl rest,
    Download._download_external_attachment sniff url_path max_size resp = (inr dl, rest)
    /\ Download.data dl
       = (if max_size =? 0 then [] else concat (Download.body resp))
    /\ rest = (if max_size =? 0 then Download.body resp else []).
Proof.
  intros Hcap Hstatus Hheader. unfold Download._download_external_attachment.
  destruct (Z.leb_spec 400 (Download.status resp)) as [Hbad|_]; [lia|].
  assert (Hint : exists declared,
             Download.header_int (Download.content_length resp) = inr declared).
  { destruct (Download.content_length resp); cbn; eauto. contradiction. }
  destruct Hint as (declared & ->).
  destruct (Z.ltb_spec 0 max_size) as [Hpos|_]; [lia|]. cbn [andb].
  destruct (Z.eqb_spec max_size 0) as [->|Hnz].
  - rewrite read_blocks_round. cbn. eexists _, _. split; [reflexivity|].
    split; reflexivity.
  - destruct (read_blocks_all max_size (Download.body resp)) as (blocks & rest & -> & Hall & ->);
      [lia|].
    eexists _, _. split; [reflexivity|]. split; [exact Hall | reflexivity].
Qed.

Lemma download_without_positive_cap_witness :
  exists dl,
    Download._download_external_attachment Samples.sniff_none "/a/cat.png" 0
      Samples.oversized_declared = (inr dl, Download.body Samples.oversized_declared)
    /\ Download.data dl = [].
Proof.
  destruct (download_without_positive_cap Samples.sniff_none "/a/cat.png" 0
              Samples.oversized_declared ltac:(lia) ltac:(cbn; lia) ltac:(discriminate))
    as (dl & rest & Hrun & Hdata & Hrest).
  exists dl. cbn in Hdata, Hrest. subst rest. split; [exact Hrun | exact Hdata].
Defined.



(** X15: the file name of a download is the part of the URL path
    after its last slash: it holds no slash, and the path is a prefix
    that is empty or ends with a slash, followed by the name. *)
Theorem download_filename_is_last_segment (sniff : Download.bytes -> string)
    (url_path : string) (max_size : Z) (resp : Download.response)
    (dl : Download.download) (rest : Download.stream) :
  Download._download_external_attachment sniff url_path max_size resp = (inr dl, rest) ->
  Chars.occurs "/" (Download.filename dl) = false
  /\ exists dir,
       url_path = dir +:+ Download.filename dl
       /\ (dir = "" \/ exists d, dir = d +:+ "/").
Proof.
  unfold Download._download_external_attachment.
  destruct (400 <=? Download.status resp); [discriminate|].
  destruct (Download.header_int (Download.content_length resp)) as [e|declared];
    [discriminate|].
  destruct ((0 <? max_size) && (max_size <? declared)); [discriminate|].
  destruct (Download.read_blocks _ _ _ _) as [[blocks rest']|]; [|discriminate].
  intros Hrun. injection Hrun as <- _. cbn [Download.filename].
  apply (last_segment_from_spec url_path "" eq_refl).
Qed.

Lemma download_filename_is_last_segment_witness :
  exists dl rest,
    Download._download_external_attachment Samples.sniff_none "/a/cat.png" 3
      Samples.oversized_undeclared = (inr dl, rest)
    /\ Chars.occurs "/" (Download.filename dl) = false.
Proof.
  eexists _, _. split; [vm_compute; reflexivity|].
  apply (download_filename_is_last_segment Samples.sniff_none "/a/cat.png" 3
           Samples.oversized_undeclared _ _ eq_refl).
Defined.

(** ** Redactions, typing, remote reactions *)
Section WideFacts.
Import Portal Wide.
Context {Ext : Type}.
Variable world : World Ext.
Local Abbreviation only_calls := (@Frame.only_calls Ext).

Lemma wbind_run {A B} (m : W A) (k : A -> W B) (s : room Ext) :
  wbind m k s = match m s with
                | (Ok a, s') => k a s'
                | (Raise e, s') => (Raise e, s')
                end.
Proof. reflexivity. Qed.

Lemma lift_run {A} (m : @M Ext A) (s : room Ext) :
  lift m s = (fst (m (base s)),
              {| base := snd (m (base s)); typing := typing s; made := made s |}).
Proof. reflexivity. Qed.

Lemma do_run (a : action) (s : room Ext) :
  do world a s
  = (fst (respond world a (ext (base s))),
     {| base := with_ext (snd (respond world a (ext (base s)))) (base s);
        typing := typing s;
        made := made s ++ [ {| act := a; at_store := db (base s) |} ] |}).
Proof. reflexivity. Qed.

(** The report that ends a redaction: calls of [Portal], none of
    them to the remote network, and nothing else. *)
Lemma redaction_report_run (sender : User) (redaction_id : EventID)
    (good : redaction_outcome) (r : result unit) (s : room Ext) :
  let report :=
    match r with
    | Ok _ => wbind (lift (_rec_success (old world) sender redaction_id ROOM_REDACTION None))
                (fun _ => wret good)
    | Raise e => wbind (lift (_rec_error (old world) sender e redaction_id ROOM_REDACTION None))
                   (fun _ => wret (RedactionFailed e))
    end in
  only_calls quiet (base s) (base (snd (report s)))
  /\ typing (snd (report s)) = typing s
  /\ made (snd (report s)) = made s
  /\ match fst (report s) with
     | Ok o => o = match r with Ok _ => good | Raise e => RedactionFailed e end
     | Raise _ => True
     end.
Proof.
  destruct r as [[]|e]; cbv zeta; rewrite wbind_run, lift_run.
  - pose proof (rec_success_only_calls (old world) sender redaction_id ROOM_REDACTION None
                  (base s)) as Hcalls.
    destruct (_rec_success (old world) sender redaction_id ROOM_REDACTION None (base s))
      as [[[]|e'] b]; cbn in *; auto.
  - pose proof (rec_error_only_calls (old world) sender e redaction_id ROOM_REDACTION None
                  (base s)) as Hcalls.
    destruct (_rec_error (old world) sender e redaction_id ROOM_REDACTION None (base s))
      as [[[]|e'] b]; cbn in *; auto.
Qed.

End WideFacts.

(** X16: the redaction of a bridged message in the home network
    deletes its row before the remote network is asked, and the row
    stays deleted whether the remote deletion succeeds or not. The
    remote deletion is asked once, for the row's chat, thread and id; no
    other message row and no reaction row is touched, and the end is
    reported as a success or as the failure of the call. *)
Theorem redacted_message_row_is_deleted {Ext : Type} (world : Wide.World Ext)
    (sender : Portal.User) (target_id redaction_id : EventID) (s : Wide.room Ext)
    (target : Store.Message) :
  Store.message_get_by_mxid (Some target_id) (Portal.mxid (Portal.self (Wide.base s)))
    (Portal.db (Wide.base s)) = Some target ->
  let run := Wide.handle_matrix_redaction world sender target_id redaction_id s in
  let remote := Wide.RemoteDeleteMessage sender (Store.gc_chat target)
                  (Store.gc_parent_id target) (Store.gcid target) in
  Portal.db (Wide.base (snd run))
  = StoreMore.message_delete target (Portal.db (Wide.base s))
  /\ Wide.made (snd run)
     = Wide.made s
         ++ [ {| Wide.act := remote;
                 Wide.at_store := StoreMore.message_delete target (Portal.db (Wide.base s)) |} ]
  /\ (forall o, fst run = Portal.Ok o ->
        o = match fst (Wide.respond world remote (Portal.ext (Wide.base s))) with
            | Portal.Ok _ => Wide.MessageRedacted
            | Portal.Raise e => Wide.RedactionFailed e
            end).
Proof.
  intros Htarget run remote. subst run. unfold Wide.handle_matrix_redaction.
  rewrite wbind_run, lift_run. cbn [Portal.get_self fst snd].
  rewrite wbind_run, lift_run. cbn [Portal.get_db fst snd Wide.base].
  rewrite Htarget. rewrite wbind_run, lift_run. cbn [Portal.modify_db fst snd Wide.base].
  unfold Wide.wtry_else. rewrite do_run. fold remote.
  cbn [Wide.base Wide.typing Wide.made Portal.with_db Portal.ext Portal.db].
  set (s1 := {| Wide.base := _; Wide.typing := _; Wide.made := _ |}).
  pose proof (redaction_report_run world sender redaction_id Wide.MessageRedacted
                (fst (Wide.respond world remote (Portal.ext (Wide.base s)))) s1) as Hreport.
  cbv zeta in Hreport.
  destruct (fst (Wide.respond world remote (Portal.ext (Wide.base s)))) as [[]|e];
    destruct Hreport as ((_ & Hdb & _) & _ & Hmade & Hout);
    (split; [rewrite Hdb; reflexivity|]); (split; [rewrite Hmade; reflexivity|]);
    intros o Ho; rewrite Ho in Hout; exact Hout.
Qed.

Lemma redacted_message_row_is_deleted_witness :
  let run := Wide.handle_matrix_redaction (MoreSamples.world MoreSamples.delete_fails)
               Samples.alice "$hello" "$redaction"
               (MoreSamples.room_of Samples.dm_portal) in
  fst run = Portal.Ok (Wide.RedactionFailed (Portal.Exception "unavailable"))
  /\ Store.messages (Portal.db (Wide.base (snd run))) = [Samples.other_row].
Proof.
  intros run.
  destruct (redacted_message_row_is_deleted (MoreSamples.world MoreSamples.delete_fails)
              Samples.alice "$hello" "$redaction" (MoreSamples.room_of Samples.dm_portal)
              Samples.hello_row eq_refl) as (Hdb & _ & Hout).
  fold run in Hdb, Hout. split; [|rewrite Hdb; reflexivity].
  assert (Hok : exists o, fst run = Portal.Ok o) by (vm_compute; eexists; reflexivity).
  destruct Hok as (o & Ho). rewrite Ho. f_equal. apply (Hout o Ho).
Defined.

(** X17: the redaction of a bridged reaction in the home network (an
    event that is no message row of the room but a reaction row)
    deletes the reaction row first. If the message it reacted to is
    still stored, the remote network is then asked once to remove the
    stored emoji from that message; if not, nothing reaches the remote
    network and the redaction is reported as failed with the
    [AttributeError]. The row stays deleted in every case. *)
Theorem redacted_reaction_row_is_deleted {Ext : Type} (world : Wide.World Ext)
    (sender : Portal.User) (target_id redaction_id : EventID) (s : Wide.room Ext)
    (reaction : Store.Reaction) :
  Store.message_get_by_mxid (Some target_id) (Portal.mxid (Portal.self (Wide.base s)))
    (Portal.db (Wide.base s)) = None ->
  StoreMore.reaction_get_by_mxid target_id (Portal.mxid (Portal.self (Wide.base s)))
    (Portal.db (Wide.base s)) = Some reaction ->
  let run := Wide.handle_matrix_redaction world sender target_id redaction_id s in
  let after := StoreMore.reaction_delete reaction (Portal.db (Wide.base s)) in
  Portal.db (Wide.base (snd run)) = after
  /\ Wide.made (snd run) = Wide.made s
  /\ exists new,
       Portal.trace (Wide.base (snd run)) = Portal.trace (Wide.base s) ++ new
       /\ match Store.message_get_by_gcid (Store.gc_msgid reaction)
                  (Store.r_gc_chat reaction) (Store.r_gc_receiver reaction) 0
                  (Portal.db (Wide.base s)) with
          | Some message =>
              exists later,
                new = {| Portal.what :=
                           Portal.RemoteReact sender (Store.r_gc_chat reaction)
                             (Store.gc_parent_id message) (Store.gcid message)
                             (Store.emoji reaction) true;
                         Portal.seen := Portal.self (Wide.base s);
                         Portal.stored := after |} :: later
                /\ Forall (fun st => Portal.is_remote_call (Portal.what st) = false) later
          | None =>
              Forall (fun st => Portal.is_remote_call (Portal.what st) = false) new
              /\ forall o, fst run = Portal.Ok o ->
                   o = Wide.RedactionFailed
                         (Portal.AttributeError
                            "'NoneType' object has no attribute 'gc_parent_id'")
          end.
Proof.
  intros Hmessage Hreaction run after. subst run. unfold Wide.handle_matrix_redaction.
  rewrite wbind_run, lift_run. cbn [Portal.get_self fst snd].
  rewrite wbind_run, lift_run. cbn [Portal.get_db fst snd Wide.base].
  rewrite Hmessage, Hreaction. cbv zeta.
  rewrite wbind_run, lift_run. cbn [Portal.modify_db fst snd Wide.base].
  unfold Wide.wtry_else.
  assert (Hquiet : forall l : list Portal.step,
             Forall (fun st => Frame.quiet (Portal.what st) = true
                               /\ Portal.seen st = Portal.self (Wide.base s)
                               /\ Portal.stored st = after) l ->
             Forall (fun st => Portal.is_remote_call (Portal.what st) = false) l).
  { intros l Hl. eapply Forall_impl; [exact Hl|]. intros st (Hq & _).
    apply quiet_not_remote, Hq. }
  destruct (Store.message_get_by_gcid (Store.gc_msgid reaction) (Store.r_gc_chat reaction)
              (Store.r_gc_receiver reaction) 0 (Portal.db (Wide.base s))) as [message|].
  - rewrite lift_run, perform_run. cbn [fst snd Wide.base Wide.typing Wide.made].
    set (remote := Portal.RemoteReact _ _ _ _ _ _).
    set (b1 := Portal.with_db _ (Wide.base s)).
    set (s1 := {| Wide.base := Portal.performed remote _ b1; Wide.typing := _; Wide.made := _ |}).
    pose proof (redaction_report_run world sender redaction_id Wide.ReactionRedacted
                  (fst (Portal.answer (Wide.old world) remote (Portal.ext b1))) s1) as Hreport.
    cbv zeta in Hreport.
    destruct (fst (Portal.answer (Wide.old world) remote (Portal.ext b1))) as [[]|e];
      destruct Hreport as ((_ & Hdb & later & Htrace & Hlater) & _ & Hmade & _);
      (split; [rewrite Hdb; reflexivity|]); (split; [rewrite Hmade; reflexivity|]);
      exists (Portal.step_of remote b1 :: later);
      (split; [rewrite Htrace; cbn; rewrite <- app_assoc; reflexivity|]);
      exists later; (split; [reflexivity|]); apply Hquiet; exact Hlater.
  - cbn [Wide.wraise].
    set (s1 := {| Wide.base := _; Wide.typing := _; Wide.made := _ |}).
    pose proof (redaction_report_run world sender redaction_id Wide.ReactionRedacted
                  (Portal.Raise (Portal.AttributeError
                                   "'NoneType' object has no attribute 'gc_parent_id'"))
                  s1) as Hreport.
    cbv zeta in Hreport.
    destruct Hreport as ((_ & Hdb & new & Htrace & Hnew) & _ & Hmade & Hout).
    split; [rewrite Hdb; reflexivity|]. split; [rewrite Hmade; reflexivity|].
    exists new. split; [rewrite Htrace; reflexivity|].
    split; [apply Hquiet; exact Hnew|].
    intros o Ho. rewrite Ho in Hout. exact Hout.
Qed.

Lemma redacted_reaction_row_is_deleted_witness :
  let run := Wide.handle_matrix_redaction (MoreSamples.world MoreSamples.no_action)
               Samples.alice "$thumbs" "$redaction"
               (MoreSamples.room_of Samples.dm_portal) in
  Store.reactions (Portal.db (Wide.base (snd run))) = []
  /\ Wide.made (snd run) = [].
Proof.
  intros run.
  destruct (redacted_reaction_row_is_deleted (MoreSamples.world MoreSamples.no_action)
              Samples.alice "$thumbs" "$redaction" (MoreSamples.room_of Samples.dm_portal)
              Samples.thumbs_row eq_refl eq_refl) as (Hdb & Hmade & _).
  fold run in Hdb, Hmade. split; [rewrite Hdb; reflexivity | exact Hmade].
Defined.

(** ** Typing in the home network *)
Section WideTyping.
Import Portal Wide.
Context {Ext : Type}.
Variable world : World Ext.

(** Building the map of users asks for each of them and changes
    nothing; the map has one entry per user asked for. *)
Lemma user_map_of_run (mxids : list UserID) :
  forall s : room Ext,
    self (base (snd (user_map_of world mxids s))) = self (base s)
    /\ trace (base (snd (user_map_of world mxids s))) = trace (base s)
    /\ typing (snd (user_map_of world mxids s)) = typing s
    /\ forall user_map, fst (user_map_of world mxids s) = Ok user_map ->
         user_map.*1 = mxids.
Proof.
  induction mxids as [|mxid rest IH]; intros s.
  - cbn. repeat (split; [reflexivity|]). intros user_map H. injection H as <-. reflexivity.
  - cbn [user_map_of]. rewrite wbind_run, do_run.
    destruct (fst (respond world (UserGetByMxid mxid) (ext (base s)))) as [user|e].
    2:{ cbn. repeat (split; [reflexivity|]). intros user_map H. discriminate H. }
    rewrite wbind_run.
    match goal with
    | |- context [user_map_of world rest ?s1] =>
        destruct (IH s1) as (Hself & Htrace & Htyping & Hkeys);
        destruct (user_map_of world rest s1) as [[more|e] s2]
    end; cbn [fst snd] in *.
    + split; [exact Hself|]. split; [exact Htrace|]. split; [exact Htyping|].
      intros user_map H. injection H as <-. cbn. f_equal. apply Hkeys. reflexivity.
    + split; [exact Hself|]. split; [exact Htrace|]. split; [exact Htyping|].
      intros user_map H. discriminate H.
Qed.

Lemma user_map_get_none (user_map : list (UserID * option User)) (mxid : UserID) :
  mxid ∉ user_map.*1 -> user_map_get user_map mxid = None.
Proof.
  induction user_map as [|[k v] rest IH]; intros Hout; cbn; [reflexivity|].
  destruct (String.eqb_spec k mxid) as [->|Hne].
  - exfalso. apply Hout. cbn. apply list_elem_of_here.
  - apply IH. intros Hin. apply Hout. cbn. apply list_elem_of_further, Hin.
Qed.

Lemma typing_changes_of_strangers user_map chat flag (mxids : list UserID) :
  Forall (fun mxid => mxid ∉ user_map.*1) mxids ->
  typing_changes world user_map chat flag mxids = [].
Proof.
  unfold typing_changes. induction mxids as [|mxid rest IH]; intros Hout;
    cbn [flat_map]; [reflexivity|].
  inversion Hout as [|? ? Hhead Hrest]; subst.
  rewrite (user_map_get_none _ _ Hhead), (IH Hrest). reflexivity.
Qed.

Lemma typing_changes_cons user_map chat flag mxid (rest : list UserID) :
  typing_changes world user_map chat flag (mxid :: rest)
  = match user_map_get user_map mxid with
    | Some user => [lift (perform (old world) (SetTyping user chat flag))]
    | None => []
    end ++ typing_changes world user_map chat flag rest.
Proof. reflexivity. Qed.

(** The changes of typing, awaited together, are calls of
    [set_typing] with the same chat and flag, and nothing else. *)
Lemma gather_typing_run user_map chat flag (mxids : list UserID) :
  forall s : room Ext,
    let run := gather (typing_changes world user_map chat flag mxids) s in
    typing (snd run) = typing s
    /\ made (snd run) = made s
    /\ self (base (snd run)) = self (base s)
    /\ db (base (snd run)) = db (base s)
    /\ exists new,
         trace (base (snd run)) = trace (base s) ++ new
         /\ Forall (fun st => exists user, what st = SetTyping user chat flag) new.
Proof.
  induction mxids as [|mxid rest IH]; intros s.
  - cbn. repeat (split; [reflexivity|]). exists []. rewrite app_nil_r.
    split; [reflexivity | constructor].
  - rewrite typing_changes_cons.
    destruct (user_map_get user_map mxid) as [user|]; cbn [app]; [|apply IH].
    set (tail := typing_changes world user_map chat flag rest) in *.
    cbn [gather]. rewrite lift_run, perform_run. cbn [fst snd].
    set (s1 := {| base := _; typing := _; made := _ |}).
    destruct (IH s1) as (Htyping & Hmade & Hself & Hdb & new & Htrace & Hnew).
    assert (Hboth :
              typing (snd (gather tail s1)) = typing s
              /\ made (snd (gather tail s1)) = made s
              /\ self (base (snd (gather tail s1))) = self (base s)
              /\ db (base (snd (gather tail s1))) = db (base s)
              /\ exists new0,
                   trace (base (snd (gather tail s1))) = trace (base s) ++ new0
                   /\ Forall (fun st => exists user0, what st = SetTyping user0 chat flag)
                        new0).
    { split; [exact Htyping|]. split; [exact Hmade|]. split; [exact Hself|].
      split; [exact Hdb|].
      exists (step_of (SetTyping user chat flag) (base s) :: new). split.
      - rewrite Htrace. cbn. rewrite <- app_assoc. reflexivity.
      - constructor; [eexists; reflexivity | exact Hnew]. }
    destruct (fst (answer (old world) (SetTyping user chat flag) (ext (base s))))
      as [[]|e]; cbv zeta; [|cbn [snd]]; 
      destruct (gather tail s1) as [r s2]; exact Hboth.
Qed.

End WideTyping.

(** X18: [handle_matrix_typing] never tells the remote network that
    somebody stopped typing. The map of users is built from the new set
    only, so no user who left the set is found in it: every
    [set_typing] call of the run is a start, for the portal's chat. When
    the handler returns, the stored set is the new one. *)
Theorem matrix_typing_never_sends_stop {Ext : Type} (world : Wide.World Ext)
    (users : gset UserID) (s : Wide.room Ext) :
  let run := Wide.handle_matrix_typing world users s in
  (forall r, fst run = Portal.Ok r -> Wide.typing (snd run) = users)
  /\ exists new,
       Portal.trace (Wide.base (snd run)) = Portal.trace (Wide.base s) ++ new
       /\ Forall (fun st =>
            exists user,
              Portal.what st
              = Portal.SetTyping user (Portal.gcid (Portal.self (Wide.base s))) true) new.
Proof.
  intros run. subst run. unfold Wide.handle_matrix_typing.
  rewrite wbind_run.
  destruct (user_map_of_run world (elements users) s) as (Hself & Htrace & Htyping & Hkeys).
  destruct (Wide.user_map_of world (elements users) s) as [[user_map|e] s1];
    cbn [fst snd] in *.
  2:{ split; [intros r H; discriminate H|]. exists []. rewrite app_nil_r.
      split; [exact Htrace | constructor]. }
  specialize (Hkeys user_map eq_refl).
  rewrite wbind_run, lift_run. cbn [Portal.get_self fst snd].
  rewrite wbind_run. cbn [Wide.get_typing]. cbv zeta.
  rewrite wbind_run. cbn [Wide.set_typing_set Wide.base].
  rewrite typing_changes_of_strangers.
  2:{ apply Forall_forall. intros mxid Hin. rewrite Hkeys.
      apply elem_of_elements in Hin. apply elem_of_difference in Hin as [_ Hout].
      intros Hin'. apply Hout. apply elem_of_elements. exact Hin'. }
  cbn [app].
  match goal with
  | |- context [Wide.gather (Wide.typing_changes world user_map ?chat true ?l) ?s2] =>
      destruct (gather_typing_run world user_map chat true l s2)
        as (Htyping2 & _ & _ & _ & new & Htrace2 & Hnew)
  end.
  cbn [Wide.typing Wide.base] in *. split.
  - intros r _. exact Htyping2.
  - exists new. split; [rewrite Htrace2, Htrace; reflexivity|].
    rewrite Hself in Hnew. exact Hnew.
Qed.

(** ** Reactions from the remote network *)
Section RemoteReactions.
Import Portal Wide.
Context {Ext : Type}.
Variable world : World Ext.

Lemma find_snoc {A} (f : A -> bool) (l : list A) (x : A) :
  List.find f l = None -> f x = true -> List.find f (l ++ [x]) = Some x.
Proof.
  induction l as [|y l IH]; cbn; intros Hnone Hx.
  - rewrite Hx. reflexivity.
  - destruct (f y); [discriminate Hnone | apply IH; assumption].
Qed.



End RemoteReactions.





(** ** Deletions in the remote network *)
Section RemoteRedactions.
Import Portal Wide.
Context {Ext : Type}.
Variable world : World Ext.

(** One round of the loop: the row goes, and the main intent, if
    there is one, is asked to redact its event; nothing is raised. *)
Lemma redact_rows_run (timestamp : Z) (rows : list Store.Message) :
  forall s : room Ext,
    let run := redact_rows world timestamp rows s in
    fst run = Ok tt
    /\ self (base (snd run)) = self (base s)
    /\ Store.reactions (db (base (snd run))) = Store.reactions (db (base s))
    /\ (forall m, In m (Store.messages (db (base (snd run)))) <->
                  In m (Store.messages (db (base s)))
                  /\ forall row, In row rows ->
                       Store.str_eq (Store.mxid m) (Store.mxid row)
                       && Store.str_eq (Store.mx_room m) (Store.mx_room row) = false)
    /\ exists new,
         made (snd run) = made s ++ new
         /\ (length new <= length rows)%nat
         /\ Forall (fun n => exists mi row,
                      In row rows
                      /\ act n = Redact mi (Store.mx_room row) (Store.mxid row)
                                   (Some (timestamp / 1000))) new.
Proof.
  induction rows as [|msg rest IH]; intros s.
  - cbn. split; [reflexivity|]. split; [reflexivity|]. split; [reflexivity|]. split.
    + intros m. split; [intros H; split; [exact H | intros row []] | intros [H _]; exact H].
    + exists []. rewrite app_nil_r. split; [reflexivity|]. split; [cbn; lia | constructor].
  - cbn [redact_rows]. cbv zeta. rewrite wbind_run, lift_run.
    cbn [modify_db fst snd base typing made].
    set (s1 := {| base := with_db (StoreMore.message_delete msg) (base s);
                  typing := typing s; made := made s |}).
    rewrite wbind_run.
    assert (Hround : exists s2 new,
               wtry_except
                 (wbind (lift main_intent)
                    (fun mi => do world (Redact mi (Store.mx_room msg) (Store.mxid msg)
                                           (Some (timestamp / 1000)))))
                 (fun _ => Some (wret tt)) s1 = (Ok tt, s2)
               /\ self (base s2) = self (base s)
               /\ db (base s2) = StoreMore.message_delete msg (db (base s))
               /\ made s2 = made s ++ new
               /\ (length new <= 1)%nat
               /\ Forall (fun n => exists mi,
                            act n = Redact mi (Store.mx_room msg) (Store.mxid msg)
                                      (Some (timestamp / 1000))) new).
    { unfold wtry_except. rewrite wbind_run, lift_run. unfold main_intent.
      rewrite bind_run. cbn [get_self fst snd].
      destruct (main_intent_mxid (self (base s1))) as [mi|].
      - cbn [ret fst snd]. rewrite do_run.
        destruct (fst (respond world _ _)) as [[]|e]; cbn [wret];
          eexists _, [_]; (split; [reflexivity|]); cbn;
          repeat (split; [first [reflexivity | cbn; lia]|]);
          (constructor; [eexists; reflexivity | constructor]).
      - cbn [raise fst snd wret]. eexists _, []. split; [reflexivity|]. cbn.
        rewrite app_nil_r. repeat (split; [first [reflexivity | cbn; lia]|]). constructor. }
    destruct Hround as (s2 & new & -> & Hself2 & Hdb2 & Hmade2 & Hlen2 & Hnew2).
    destruct (IH s2) as (Hok & Hself & Hreact & Hrows & more & Hmade & Hlen & Hmore).
    split; [exact Hok|]. split; [congruence|]. split.
    { rewrite Hreact, Hdb2. reflexivity. }
    split.
    + intros m. rewrite Hrows, Hdb2.
      cbn [StoreMore.message_delete Store.with_messages Store.messages].
      rewrite filter_In. split.
      * intros [[Hin Hkeep] Hothers]. split; [exact Hin|].
        intros row [<-|Hrow]; [|apply Hothers, Hrow].
        apply negb_true_iff in Hkeep. exact Hkeep.
      * intros [Hin Hall]. split; [split; [exact Hin|]|].
        -- apply negb_true_iff. apply Hall. left. reflexivity.
        -- intros row Hrow. apply Hall. right. exact Hrow.
    + exists (new ++ more). split; [rewrite Hmade, Hmade2, app_assoc; reflexivity|].
      split; [rewrite length_app; cbn; lia|].
      apply Forall_app. split.
      * eapply Forall_impl; [exact Hnew2|]. intros n (mi & Hact).
        exists mi, msg. split; [left; reflexivity | exact Hact].
      * eapply Forall_impl; [exact Hmore|]. intros n (mi & row & Hrow & Hact).
        exists mi, row. split; [right; exact Hrow | exact Hact].
Qed.

End RemoteRedactions.

(** X21: a message deleted in the remote network. The handler does
    not raise: a redaction that fails is passed over. With a room, no
    row of the deleted remote message is left in the conversation
    afterwards; no row is added and no reaction row changes; and the
    redactions asked for, at most one per row found, carry the time of
    the deletion in milliseconds. *)
Theorem remote_deletion_removes_every_row {Ext : Type} (world : Wide.World Ext)
    (evt : Wide.MessageDeletedEvent) (s : Wide.room Ext) :
  let run := Wide.handle_googlechat_redaction world evt s in
  let p := Portal.self (Wide.base s) in
  let found := StoreMore.message_get_all_by_gcid (Wide.de_message_id evt) (Portal.gcid p)
                 (Portal.gc_receiver p) (Portal.db (Wide.base s)) in
  fst run = Portal.Ok tt
  /\ (truthy (Portal.mxid p) = true ->
      StoreMore.message_get_all_by_gcid (Wide.de_message_id evt) (Portal.gcid p)
        (Portal.gc_receiver p) (Portal.db (Wide.base (snd run))) = [])
  /\ (forall m, In m (Store.messages (Portal.db (Wide.base (snd run)))) ->
                In m (Store.messages (Portal.db (Wide.base s))))
  /\ Store.reactions (Portal.db (Wide.base (snd run)))
     = Store.reactions (Portal.db (Wide.base s))
  /\ exists new,
       Wide.made (snd run) = Wide.made s ++ new
       /\ (length new <= length found)%nat
       /\ Forall (fun n => exists mi row,
                    In row found
                    /\ Wide.act n = Wide.Redact mi (Store.mx_room row) (Store.mxid row)
                                      (Some (Wide.de_timestamp evt / 1000))) new.
Proof.
  intros run p found. subst run. unfold Wide.handle_googlechat_redaction.
  rewrite wbind_run, lift_run. cbn [Portal.get_self fst snd Wide.base Wide.typing Wide.made].
  fold p.
  assert (Hnothing : forall s0 : Wide.room Ext,
             Wide.base s0 = Wide.base s -> Wide.made s0 = Wide.made s ->
             Store.reactions (Portal.db (Wide.base s0))
             = Store.reactions (Portal.db (Wide.base s))
             /\ exists new,
                  Wide.made s0 = Wide.made s ++ new
                  /\ (length new <= length found)%nat
                  /\ Forall (fun n => exists mi row,
                               In row found
                               /\ Wide.act n
                                  = Wide.Redact mi (Store.mx_room row) (Store.mxid row)
                                      (Some (Wide.de_timestamp evt / 1000))) new).
  { intros s0 Hbase Hmade. rewrite Hbase. split; [reflexivity|].
    exists []. rewrite app_nil_r. split; [exact Hmade|]. split; [cbn; lia | constructor]. }
  destruct (truthy (Portal.mxid p)) eqn:Hroom; cbn [negb].
  2:{ cbn [Wide.wret fst snd]. split; [reflexivity|]. split; [discriminate|].
      split; [intros m Hm; exact Hm|]. apply Hnothing; reflexivity. }
  rewrite wbind_run, lift_run. cbn [Portal.get_db fst snd Wide.base Wide.typing Wide.made].
  fold found.
  destruct found as [|row rows] eqn:Hfound.
  - cbn [Wide.wret fst snd]. split; [reflexivity|]. split; [intros _; exact Hfound|].
    split; [intros m Hm; exact Hm|]. apply Hnothing; reflexivity.
  - rewrite <- Hfound.
    match goal with
    | |- context [Wide.redact_rows world ?ts found ?s1] =>
        destruct (redact_rows_run world ts found s1)
          as (Hok & _ & Hreact & Hrows & new & Hmade & Hlen & Hnew)
    end.
    cbn [Wide.base Wide.made] in *.
    split; [exact Hok|]. split.
    { intros _. unfold StoreMore.message_get_all_by_gcid.
      match goal with
      | |- List.filter ?f ?l = [] =>
          destruct (List.filter f l) as [|m rest] eqn:Hleft; [reflexivity|];
          assert (Hm : In m (List.filter f l)) by (rewrite Hleft; left; reflexivity)
      end.
      apply filter_In in Hm as [Hin Hmatch]. apply Hrows in Hin as [Hin Hnot].
      assert (Hself : In m found).
      { unfold found, StoreMore.message_get_all_by_gcid. apply filter_In.
        split; [exact Hin | exact Hmatch]. }
      specialize (Hnot m Hself). unfold Store.str_eq in Hnot.
      rewrite !String.eqb_refl in Hnot. discriminate Hnot. }
    split; [intros m Hm; apply Hrows in Hm as [Hm _]; exact Hm|].
    split; [exact Hreact|].
    exists new. split; [exact Hmade|]. split; [exact Hlen | exact Hnew].
Qed.

(** ** Read receipts and typing in the remote network *)
Section RemoteSignals.
Import Portal Wide.
Context {Ext : Type}.
Variable world : World Ext.

(** The row a receipt marks is one of the conversation, not after
    the time asked for. *)
Lemma closest_before_spec (chat receiver : string) (ts : Z) (d : Store.db)
    (m : Store.Message) :
  StoreMore.message_get_closest_before chat receiver ts d = Some m ->
  In m (Store.messages d)
  /\ Store.gc_chat m = chat /\ Store.gc_receiver m = receiver
  /\ Store.timestamp m <= ts.
Proof.
  unfold StoreMore.message_get_closest_before.
  set (good := fun r => In r (Store.messages d)
                        /\ Store.gc_chat r = chat /\ Store.gc_receiver r = receiver
                        /\ Store.timestamp r <= ts).
  assert (Hfold : forall rows best,
             (forall r, In r rows -> In r (Store.messages d)) ->
             (forall b, best = Some b -> good b) ->
             forall b, fold_left
                         (fun best r =>
                            if Store.str_eq (Store.gc_chat r) chat
                               && Store.str_eq (Store.gc_receiver r) receiver
                               && (Store.timestamp r <=? ts)
                            then match best with
                                 | Some b => if Store.later b r then Some r else best
                                 | None => Some r
                                 end
                            else best) rows best = Some b -> good b).
  { induction rows as [|r rows IH]; intros best Hrows Hbest b; cbn [fold_left].
    - apply Hbest.
    - apply IH.
      + intros x Hx. apply Hrows. right. exact Hx.
      + intros b'.
        destruct (Store.str_eq (Store.gc_chat r) chat
                  && Store.str_eq (Store.gc_receiver r) receiver
                  && (Store.timestamp r <=? ts)) eqn:Hmatch; [|apply Hbest].
        apply andb_true_iff in Hmatch as [Hmatch Htime].
        apply andb_true_iff in Hmatch as [Hchat Hreceiver].
        assert (Hr : good r).
        { split; [apply Hrows; left; reflexivity|].
          split; [apply String.eqb_eq, Hchat|].
          split; [apply String.eqb_eq, Hreceiver | apply Z.leb_le, Htime]. }
        destruct best as [b0|].
        * destruct (Store.later b0 r); [intros H; injection H as <-; exact Hr | apply Hbest].
        * intros H. injection H as <-. exact Hr. }
  apply (Hfold (Store.messages d) None); [auto | discriminate].
Qed.

(** A receipt asks for the puppet and marks at most one row read. *)
Lemma mark_read_run (user_id : string) (ts : Z) (s : room Ext) :
  let run := mark_read world user_id ts s in
  self (base (snd run)) = self (base s)
  /\ db (base (snd run)) = db (base s)
  /\ made (snd run)
     = made s ++ [ {| act := PuppetLookup user_id; at_store := db (base s) |} ]
  /\ exists new,
       trace (base (snd run)) = trace (base s) ++ new
       /\ Forall (fun st =>
            forall intent room event, what st = MarkRead intent room event ->
              exists m,
                StoreMore.message_get_closest_before (gcid (self (base s)))
                  (gc_receiver (self (base s))) (ts / 1000) (db (base s)) = Some m
                /\ room = Some (Store.mx_room m) /\ event = Store.mxid m) new.
Proof.
  cbv zeta. unfold mark_read.
  rewrite wbind_run, lift_run. cbn [get_self fst snd base typing made].
  rewrite wbind_run, lift_run. cbn [get_db fst snd base typing made].
  rewrite wbind_run, do_run. cbn [fst snd base typing made].
  assert (Hnone : forall l : list step,
             l = [] ->
             Forall (fun st =>
               forall intent room event, what st = MarkRead intent room event ->
                 exists m,
                   StoreMore.message_get_closest_before (gcid (self (base s)))
                     (gc_receiver (self (base s))) (ts / 1000) (db (base s)) = Some m
                   /\ room = Some (Store.mx_room m) /\ event = Store.mxid m) l)
    by (intros l ->; constructor).
  destruct (fst (respond world (PuppetLookup user_id) (ext (base s)))) as [[pu|]|e];
    cbn [fst snd base made].
  - destruct (StoreMore.message_get_closest_before (gcid (self (base s)))
                (gc_receiver (self (base s))) (ts / 1000) (db (base s))) as [m|] eqn:Hm.
    + rewrite wbind_run, lift_run, perform_run. cbn [fst snd base typing made with_ext ext].
      match goal with
      | |- context [fst (answer (old world) (IntentFor pu) ?x)] =>
          destruct (fst (answer (old world) (IntentFor pu) x)) as [intent|e]
      end.
      * rewrite lift_run, perform_run. cbn. repeat (split; [reflexivity|]).
        eexists [_; _]. split; [rewrite <- app_assoc; reflexivity|].
        constructor; [intros ? ? ? H; discriminate H|].
        constructor; [|constructor].
        intros intent' room event H. cbn in H. injection H as _ <- <-.
        exists m. repeat split; reflexivity.
      * cbn. repeat (split; [reflexivity|]). eexists [_]. split; [reflexivity|].
        constructor; [intros ? ? ? H; discriminate H | constructor].
    + cbn. repeat (split; [reflexivity|]). exists []. rewrite app_nil_r.
      split; [reflexivity | constructor].
  - cbn. repeat (split; [reflexivity|]). exists []. rewrite app_nil_r.
    split; [reflexivity | constructor].
  - cbn. repeat (split; [reflexivity|]). exists []. rewrite app_nil_r.
    split; [reflexivity | constructor].
Qed.

End RemoteSignals.

(** X22: read receipts of the remote network never mark a message
    that is later than the receipt or of another conversation. Every
    [mark_read] call made for a list of receipts names the room and the
    event of a stored row of the portal's conversation whose time is at
    most the read time of one of the receipts, in milliseconds; the
    portal and the store are left as they are. *)
Theorem read_receipts_mark_earlier_rows {Ext : Type} (world : Wide.World Ext)
    (read_receipts : list Wide.ReadReceipt) (s : Wide.room Ext) :
  let run := Wide.handle_googlechat_read_receipts world read_receipts s in
  let p := Portal.self (Wide.base s) in
  Portal.self (Wide.base (snd run)) = p
  /\ Portal.db (Wide.base (snd run)) = Portal.db (Wide.base s)
  /\ exists new,
       Portal.trace (Wide.base (snd run)) = Portal.trace (Wide.base s) ++ new
       /\ Forall (fun st =>
            forall intent room event,
              Portal.what st = Portal.MarkRead intent room event ->
              exists rr m,
                In rr read_receipts
                /\ In m (Store.messages (Portal.db (Wide.base s)))
                /\ room = Some (Store.mx_room m) /\ event = Store.mxid m
                /\ Store.gc_chat m = Portal.gcid p
                /\ Store.gc_receiver m = Portal.gc_receiver p
                /\ Store.timestamp m <= Wide.rr_read_time_micros rr / 1000) new.
Proof.
  cbv zeta. revert s.
  induction read_receipts as [|rr rest IH]; intros s.
  - cbn. split; [reflexivity|]. split; [reflexivity|]. exists []. rewrite app_nil_r.
    split; [reflexivity | constructor].
  - cbn [Wide.handle_googlechat_read_receipts]. rewrite wbind_run.
    destruct (mark_read_run world (Wide.rr_user_id rr) (Wide.rr_read_time_micros rr) s)
      as (Hself & Hdb & _ & new & Htrace & Hnew).
    assert (Hhead : Forall (fun st =>
              forall intent room event,
                Portal.what st = Portal.MarkRead intent room event ->
                exists rr0 m,
                  In rr0 (rr :: rest)
                  /\ In m (Store.messages (Portal.db (Wide.base s)))
                  /\ room = Some (Store.mx_room m) /\ event = Store.mxid m
                  /\ Store.gc_chat m = Portal.gcid (Portal.self (Wide.base s))
                  /\ Store.gc_receiver m = Portal.gc_receiver (Portal.self (Wide.base s))
                  /\ Store.timestamp m <= Wide.rr_read_time_micros rr0 / 1000) new).
    { eapply Forall_impl; [exact Hnew|]. intros st Hst intent room event Hwhat.
      destruct (Hst intent room event Hwhat) as (m & Hm & Hroom & Hevent).
      apply closest_before_spec in Hm as (Hin & Hchat & Hreceiver & Htime).
      exists rr, m. split; [left; reflexivity|]. repeat (split; [assumption|]). exact Htime. }
    destruct (Wide.mark_read world (Wide.rr_user_id rr) (Wide.rr_read_time_micros rr) s)
      as [[[]|e] s1]; cbn [fst snd] in *.
    + destruct (IH s1) as (Hself' & Hdb' & more & Htrace' & Hmore).
      split; [congruence|]. split; [congruence|].
      exists (new ++ more). split; [rewrite Htrace', Htrace, app_assoc; reflexivity|].
      apply Forall_app. split; [exact Hhead|].
      eapply Forall_impl; [exact Hmore|]. intros st Hst intent room event Hwhat.
      destruct (Hst intent room event Hwhat)
        as (rr0 & m & Hrr & Hin & Hroom & Hevent & Hchat & Hreceiver & Htime).
      exists rr0, m. rewrite <- Hself, <- Hdb. split; [right; exact Hrr|].
      repeat (split; [assumption|]). exact Htime.
    + split; [exact Hself|]. split; [exact Hdb|]. exists new.
      split; [exact Htrace | exact Hhead].
Qed.

(** X23: typing in the remote network. Without a room the handler
    does nothing at all. With a room it makes at most one typing signal:
    in the portal's room, with a timeout of 6000 ms, and a start exactly
    when the status is [TYPING]. In a direct chat, for the ghost of the
    user the event came through, the signal is made only if that ghost
    is joined. *)
Theorem remote_typing_signal {Ext : Type} (world : Wide.World Ext)
    (source : Portal.User) (sender : string) (status : Z) (s : Wide.room Ext) :
  let run := Wide.handle_googlechat_typing world source sender status s in
  let p := Portal.self (Wide.base s) in
  (truthy (Portal.mxid p) = false -> run = (Portal.Ok tt, s))
  /\ (Wide.made (snd run) = Wide.made s
      \/ exists intent,
           Wide.made (snd run)
           = Wide.made s
               ++ [ {| Wide.act := Wide.SetTypingIn intent (Portal.mxid p)
                                     (status =? Wide.TYPING world) 6000;
                       Wide.at_store := Portal.db (Wide.base s) |} ])
  /\ (forall puppet membership,
        Portal.is_direct p = true ->
        fst (Portal.answer (Wide.old world) (Portal.PuppetGetByGcid sender)
               (Portal.ext (Wide.base s))) = Portal.Ok puppet ->
        Portal.pu_gcid puppet = Portal.u_gcid source ->
        fst (Portal.answer (Wide.old world)
               (Portal.GetMembership (Portal.mxid p) (Portal.pu_mxid puppet))
               (snd (Portal.answer (Wide.old world) (Portal.PuppetGetByGcid sender)
                       (Portal.ext (Wide.base s))))) = Portal.Ok membership ->
        Portal.is_JOIN membership = false ->
        Wide.made (snd run) = Wide.made s).
Proof.
  cbv zeta. unfold Wide.handle_googlechat_typing.
  rewrite wbind_run, lift_run. cbn [Portal.get_self fst snd Wide.base Wide.typing Wide.made].
  destruct (truthy (Portal.mxid (Portal.self (Wide.base s)))) eqn:Hroom; cbn [negb].
  2:{ split; [intros _; destruct s; reflexivity|]. split; [left; reflexivity|].
      intros; reflexivity. }
  split; [discriminate|].
  rewrite wbind_run, lift_run, perform_run. cbn [fst snd Wide.base Wide.typing Wide.made].
  destruct (fst (Portal.answer (Wide.old world) (Portal.PuppetGetByGcid sender)
                   (Portal.ext (Wide.base s)))) as [puppet|e].
  2:{ split; [left; reflexivity|]. intros ? ? _ H. discriminate H. }
  rewrite wbind_run.
  assert (Hsignal : forall (b : Portal.machine Ext),
             Portal.db b = Portal.db (Wide.base s) ->
             let s1 := {| Wide.base := b; Wide.typing := Wide.typing s;
                          Wide.made := Wide.made s |} in
             let go := Wide.wbind
                         (Wide.lift (Portal.perform (Wide.old world) (Portal.IntentFor puppet)))
                         (fun intent =>
                            Wide.do world
                              (Wide.SetTypingIn intent
                                 (Portal.mxid (Portal.self (Wide.base s)))
                                 (status =? Wide.TYPING world) 6000)) in
             Wide.made (snd (go s1)) = Wide.made s
             \/ exists intent,
                  Wide.made (snd (go s1))
                  = Wide.made s
                      ++ [ {| Wide.act := Wide.SetTypingIn intent
                                            (Portal.mxid (Portal.self (Wide.base s)))
                                            (status =? Wide.TYPING world) 6000;
                              Wide.at_store := Portal.db (Wide.base s) |} ]).
  { intros b Hdb. cbv zeta. rewrite wbind_run, lift_run, perform_run.
    cbn [fst snd Wide.base Wide.typing Wide.made].
    destruct (fst (Portal.answer (Wide.old world) (Portal.IntentFor puppet) (Portal.ext b)))
      as [intent|e]; [|left; reflexivity].
    right. exists intent. rewrite do_run. cbn. rewrite Hdb. reflexivity. }
  destruct (Portal.is_direct (Portal.self (Wide.base s))
            && String.eqb (Portal.pu_gcid puppet) (Portal.u_gcid source)) eqn:Hown.
  - rewrite wbind_run, lift_run, perform_run.
    cbn [fst snd Wide.base Wide.typing Wide.made Portal.performed Portal.ext Portal.self].
    destruct (fst (Portal.answer (Wide.old world)
                     (Portal.GetMembership (Portal.mxid (Portal.self (Wide.base s)))
                        (Portal.pu_mxid puppet))
                     (snd (Portal.answer (Wide.old world) (Portal.PuppetGetByGcid sender)
                             (Portal.ext (Wide.base s)))))) as [membership|e] eqn:Hmem.
    2:{ split; [left; reflexivity|]. intros puppet' membership' _ Hp _ Hm _.
        injection Hp as <-. rewrite Hmem in Hm. discriminate Hm. }
    cbn [Wide.wret]. destruct (Portal.is_JOIN membership) eqn:Hjoin; cbn [negb].
    + split; [apply Hsignal; reflexivity|].
      intros puppet' membership' _ Hp _ Hm Hnot. injection Hp as <-.
      rewrite Hmem in Hm. injection Hm as <-.
      rewrite Hjoin in Hnot. discriminate Hnot.
    + split; [left; reflexivity|]. intros; reflexivity.
  - cbn [Wide.wret negb]. split; [apply Hsignal; reflexivity|].
    intros puppet' membership' Hdirect Hp Hsame _ _. injection Hp as <-.
    rewrite Hdirect, Hsame, String.eqb_refl in Hown. discriminate Hown.
Qed.

(** ** The portals of the bridge *)
Section RegistryFacts.
Import Portal Registry.
Context {Ext : Type}.
Variable env : Env Ext.
Variable default_mxid : Puppet -> UserID.

Lemma gbind_run {A B} (m : G A) (k : A -> G B) (s : registry Ext) :
  gbind m k s = match m s with
                | (Ok a, s') => k a s'
                | (Raise e, s') => (Raise e, s')
                end.
Proof. reflexivity. Qed.

(** The guard of [postinit] always holds. *)
Lemma postinit_guard (p : portal) : truthy (other_user_id p) || negb (is_direct p) = true.
Proof.
  unfold is_direct. destruct (truthy (other_user_id p)); [reflexivity|].
  rewrite andb_false_r. reflexivity.
Qed.

(** [postinit] of the object just allocated. *)
Lemma postinit_of_new (p : portal) (s : registry Ext) :
  let s1 := snd (alloc p s) in
  let a := length (heap s) in
  let run := postinit env default_mxid a s1 in
  rows (snd run) = rows s
  /\ index_by_gcid (snd run) = <[gcid_full p := a]> (index_by_gcid s)
  /\ index_by_mxid (snd run)
     = (if truthy (mxid p) then <[or_else (mxid p) "" := a]> (index_by_mxid s)
        else index_by_mxid s)
  /\ (forall r, fst run = Ok r ->
        exists intent,
          heap (snd run) = heap s ++ [set_main_intent (Some intent) p]
          /\ (is_direct p = false -> intent = bot_mxid (config env)
                                     /\ outside (snd run) = outside s)
          /\ (is_direct p = true ->
              exists pu,
                fst (answer env (PuppetGetByGcid (or_else (other_user_id p) ""))
                       (outside s)) = Ok pu
                /\ intent = default_mxid pu)).
Proof.
  cbv zeta. unfold postinit, alloc. cbn [snd].
  rewrite gbind_run. unfold deref. cbn [heap].
  rewrite lookup_app_r by lia. rewrite Nat.sub_diag. cbn [lookup list_lookup].
  rewrite gbind_run. cbn [set_by_gcid]. rewrite gbind_run.
  assert (Hmxid : forall s0 : registry Ext,
             let m := match mxid p with
                      | Some room => if nonempty room
                                     then set_by_mxid room (length (heap s)) else gret tt
                      | None => gret tt
                      end in
             fst (m s0) = Ok tt
             /\ outside (snd (m s0)) = outside s0 /\ heap (snd (m s0)) = heap s0
             /\ index_by_gcid (snd (m s0)) = index_by_gcid s0
             /\ rows (snd (m s0)) = rows s0
             /\ index_by_mxid (snd (m s0))
                = (if truthy (mxid p)
                   then <[or_else (mxid p) "" := length (heap s)]> (index_by_mxid s0)
                   else index_by_mxid s0)).
  { intros s0. cbv zeta. unfold truthy, or_else.
    destruct (mxid p) as [room|]; [destruct (nonempty room)|]; cbn;
      repeat split; reflexivity. }
  match goal with
  | |- context [match match mxid p with _ => _ end ?s0 with _ => _ end] =>
      destruct (Hmxid s0) as (Hok & Hout & Hheap & Hgcid & Hrows & Hidx);
      cbv zeta in Hok, Hout, Hheap, Hgcid, Hrows, Hidx;
      destruct (match mxid p with
                | Some room => if nonempty room
                               then set_by_mxid room (length (heap s)) else gret tt
                | None => gret tt
                end s0) as [[[]|e] s2]; [|discriminate Hok]
  end.
  cbn [fst snd outside heap index_by_gcid index_by_mxid rows] in *.
  rewrite postinit_guard. rewrite gbind_run.
  destruct (is_direct p) eqn:Hdirect.
  - rewrite gbind_run. unfold ask. rewrite Hout.
    destruct (fst (answer env (PuppetGetByGcid (or_else (other_user_id p) "")) (outside s)))
      as [pu|e] eqn:Hpu; cbn [fst snd gret update outside heap index_by_gcid
                               index_by_mxid rows].
    + split; [exact Hrows|]. split; [exact Hgcid|]. split; [exact Hidx|].
      intros r _. exists (default_mxid pu). rewrite Hheap.
      split; [|split; [discriminate | intros _; exists pu; split; reflexivity]].
      apply list_eq. intros i. rewrite list_lookup_alter.
      destruct (Nat.eq_dec i (length (heap s))) as [->|Hne].
      * rewrite decide_True by reflexivity.
        rewrite !lookup_app_r by lia. rewrite Nat.sub_diag. reflexivity.
      * rewrite decide_False by congruence.
        destruct (Nat.lt_ge_cases i (length (heap s))) as [Hlt|Hge].
        -- rewrite !lookup_app_l by exact Hlt. reflexivity.
        -- rewrite !lookup_app_r by lia.
           destruct (i - length (heap s))%nat as [|k] eqn:Hk; [lia|]. reflexivity.
    + split; [exact Hrows|]. split; [exact Hgcid|]. split; [exact Hidx|].
      intros r H. discriminate H.
  - cbn [gret fst snd update outside heap index_by_gcid index_by_mxid rows].
    split; [exact Hrows|]. split; [exact Hgcid|]. split; [exact Hidx|].
    intros r _. exists (bot_mxid (config env)). rewrite Hheap.
    split; [|split; [intros _; split; [reflexivity | exact Hout] | discriminate]].
    apply list_eq. intros i. rewrite list_lookup_alter.
    destruct (Nat.eq_dec i (length (heap s))) as [->|Hne].
    * rewrite decide_True by reflexivity.
      rewrite !lookup_app_r by lia. rewrite Nat.sub_diag. reflexivity.
    * rewrite decide_False by congruence.
      destruct (Nat.lt_ge_cases i (length (heap s))) as [Hlt|Hge].
      -- rewrite !lookup_app_l by exact Hlt. reflexivity.
      -- rewrite !lookup_app_r by lia.
         destruct (i - length (heap s))%nat as [|k] eqn:Hk; [lia|]. reflexivity.
Qed.

End RegistryFacts.

(** X24: [get_by_gcid] gets or creates, once. When it returns a
    portal, the portal is registered under the id and the receiver (the
    empty receiver for an id that starts with ["space:"], whatever
    receiver was given), and asking again, in the state it left, returns
    the same object and changes nothing. If the portal was not
    registered before, it is a new object with that id and receiver and
    with its main intent set, and the store holds a row for it, loaded
    or inserted. *)
Theorem get_by_gcid_registers_once {Ext : Type} (env : Portal.Env Ext)
    (default_mxid : Portal.Puppet -> UserID) (gcid receiver : string)
    (s : Registry.registry Ext) (a : nat) :
  let run := Registry.get_by_gcid env default_mxid gcid receiver s in
  let stored_receiver := if startswith gcid "space:" then "" else receiver in
  let key := (gcid, stored_receiver) in
  fst run = Portal.Ok a ->
  Registry.index_by_gcid (snd run) !! key = Some a
  /\ Registry.get_by_gcid env default_mxid gcid receiver (snd run) = (Portal.Ok a, snd run)
  /\ (startswith gcid "space:" = true ->
      forall other,
        Registry.get_by_gcid env default_mxid gcid other (snd run) = (Portal.Ok a, snd run))
  /\ (Registry.index_by_gcid s !! key = None ->
      a = length (Registry.heap s)
      /\ Registry.row_by_gcid gcid stored_receiver (Registry.rows (snd run)) <> None
      /\ exists p,
           Registry.heap (snd run) !! a = Some p
           /\ Portal.gcid_full p = key
           /\ Portal.main_intent_mxid p <> None).
Proof.
  intros run stored_receiver key. subst run. unfold Registry.get_by_gcid. cbv zeta.
  fold stored_receiver. fold key.
  assert (Hagain : forall s' : Registry.registry Ext,
             Registry.index_by_gcid s' !! key = Some a ->
             Registry.index_by_gcid s' !! key = Some a
             /\ match Registry.index_by_gcid s' !! key with
                | Some a0 => (Portal.Ok a0, s')
                | None =>
                    match Registry.row_by_gcid gcid stored_receiver (Registry.rows s') with
                    | Some row =>
                        Registry.gbind (Registry.alloc (Registry.of_row row))
                          (fun a0 => Registry.gbind (Registry.postinit env default_mxid a0)
                                       (fun _ => Registry.gret a0)) s'
                    | None =>
                        Registry.gbind (Registry.alloc (Registry.blank gcid stored_receiver))
                          (fun a0 =>
                             Registry.gbind
                               (Registry.modify_rows
                                  (Registry.row_insert
                                     (Portal.row_of (Registry.blank gcid stored_receiver))))
                               (fun _ => Registry.gbind (Registry.postinit env default_mxid a0)
                                           (fun _ => Registry.gret a0))) s'
                    end
                end = (Portal.Ok a, s')
             /\ (startswith gcid "space:" = true ->
                 forall other,
                   match Registry.index_by_gcid s'
                           !! (gcid, if startswith gcid "space:" then "" else other) with
                   | Some a0 => (Portal.Ok a0, s')
                   | None =>
                       match Registry.row_by_gcid gcid
                               (if startswith gcid "space:" then "" else other)
                               (Registry.rows s') with
                       | Some row =>
                           Registry.gbind (Registry.alloc (Registry.of_row row))
                             (fun a0 => Registry.gbind (Registry.postinit env default_mxid a0)
                                          (fun _ => Registry.gret a0)) s'
                       | None =>
                           Registry.gbind
                             (Registry.alloc
                                (Registry.blank gcid
                                   (if startswith gcid "space:" then "" else other)))
                             (fun a0 =>
                                Registry.gbind
                                  (Registry.modify_rows
                                     (Registry.row_insert
                                        (Portal.row_of
                                           (Registry.blank gcid
                                              (if startswith gcid "space:" then ""
                                               else other)))))
                                  (fun _ =>
                                     Registry.gbind (Registry.postinit env default_mxid a0)
                                       (fun _ => Registry.gret a0))) s'
                       end
                   end = (Portal.Ok a, s'))).
  { intros s' Hidx. split; [exact Hidx|]. split; [rewrite Hidx; reflexivity|].
    intros Hspace other. unfold key, stored_receiver in Hidx. rewrite Hspace in *.
    rewrite Hidx. reflexivity. }
  destruct (Registry.index_by_gcid s !! key) as [a0|] eqn:Hcached.
  { cbn [fst snd]. intros Ha. injection Ha as ->.
    destruct (Hagain s Hcached) as (H1 & H2 & H3).
    split; [exact H1|]. split; [exact H2|]. split; [exact H3|]. discriminate. }
  assert (Hnew : forall (p : Portal.portal) (s0 : Registry.registry Ext),
             Portal.gcid_full p = key ->
             Registry.heap s0 = Registry.heap s ->
             Registry.index_by_gcid s0 = Registry.index_by_gcid s ->
             Registry.row_by_gcid gcid stored_receiver (Registry.rows s0) <> None ->
             let r := Registry.postinit env default_mxid (length (Registry.heap s0))
                        (snd (Registry.alloc p s0)) in
             forall a', fst r = Portal.Ok a' ->
               Registry.index_by_gcid (snd r) !! key = Some (length (Registry.heap s))
               /\ Registry.row_by_gcid gcid stored_receiver (Registry.rows (snd r)) <> None
               /\ exists q,
                    Registry.heap (snd r) !! length (Registry.heap s) = Some q
                    /\ Portal.gcid_full q = key
                    /\ Portal.main_intent_mxid q <> None).
  { intros p s0 Hkey Hheap Hindex Hrow r a' Hok. subst r.
    destruct (postinit_of_new env default_mxid p s0) as (Hrows & Hgcid & _ & Hobj).
    cbv zeta in Hrows, Hgcid, Hobj.
    destruct (Hobj a' Hok) as (intent & Hheap' & _).
    rewrite Hgcid, Hrows, Hheap'. rewrite Hkey, Hheap, Hindex.
    split; [apply lookup_insert_eq|]. split; [exact Hrow|].
    exists (Registry.set_main_intent (Some intent) p).
    rewrite lookup_app_r by lia. rewrite Nat.sub_diag.
    split; [reflexivity|]. split; [exact Hkey | discriminate]. }
  destruct (Registry.row_by_gcid gcid stored_receiver (Registry.rows s)) as [row|] eqn:Hrow.
  - rewrite gbind_run. cbn [Registry.alloc]. rewrite gbind_run.
    assert (Hkey : Portal.gcid_full (Registry.of_row row) = key).
    { unfold Registry.row_by_gcid in Hrow. apply List.find_some in Hrow as [_ Hsame].
      unfold Store.same_portal, Store.str_eq in Hsame.
      apply andb_true_iff in Hsame as [H1 H2].
      apply String.eqb_eq in H1. apply String.eqb_eq in H2.
      unfold Portal.gcid_full, Registry.of_row. cbn [Portal.gcid Portal.gc_receiver].
      rewrite H1, H2. reflexivity. }
    assert (Hstored0 : Registry.row_by_gcid gcid stored_receiver (Registry.rows s) <> None)
      by (rewrite Hrow; discriminate).
    pose proof (Hnew (Registry.of_row row) s Hkey eq_refl eq_refl Hstored0) as Hloaded.
    cbv zeta in Hloaded. cbn [Registry.alloc snd] in Hloaded.
    destruct (Registry.postinit env default_mxid (length (Registry.heap s)) _)
      as [[[]|e] s2]; [|cbn; discriminate].
    cbn [Registry.gret fst snd]. intros Ha. injection Ha as <-.
    destruct (Hloaded tt eq_refl) as (Hidx & Hstored & Hobj).
    cbn [snd] in Hidx, Hstored, Hobj.
    destruct (Hagain s2 Hidx) as (H1 & H2 & H3).
    split; [exact H1|]. split; [exact H2|]. split; [exact H3|].
    intros _. split; [reflexivity|]. split; [exact Hstored | exact Hobj].
  - rewrite gbind_run. cbn [Registry.alloc]. rewrite gbind_run.
    cbn [Registry.modify_rows]. rewrite gbind_run.
    set (inserted := Registry.row_insert (Portal.row_of (Registry.blank gcid stored_receiver))
                       (Registry.rows s)).
    assert (Hstored0 : Registry.row_by_gcid gcid stored_receiver inserted <> None).
    { unfold inserted, Registry.row_by_gcid, Registry.row_insert.
      cbn [Store.with_portals Store.portals].
      rewrite (find_snoc _ _ _ Hrow); [discriminate|].
      unfold Store.same_portal, Store.str_eq. cbn. rewrite !String.eqb_refl. reflexivity. }
    pose proof (Hnew (Registry.blank gcid stored_receiver)
                  {| Registry.outside := Registry.outside s; Registry.heap := Registry.heap s;
                     Registry.index_by_gcid := Registry.index_by_gcid s;
                     Registry.index_by_mxid := Registry.index_by_mxid s;
                     Registry.rows := inserted |} eq_refl eq_refl eq_refl Hstored0)
      as Hcreated.
    cbv zeta in Hcreated.
    cbn [Registry.alloc snd Registry.heap Registry.index_by_gcid Registry.rows
           Registry.outside Registry.index_by_mxid] in Hcreated.
    cbn [Registry.heap Registry.index_by_gcid Registry.rows Registry.outside
           Registry.index_by_mxid].
    destruct (Registry.postinit env default_mxid (length (Registry.heap s)) _)
      as [[[]|e] s2]; [|cbn; discriminate].
    cbn [Registry.gret fst snd]. intros Ha. injection Ha as <-.
    destruct (Hcreated tt eq_refl) as (Hidx & Hstored & Hobj).
    cbn [snd] in Hidx, Hstored, Hobj.
    destruct (Hagain s2 Hidx) as (H1 & H2 & H3).
    split; [exact H1|]. split; [exact H2|]. split; [exact H3|].
    intros _. split; [reflexivity|]. split; [exact Hstored | exact Hobj].
Qed.

Lemma get_by_gcid_registers_once_witness :
  let run := Registry.get_by_gcid (Samples.outside Samples.never) Portal.pu_mxid
               "dm:abc" "777" MoreSamples.cold in
  fst run = Portal.Ok 0%nat
  /\ Registry.get_by_gcid (Samples.outside Samples.never) Portal.pu_mxid "dm:abc" "777"
       (snd run) = (Portal.Ok 0%nat, snd run).
Proof.
  intros run.
  assert (Hout : fst run = Portal.Ok 0%nat) by (vm_compute; reflexivity).
  split; [exact Hout|].
  destruct (get_by_gcid_registers_once (Samples.outside Samples.never) Portal.pu_mxid
              "dm:abc" "777" MoreSamples.cold 0%nat Hout) as (_ & Hagain & _).
  exact Hagain.
Defined.

(** X25: [get_by_mxid] never creates a portal and never writes to
    the store. With no portal registered for the room and no row for it,
    it returns nothing and changes nothing. A portal it loads for a
    non-empty room id is registered under that id, so that asking again
    returns the same object and changes nothing. *)
Theorem get_by_mxid_never_creates {Ext : Type} (env : Portal.Env Ext)
    (default_mxid : Portal.Puppet -> UserID) (room : RoomID) (s : Registry.registry Ext) :
  let run := Registry.get_by_mxid env default_mxid room s in
  Registry.rows (snd run) = Registry.rows s
  /\ (fst run = Portal.Ok None -> snd run = s)
  /\ (Registry.index_by_mxid s !! room = None ->
      Registry.row_by_mxid room (Registry.rows s) = None ->
      run = (Portal.Ok None, s))
  /\ (forall a, fst run = Portal.Ok (Some a) -> nonempty room = true ->
        Registry.index_by_mxid (snd run) !! room = Some a
        /\ Registry.get_by_mxid env default_mxid room (snd run)
           = (Portal.Ok (Some a), snd run)).
Proof.
  intros run. subst run. unfold Registry.get_by_mxid.
  destruct (Registry.index_by_mxid s !! room) as [a0|] eqn:Hcached.
  { cbn [fst snd]. split; [reflexivity|]. split; [reflexivity|].
    split; [discriminate|]. intros a Ha _. injection Ha as <-.
    split; [exact Hcached|]. rewrite Hcached. reflexivity. }
  destruct (Registry.row_by_mxid room (Registry.rows s)) as [row|] eqn:Hrow.
  2:{ cbn [fst snd]. split; [reflexivity|]. split; [reflexivity|].
      split; [reflexivity|]. intros a Ha. discriminate Ha. }
  rewrite gbind_run. cbn [Registry.alloc]. rewrite gbind_run.
  destruct (postinit_of_new env default_mxid (Registry.of_row row) s)
    as (Hrows & _ & Hindex & _).
  cbv zeta in Hrows, Hindex. cbn [Registry.alloc snd] in Hrows, Hindex.
  assert (Hroom : Portal.mxid (Registry.of_row row) = Some room).
  { unfold Registry.row_by_mxid in Hrow. apply List.find_some in Hrow as [_ Hsame].
    cbn [Registry.of_row Portal.mxid].
    destruct (Store.p_mxid row) as [r|]; [|discriminate Hsame].
    apply String.eqb_eq in Hsame. rewrite Hsame. reflexivity. }
  rewrite Hroom in Hindex. cbn [truthy or_else] in Hindex.
  destruct (Registry.postinit env default_mxid (length (Registry.heap s)) _)
    as [[[]|e] s2]; cbn [Registry.gret fst snd] in *.
  - split; [exact Hrows|]. split; [discriminate|]. split; [discriminate|].
    intros a Ha Hnonempty. injection Ha as <-. rewrite Hnonempty in Hindex.
    assert (Hidx : Registry.index_by_mxid s2 !! room = Some (length (Registry.heap s)))
      by (rewrite Hindex; apply lookup_insert_eq).
    split; [exact Hidx|]. rewrite Hidx. reflexivity.
  - split; [exact Hrows|]. split; [discriminate|]. split; [discriminate|].
    intros a Ha. discriminate Ha.
Qed.

Lemma alter_last {A} (f : A -> A) (l : list A) (x : A) :
  alter f (length l) (l ++ [x]) = l ++ [f x].
Proof.
  apply list_eq. intros i. rewrite list_lookup_alter.
  destruct (Nat.eq_dec i (length l)) as [->|Hne].
  - rewrite decide_True by reflexivity.
    rewrite !lookup_app_r by lia. rewrite Nat.sub_diag. reflexivity.
  - rewrite decide_False by congruence.
    destruct (Nat.lt_ge_cases i (length l)) as [Hlt|Hge].
    + rewrite !lookup_app_l by exact Hlt. reflexivity.
    + rewrite !lookup_app_r by lia.
      destruct (i - length l)%nat as [|k] eqn:Hk; [lia|]. reflexivity.
Qed.

(** X26: a portal that [get_by_gcid] has to create (nothing is
    registered for the id and receiver, and the store has no row) acts
    as the bridge bot: it is a new object with nothing but its id and
    receiver, its row is inserted, it is registered under its key only,
    its main intent is the bot and no puppet is asked for, also for an
    id that starts with ["dm:"]. *)
Theorem created_portal_acts_as_bot {Ext : Type} (env : Portal.Env Ext)
    (default_mxid : Portal.Puppet -> UserID) (gcid receiver : string)
    (s : Registry.registry Ext) :
  let stored_receiver := if startswith gcid "space:" then "" else receiver in
  let new := Registry.blank gcid stored_receiver in
  Registry.index_by_gcid s !! (gcid, stored_receiver) = None ->
  Registry.row_by_gcid gcid stored_receiver (Registry.rows s) = None ->
  Registry.get_by_gcid env default_mxid gcid receiver s
  = (Portal.Ok (length (Registry.heap s)),
     {| Registry.outside := Registry.outside s;
        Registry.heap :=
          Registry.heap s
            ++ [Registry.set_main_intent (Some (Portal.bot_mxid (Portal.config env))) new];
        Registry.index_by_gcid :=
          <[(gcid, stored_receiver) := length (Registry.heap s)]> (Registry.index_by_gcid s);
        Registry.index_by_mxid := Registry.index_by_mxid s;
        Registry.rows := Registry.row_insert (Portal.row_of new) (Registry.rows s) |}).
Proof.
  intros stored_receiver new Hcached Hrow. unfold Registry.get_by_gcid. cbv zeta.
  fold stored_receiver. rewrite Hcached, Hrow. fold new.
  assert (Hroom : Portal.mxid new = None) by reflexivity.
  assert (Hother : truthy (Portal.other_user_id new) = false) by reflexivity.
  assert (Hdirect : Portal.is_direct new = false).
  { unfold Portal.is_direct. rewrite Hother. apply andb_false_r. }
  assert (Hkey : Portal.gcid_full new = (gcid, stored_receiver)) by reflexivity.
  clearbody new.
  unfold Registry.gbind, Registry.alloc, Registry.modify_rows, Registry.postinit,
    Registry.gbind, Registry.deref, Registry.set_by_gcid.
  cbn [Registry.heap Registry.outside Registry.index_by_gcid Registry.index_by_mxid
         Registry.rows].
  rewrite lookup_app_r by lia. rewrite Nat.sub_diag. cbn [lookup list_lookup].
  rewrite Hroom, Hother, Hdirect, Hkey.
  cbn [Registry.gret Registry.update orb negb Registry.heap Registry.outside
         Registry.index_by_gcid Registry.index_by_mxid Registry.rows].
  rewrite alter_last. reflexivity.
Qed.

Lemma created_portal_acts_as_bot_witness :
  fst (Registry.get_by_gcid (Samples.outside Samples.never) Portal.pu_mxid
         "dm:new" "777" MoreSamples.cold) = Portal.Ok 0%nat
  /\ (Portal.main_intent_mxid
        <$> Registry.heap (snd (Registry.get_by_gcid (Samples.outside Samples.never)
                                  Portal.pu_mxid "dm:new" "777" MoreSamples.cold)))
     = [Some "@googlechatbot:example.org"].
Proof.
  rewrite (created_portal_acts_as_bot (Samples.outside Samples.never) Portal.pu_mxid
             "dm:new" "777" MoreSamples.cold); [|reflexivity|reflexivity].
  split; reflexivity.
Defined.

(** ** The tables of the Hangouts bridge *)

(** X27: [init] binds every one of the six tables to the engine it
    is given: afterwards each class has that engine, its own table
    object and the columns of that object, whatever the classes held
    before. So a second [init] with another engine rebinds them all, as
    if the first had not been. *)
Theorem init_binds_every_table (Engine Meta Columns : Type)
    (table_object : HangoutsDb.table -> Meta) (columns_of : Meta -> Columns)
    (db_engine : Engine) (k : HangoutsDb.classes Engine Meta Columns)
    (tb : HangoutsDb.table) :
  HangoutsDb.init Engine Meta Columns table_object columns_of db_engine k tb
  = {| HangoutsDb.db := Some db_engine;
       HangoutsDb.t := Some (table_object tb);
       HangoutsDb.c := Some (columns_of (table_object tb)) |}
  /\ forall earlier,
       HangoutsDb.init Engine Meta Columns table_object columns_of db_engine
         (HangoutsDb.init Engine Meta Columns table_object columns_of earlier k) tb
       = HangoutsDb.init Engine Meta Columns table_object columns_of db_engine k tb.
Proof.
  assert (Hbound : forall e k0,
             HangoutsDb.init Engine Meta Columns table_object columns_of e k0 tb
             = {| HangoutsDb.db := Some e;
                  HangoutsDb.t := Some (table_object tb);
                  HangoutsDb.c := Some (columns_of (table_object tb)) |}).
  { intros e k0. destruct tb; reflexivity. }
  split; [apply Hbound|]. intros earlier. rewrite !Hbound. reflexivity.
Qed.
